(** * Camera-feed catalog: filter engine, multi-filter search and intent resolver

    A shallow embedding of [data_loader.py] (class [DataLoader]),
    [mcp_tools.py] (class [MCPTools]) and of the graph nodes of
    [query_agent.py] ([QueryAgent._parse_query], [_execute_tools],
    [_generate_response] and [query]), followed by the properties of the
    specification that were checked against them and by further
    properties of the code.

    Modelling conventions.
    - A pandas [DataFrame] is the list of its rows in row order; every row
      carries its index label, which pandas keeps through boolean-mask
      selection, [copy] and [sort_values].
    - Data frames are objects: the loader holds a reference into a heap of
      frames; boolean-mask selection, [copy] and [sort_values] allocate a
      new frame and column assignment updates a frame in place.
    - [sort_values] is called with pandas' default algorithm, which does
      not promise an order among equal keys; the algorithm is a parameter
      ([DataLoader.sort_kind]).  What pandas and numpy do with it is
      written out in [Pandas] and [Numpy], for the one statement about
      the order among equal scores.
    - Python values are the JSON-shaped values [pyval]; numbers are
      integers.  Keyword arguments of [search_feeds] are scalars.  Strings
      are byte strings and [upper]/[lower] act on the ASCII letters.
    - A Python exception is an outcome [Raise]; effects on the world made
      before the exception stay.
    - The entry [columns] of the result dictionaries (the CSV header, which
      includes pass-through columns) is left out.
    - The language model and [json.loads] are outside the program: they
      are functions of a record [QueryAgent.External], and every property
      holds for all of them.  [load_all_data] is modelled on the feed
      table only; the JSON files it also opens are taken to be readable. *)

From Stdlib Require Import ZArith String Ascii Bool List Sorted Permutation.
From stdpp Require Import base option list gmap strings sorting.

Local Open Scope string_scope.
Local Open Scope Z_scope.

(** ** Python strings *)

Module PyStr.

Definition upper_ascii (c : ascii) : ascii :=
  let n := nat_of_ascii c in
  if ((97 <=? n) && (n <=? 122))%nat then ascii_of_nat (n - 32) else c.

Definition lower_ascii (c : ascii) : ascii :=
  let n := nat_of_ascii c in
  if ((65 <=? n) && (n <=? 90))%nat then ascii_of_nat (n + 32) else c.

Fixpoint map_chars (f : ascii -> ascii) (s : string) : string :=
  match s with
  | EmptyString => EmptyString
  | String c s' => String (f c) (map_chars f s')
  end.

(** [s.isascii()] *)
Fixpoint isascii (s : string) : bool :=
  match s with
  | EmptyString => true
  | String c s' => (nat_of_ascii c <? 128)%nat && isascii s'
  end.

(** [s.upper()] and [s.lower()], for a string [s] of ASCII characters
    ([isascii]): there Python folds the letters a-z and A-Z and nothing
    else.  Python also folds letters outside ASCII, which a byte string
    does not represent; what is proved below of the letter case of an
    argument is stated for ASCII arguments. *)
Definition upper : string -> string := map_chars upper_ascii.
Definition lower : string -> string := map_chars lower_ascii.

(** [needle in s] for two strings *)
Fixpoint contains (needle s : string) : bool :=
  String.prefix needle s
  || match s with
     | EmptyString => false
     | String _ s' => contains needle s'
     end.

(** [len(s)] *)
Definition len (s : string) : Z := Z.of_nat (String.length s).

(** [c.isspace()] on ASCII: tab to carriage return, the four separators and
    the space. *)
Definition is_space (c : ascii) : bool :=
  let n := nat_of_ascii c in
  ((9 <=? n) && (n <=? 13) || (28 <=? n) && (n <=? 32))%nat.

Fixpoint lstrip (s : string) : string :=
  match s with
  | EmptyString => EmptyString
  | String c s' => if is_space c then lstrip s' else s
  end.

Fixpoint rstrip (s : string) : string :=
  match s with
  | EmptyString => EmptyString
  | String c s' =>
      let r := rstrip s' in
      if is_space c && String.eqb r EmptyString then EmptyString else String c r
  end.

(** [s.strip()] *)
Definition strip (s : string) : string := rstrip (lstrip s).

Fixpoint drop (n : nat) (s : string) : string :=
  match n, s with
  | O, _ => s
  | S n', EmptyString => EmptyString
  | S n', String _ s' => drop n' s'
  end.

Fixpoint take (n : nat) (s : string) : string :=
  match n, s with
  | O, _ => EmptyString
  | S n', EmptyString => EmptyString
  | S n', String c s' => String c (take n' s')
  end.

(** A slice bound as Python reads it: counted from the end when negative,
    and kept within the string. *)
Definition bound (s : string) (i : Z) : nat :=
  Z.to_nat (if i <? 0 then Z.max 0 (i + len s) else Z.min i (len s)).

(** [s[a:b]] *)
Definition slice (s : string) (a b : Z) : string :=
  take (bound s b - bound s a) (drop (bound s a) s).

(** The index of the first occurrence of [needle] in [s], counted from
    [pos], or -1. *)
Fixpoint find_at (needle s : string) (pos : Z) : Z :=
  if String.prefix needle s then pos
  else match s with
       | EmptyString => -1
       | String _ s' => find_at needle s' (pos + 1)
       end.

(** [s.find(needle)] *)
Definition find (needle s : string) : Z := find_at needle s 0.

(** [s.find(needle, start)] *)
Definition find_from (needle s : string) (start : Z) : Z :=
  if len s <? start then -1
  else find_at needle (drop (bound s start) s) (Z.of_nat (bound s start)).

End PyStr.

(** ** Python values *)

(** The scalars a caller passes as keyword arguments. *)
Inductive scalar : Type :=
| SNone
| SBool (b : bool)
| SInt (z : Z)
| SStr (s : string).

(** JSON-shaped values: what [json.loads] yields and what the tools return.
    A dictionary keeps its insertion order. *)
#[warnings="-register-all"]
Inductive pyval : Type :=
| PScalar (v : scalar)
| PList (l : list pyval)
| PDict (d : list (string * pyval)).

Coercion PScalar : scalar >-> pyval.

Abbreviation pydict := (list (string * pyval)).

(** [d.get(k)], with [None] for a missing key *)
Fixpoint dict_lookup (k : string) (d : pydict) : option pyval :=
  match d with
  | [] => None
  | (k', v) :: d' => if String.eqb k k' then Some v else dict_lookup k d'
  end.

Definition dict_get (k : string) (d : pydict) : pyval :=
  default (PScalar SNone) (dict_lookup k d).

(** [d.get(k, dflt)] *)
Definition dict_get_default (k : string) (dflt : pyval) (d : pydict) : pyval :=
  default dflt (dict_lookup k d).

(** Truth value of an object in a condition *)
Definition truthy (v : pyval) : bool :=
  match v with
  | PScalar SNone => false
  | PScalar (SBool b) => b
  | PScalar (SInt z) => negb (z =? 0)
  | PScalar (SStr s) => negb (String.eqb s "")
  | PList l => match l with [] => false | _ => true end
  | PDict d => match d with [] => false | _ => true end
  end.

(** [v == s] for a string literal [s] *)
Definition eq_str (v : pyval) (s : string) : bool :=
  match v with
  | PScalar (SStr s') => String.eqb s' s
  | _ => false
  end.

(** Python exceptions, with the text [str(e)] gives. *)
Inductive exn : Type :=
| AttributeError (msg : string)
| TypeError (msg : string)
| ValidationError (msg : string)
| FileNotFoundError (msg : string).

Definition exn_str (e : exn) : string :=
  match e with
  | AttributeError m | TypeError m | ValidationError m | FileNotFoundError m => m
  end.

Definition type_name (v : pyval) : string :=
  match v with
  | PScalar SNone => "NoneType"
  | PScalar (SBool _) => "bool"
  | PScalar (SInt _) => "int"
  | PScalar (SStr _) => "str"
  | PList _ => "list"
  | PDict _ => "dict"
  end.

Definition no_attribute (v : pyval) (attr : string) : exn :=
  AttributeError ("'" +:+ type_name v +:+ "' object has no attribute '" +:+ attr +:+ "'").

(** ** Feed records and data frames *)

(** One line of [Table_feeds_v2.csv]. *)
Record Feed : Type := mkFeed {
  FEED_ID : string;
  THEATER : string;
  CODEC : string;
  RES_W : Z;
  RES_H : Z;
  LAT_MS : Z;
  MODL_TAG : option string;
  ENCR : bool;
  CIV_OK : bool
}.

(** A row of a data frame: its index label, the feed and, once the column
    has been assigned, the [quality_score]. *)
Record Row : Type := mkRow {
  label : nat;
  feed : Feed;
  quality_score : option Z
}.

Abbreviation DataFrame := (list Row).

(** [pd.read_csv]: a [RangeIndex] over the lines of the file. *)
Definition read_csv (lines : list Feed) : DataFrame :=
  imap (fun i f => mkRow i f None) lines.

(** [feeds[mask]] where the mask is computed row by row *)
Definition select (p : Row -> bool) (df : DataFrame) : DataFrame :=
  List.filter p df.

(** [feeds[col] = values]: the column is assigned by position *)
Definition assign_quality_score (values : list Z) (df : DataFrame) : DataFrame :=
  zip_with (fun r v => mkRow (label r) (feed r) (Some v)) df values.

(** [len(feeds)] *)
Definition len {A} (l : list A) : Z := Z.of_nat (length l).

(** [row.to_dict()] / one element of [feeds.to_dict('records')]; the index
    label is not part of it. *)
Definition row_to_dict (r : Row) : pyval :=
  let f := feed r in
  PDict ([ ("FEED_ID", PScalar (SStr (FEED_ID f)));
           ("THEATER", PScalar (SStr (THEATER f)));
           ("CODEC", PScalar (SStr (CODEC f)));
           ("RES_W", PScalar (SInt (RES_W f)));
           ("RES_H", PScalar (SInt (RES_H f)));
           ("LAT_MS", PScalar (SInt (LAT_MS f)));
           ("MODL_TAG", PScalar (from_option SStr SNone (MODL_TAG f)));
           ("ENCR", PScalar (SBool (ENCR f)));
           ("CIV_OK", PScalar (SBool (CIV_OK f))) ]
         ++ match quality_score r with
            | Some q => [ ("quality_score", PScalar (SInt q)) ]
            | None => []
            end).

Definition to_dict_records (df : DataFrame) : pyval :=
  PList (map row_to_dict df).

(** ** The world: a heap of data frames, the loader and the file *)

(** The state of a [DataLoader] object: the attribute [camera_feeds] is
    [None] or a reference to a data frame. *)
Record Loader : Type := mkLoader {
  camera_feeds : option nat
}.

(** The four tools [_execute_tools] names. *)
Inductive tool : Type :=
| get_all_camera_feeds_tool
| filter_by_theater_tool
| filter_by_codec_tool
| get_high_quality_feeds_tool.

(** What a run did with the catalog and the tools (kept for the proofs; the
    program has no such log). *)
Inductive event : Type :=
| CatalogRead
| ToolInvoked (t : tool).

Record World : Type := mkWorld {
  heap : list DataFrame;
  data_loader : Loader;
  table_feeds_csv : option (list Feed);
  trace : list event
}.

Inductive outcome (A : Type) : Type :=
| Ret (a : A)
| Raise (e : exn).
Arguments Ret {A} a.
Arguments Raise {A} e.

(** Computations on the world that may raise. *)
Definition M (A : Type) : Type := World -> outcome A * World.

Definition ret {A} (a : A) : M A := fun w => (Ret a, w).
Definition raise {A} (e : exn) : M A := fun w => (Raise e, w).
Definition bind {A B} (m : M A) (k : A -> M B) : M B :=
  fun w => match m w with
           | (Ret a, w') => k a w'
           | (Raise e, w') => (Raise e, w')
           end.
Definition try_except {A} (m : M A) (handler : exn -> M A) : M A :=
  fun w => match m w with
           | (Ret a, w') => (Ret a, w')
           | (Raise e, w') => handler e w'
           end.
Definition lift {A} (o : outcome A) : M A := fun w => (o, w).

#[global] Instance M_ret : MRet M := @ret.
#[global] Instance M_bind : MBind M := fun A B k m => bind m k.

Definition log (e : event) : M unit :=
  fun w => (Ret tt, mkWorld (heap w) (data_loader w) (table_feeds_csv w) (trace w ++ [e])%list).

(** A new frame object. *)
Definition alloc (df : DataFrame) : M nat :=
  fun w => (Ret (length (heap w)),
            mkWorld (heap w ++ [df])%list (data_loader w) (table_feeds_csv w) (trace w)).

(** The rows of a frame object (references handed out by [alloc] are never
    dangling; a dangling one would read as the empty frame). *)
Definition deref (r : nat) : M DataFrame :=
  fun w => (Ret (default [] (heap w !! r)), w).

(** In-place update of a frame object. *)
Definition update (r : nat) (f : DataFrame -> DataFrame) : M unit :=
  fun w => (Ret tt,
            mkWorld (alter f r (heap w)) (data_loader w) (table_feeds_csv w) (trace w)).

(** [feeds[mask]]: a new frame with the selected rows *)
Definition df_select (p : Row -> bool) (r : nat) : M nat :=
  df ← deref r; alloc (select p df).

(** [feeds.copy()] *)
Definition df_copy (r : nat) : M nat :=
  df ← deref r; alloc df.

(** ** data_loader.py *)

Module DataLoader.

(** [load_all_data]: reads the feed table and stores the frame in
    [self.camera_feeds].  (The JSON parameter files and the table
    definitions it also loads are not read by any operation below.) *)
Definition load_all_data : M unit :=
  fun w => match table_feeds_csv w with
           | None => (Raise (FileNotFoundError "Table_feeds_v2.csv"), w)
           | Some lines =>
               (Ret tt,
                mkWorld (heap w ++ [read_csv lines])%list
                        (mkLoader (Some (length (heap w))))
                        (table_feeds_csv w) (trace w))
           end.

(** [self.camera_feeds] *)
Definition self_camera_feeds : M (option nat) :=
  fun w => (Ret (camera_feeds (data_loader w)), w).

(** A frame is returned once loaded; [None] would fail at its first use. *)
Definition get_camera_feeds : M nat :=
  log CatalogRead;;
  cf ← self_camera_feeds;
  (if cf is None then load_all_data else mret tt);;
  cf ← self_camera_feeds;
  match cf with
  | Some r => mret r
  | None => raise (TypeError "'NoneType' object is not subscriptable")
  end.

Definition get_feeds_by_theater (theater : string) : M nat :=
  feeds ← get_camera_feeds;
  df_select (fun r => String.eqb (THEATER (feed r)) (PyStr.upper theater)) feeds.

Definition get_feeds_by_codec (codec : string) : M nat :=
  feeds ← get_camera_feeds;
  df_select (fun r => String.eqb (CODEC (feed r)) (PyStr.upper codec)) feeds.

(** [if bound:] for an [Optional[int]]: [None] and [0] are both false. *)
Definition if_bound (bound : option Z) : bool :=
  match bound with
  | None => false
  | Some z => negb (z =? 0)
  end.

(** [if bound: feeds = feeds[mask bound]] *)
Definition when_bound (bound : option Z) (mask : Z -> Row -> bool) (feeds : nat) : M nat :=
  match bound with
  | Some z => if if_bound bound then df_select (mask z) feeds else mret feeds
  | None => mret feeds
  end.

Definition get_feeds_by_resolution (min_width min_height max_width max_height : option Z)
  : M nat :=
  feeds ← get_camera_feeds;
  feeds ← when_bound min_width (fun b r => b <=? RES_W (feed r)) feeds;
  feeds ← when_bound min_height (fun b r => b <=? RES_H (feed r)) feeds;
  feeds ← when_bound max_width (fun b r => RES_W (feed r) <=? b) feeds;
  feeds ← when_bound max_height (fun b r => RES_H (feed r) <=? b) feeds;
  mret feeds.

Definition get_feeds_by_latency (max_latency min_latency : option Z) : M nat :=
  feeds ← get_camera_feeds;
  feeds ← when_bound max_latency (fun b r => LAT_MS (feed r) <=? b) feeds;
  feeds ← when_bound min_latency (fun b r => b <=? LAT_MS (feed r)) feeds;
  mret feeds.

(** The three quality criteria, and [astype(int)]. *)
Definition high_res (f : Feed) : bool := (1920 <=? RES_W f) && (1080 <=? RES_H f).
Definition modern_codec (f : Feed) : bool :=
  String.eqb (CODEC f) "H265" || String.eqb (CODEC f) "AV1" || String.eqb (CODEC f) "VP9".
Definition low_latency (f : Feed) : bool := LAT_MS f <=? 500.
Definition astype_int (b : bool) : Z := if b then 1 else 0.

Definition score (f : Feed) : Z :=
  astype_int (high_res f) * 3 + astype_int (modern_codec f) * 2 + astype_int (low_latency f) * 1.

(** The sort key of a row: the assigned [quality_score]. *)
Definition score_of (r : Row) : Z := default 0 (quality_score r).

Definition get_feeds_by_model (model_tag : string) : M nat :=
  feeds ← get_camera_feeds;
  df_select (fun r => match MODL_TAG (feed r) with
                      | Some t => String.eqb t model_tag
                      | None => false
                      end) feeds.

Definition get_encrypted_feeds (encrypted : bool) : M nat :=
  feeds ← get_camera_feeds;
  df_select (fun r => Bool.eqb (ENCR (feed r)) encrypted) feeds.

Definition get_civilian_safe_feeds (safe : bool) : M nat :=
  feeds ← get_camera_feeds;
  df_select (fun r => Bool.eqb (CIV_OK (feed r)) safe) feeds.

(** [feeds.sort_values('quality_score', ascending=False)] is called without
    [kind], so pandas sorts with its default, [kind='quicksort'].  What
    pandas promises for it is the rows reordered so that the key descends;
    only [kind='mergesort'] and [kind='stable'] are documented to keep
    equal keys in their order.  The algorithm is a parameter of the model. *)
Definition sort_kind : Type := forall A : Type, (A -> Z) -> list A -> list A.

Definition descending {A} (key : A -> Z) : relation A := fun a b => key b <= key a.

#[global] Instance descending_dec {A} (key : A -> Z) : RelDecision (descending key) :=
  fun a b => decide (key b <= key a).

Definition sorts_descending (kind : sort_kind) : Prop :=
  forall (A : Type) (key : A -> Z) (l : list A),
    kind A key l ≡ₚ l /\ Sorted (descending key) (kind A key l).

Definition sort_values_desc (quicksort : sort_kind) (key : Row -> Z) (r : nat) : M nat :=
  df ← deref r; alloc (quicksort Row key df).

Definition get_high_quality_feeds (quicksort : sort_kind) : M nat :=
  feeds ← get_camera_feeds;
  df ← deref feeds;
  let quality := map (fun r => score (feed r)) df in
  feeds ← df_copy feeds;
  update feeds (assign_quality_score quality);;
  sort_values_desc quicksort score_of feeds.

End DataLoader.

(** ** mcp_tools.py *)

Module MCPTools.

Import DataLoader.

(** The constructor makes the loader and loads the data at once. *)
Definition __init__ : M unit := load_all_data.

Definition get_all_camera_feeds : M pyval :=
  feeds ← get_camera_feeds;
  df ← deref feeds;
  mret (PDict [ ("feeds", to_dict_records df);
                ("total_count", PScalar (SInt (len df))) ]).

Definition filter_by_theater (theater : string) : M pyval :=
  feeds ← get_feeds_by_theater theater;
  df ← deref feeds;
  mret (PDict [ ("feeds", to_dict_records df);
                ("theater", PScalar (SStr theater));
                ("count", PScalar (SInt (len df))) ]).

Definition filter_by_codec (codec : string) : M pyval :=
  feeds ← get_feeds_by_codec codec;
  df ← deref feeds;
  mret (PDict [ ("feeds", to_dict_records df);
                ("codec", PScalar (SStr codec));
                ("count", PScalar (SInt (len df))) ]).

Definition opt_int (o : option Z) : pyval := PScalar (from_option SInt SNone o).

Definition filter_by_resolution (min_width min_height max_width max_height : option Z)
  : M pyval :=
  feeds ← get_feeds_by_resolution min_width min_height max_width max_height;
  df ← deref feeds;
  mret (PDict [ ("feeds", to_dict_records df);
                ("resolution_filter",
                 PDict [ ("min_width", opt_int min_width);
                         ("min_height", opt_int min_height);
                         ("max_width", opt_int max_width);
                         ("max_height", opt_int max_height) ]);
                ("count", PScalar (SInt (len df))) ]).

Definition filter_by_latency (max_latency min_latency : option Z) : M pyval :=
  feeds ← get_feeds_by_latency max_latency min_latency;
  df ← deref feeds;
  mret (PDict [ ("feeds", to_dict_records df);
                ("latency_filter",
                 PDict [ ("max_latency", opt_int max_latency);
                         ("min_latency", opt_int min_latency) ]);
                ("count", PScalar (SInt (len df))) ]).

Definition get_high_quality_feeds (quicksort : sort_kind) : M pyval :=
  feeds ← DataLoader.get_high_quality_feeds quicksort;
  df ← deref feeds;
  mret (PDict [ ("feeds", to_dict_records df);
                ("count", PScalar (SInt (len df)));
                ("quality_metrics",
                 PDict [ ("resolution_weight", PScalar (SInt 3));
                         ("codec_weight", PScalar (SInt 2));
                         ("latency_weight", PScalar (SInt 1)) ]) ]).

Definition filter_by_model (model_tag : string) : M pyval :=
  feeds ← get_feeds_by_model model_tag;
  df ← deref feeds;
  mret (PDict [ ("feeds", to_dict_records df);
                ("model_tag", PScalar (SStr model_tag));
                ("count", PScalar (SInt (len df))) ]).

Definition filter_by_encryption (encrypted : bool) : M pyval :=
  feeds ← get_encrypted_feeds encrypted;
  df ← deref feeds;
  mret (PDict [ ("feeds", to_dict_records df);
                ("encrypted", PScalar (SBool encrypted));
                ("count", PScalar (SInt (len df))) ]).

Definition filter_by_civilian_safety (safe : bool) : M pyval :=
  feeds ← get_civilian_safe_feeds safe;
  df ← deref feeds;
  mret (PDict [ ("feeds", to_dict_records df);
                ("civilian_safe", PScalar (SBool safe));
                ("count", PScalar (SInt (len df))) ]).

(** [series.value_counts().to_dict()]: one entry per distinct value with
    the number of rows holding it, by descending count. *)
Definition value_counts (quicksort : sort_kind) (col : list string) : list (string * Z) :=
  quicksort _ snd
    (map (fun v => (v, len (List.filter (String.eqb v) col))) (remove_dups col)).

Definition distribution (quicksort : sort_kind) (what whats : string)
    (col : Feed -> string) : M pyval :=
  feeds ← get_camera_feeds;
  df ← deref feeds;
  let counts := value_counts quicksort (map (fun r => col (feed r)) df) in
  mret (PDict [ (what, PDict (map (fun kv => (kv.1, PScalar (SInt kv.2))) counts));
                ("total_feeds", PScalar (SInt (len df)));
                (whats, PList (map (fun kv => PScalar (SStr kv.1)) counts)) ]).

Definition analyze_theater_distribution (quicksort : sort_kind) : M pyval :=
  distribution quicksort "theater_distribution" "theaters" THEATER.

Definition analyze_codec_distribution (quicksort : sort_kind) : M pyval :=
  distribution quicksort "codec_distribution" "codecs" CODEC.

Definition resolution_categories : list (string * (Z * Z)) :=
  [ ("4K (3840x2160)", (3840, 2160));
    ("1440p (2560x1440)", (2560, 1440));
    ("1080p (1920x1080)", (1920, 1080));
    ("720p (1280x720)", (1280, 720));
    ("480p (640x480)", (640, 480)) ].

Definition analyze_resolution_distribution : M pyval :=
  feeds ← get_camera_feeds;
  df ← deref feeds;
  let condition_sum (wh : Z * Z) :=
    len (List.filter (fun r => (RES_W (feed r) =? wh.1) && (RES_H (feed r) =? wh.2)) df) in
  mret (PDict [ ("resolution_distribution",
                 PDict (map (fun c => (c.1, PScalar (SInt (condition_sum c.2))))
                            resolution_categories));
                ("total_feeds", PScalar (SInt (len df)));
                ("unique_resolutions",
                 PScalar (SInt (len (remove_dups
                                       (map (fun r => (RES_W (feed r), RES_H (feed r))) df))))) ]).

Definition get_feed_by_id (feed_id : string) : M pyval :=
  feeds ← get_camera_feeds;
  feed_ ← df_select (fun r => String.eqb (FEED_ID (feed r)) feed_id) feeds;
  found ← deref feed_;
  all ← deref feeds;
  match found with
  | [] =>
      mret (PDict [ ("error", PScalar (SStr ("Feed ID '" +:+ feed_id +:+ "' not found")));
                    ("available_feeds",
                     PList (map (fun r => PScalar (SStr (FEED_ID (feed r)))) (take 10 all))) ])
  | first :: _ =>
      mret (PDict [ ("feed", row_to_dict first);
                    ("found", PScalar (SBool true)) ])
  end.

(** The operand of [.upper()] in [filters[k].upper()]. *)
Definition str_upper (v : scalar) : outcome string :=
  match v with
  | SStr s => Ret (PyStr.upper s)
  | _ => Raise (no_attribute v "upper")
  end.

(** An ordering comparison of an integer column with [v], for one cell
    [x]: a number compares ([True] and [False] count as 1 and 0), [None]
    compares false everywhere and a string is a [TypeError]. *)
Definition compare_with (v : scalar) (cmp : Z -> Z -> bool) : outcome (Z -> bool) :=
  match v with
  | SInt z => Ret (fun x => cmp x z)
  | SBool b => Ret (fun x => cmp x (astype_int b))
  | SNone => Ret (fun _ => false)
  | SStr _ => Raise (TypeError "Invalid comparison between dtype=int64 and str")
  end.

(** [series == v] on a boolean column, for one row. *)
Definition bool_col_eq (b : bool) (v : scalar) : bool :=
  match v with
  | SBool b' => Bool.eqb b b'
  | SInt z => astype_int b =? z
  | _ => false
  end.

(** The mask each supported keyword builds from its value. *)
Definition theater_mask (v : scalar) : outcome (Row -> bool) :=
  match str_upper v with
  | Ret t => Ret (fun r => String.eqb (THEATER (feed r)) t)
  | Raise e => Raise e
  end.
Definition codec_mask (v : scalar) : outcome (Row -> bool) :=
  match str_upper v with
  | Ret c => Ret (fun r => String.eqb (CODEC (feed r)) c)
  | Raise e => Raise e
  end.
Definition min_width_mask (v : scalar) : outcome (Row -> bool) :=
  match compare_with v (fun x n => n <=? x) with
  | Ret ge => Ret (fun r => ge (RES_W (feed r)))
  | Raise e => Raise e
  end.
Definition min_height_mask (v : scalar) : outcome (Row -> bool) :=
  match compare_with v (fun x n => n <=? x) with
  | Ret ge => Ret (fun r => ge (RES_H (feed r)))
  | Raise e => Raise e
  end.
Definition max_latency_mask (v : scalar) : outcome (Row -> bool) :=
  match compare_with v (fun x n => x <=? n) with
  | Ret le => Ret (fun r => le (LAT_MS (feed r)))
  | Raise e => Raise e
  end.
Definition encrypted_mask (v : scalar) : outcome (Row -> bool) :=
  Ret (fun r => bool_col_eq (ENCR (feed r)) v).
Definition civilian_safe_mask (v : scalar) : outcome (Row -> bool) :=
  Ret (fun r => bool_col_eq (CIV_OK (feed r)) v).

(** One [if key in filters:] block of [search_feeds]: select on the frame
    and note the value under [applied_filters]. *)
Definition apply_filter (filters : gmap string scalar) (key : string)
    (mask : scalar -> outcome (Row -> bool)) (st : nat * pydict) : M (nat * pydict) :=
  match filters !! key with
  | None => mret st
  | Some v =>
      p ← lift (mask v);
      feeds ← df_select p st.1;
      mret (feeds, (st.2 ++ [(key, PScalar v)])%list)
  end.

Definition search_feeds (filters : gmap string scalar) : M pyval :=
  feeds ← get_camera_feeds;
  st ← apply_filter filters "theater" theater_mask (feeds, []);
  st ← apply_filter filters "codec" codec_mask st;
  st ← apply_filter filters "min_width" min_width_mask st;
  st ← apply_filter filters "min_height" min_height_mask st;
  st ← apply_filter filters "max_latency" max_latency_mask st;
  st ← apply_filter filters "encrypted" encrypted_mask st;
  st ← apply_filter filters "civilian_safe" civilian_safe_mask st;
  df ← deref st.1;
  mret (PDict [ ("feeds", to_dict_records df);
                ("applied_filters", PDict st.2);
                ("count", PScalar (SInt (len df))) ]).

End MCPTools.

(** ** query_agent.py *)

Module QueryAgent.

(** The state dictionary of the graph; [intent] is [None] until
    [_parse_query] has stored the parsed object. *)
Record QueryState : Type := mkQueryState {
  query : string;
  intent : option pyval;
  data_results : option pyval;
  response : option string;
  error : option string
}.

Definition tool_name (t : tool) : string :=
  match t with
  | get_all_camera_feeds_tool => "get_all_camera_feeds"
  | filter_by_theater_tool => "filter_by_theater"
  | filter_by_codec_tool => "filter_by_codec"
  | get_high_quality_feeds_tool => "get_high_quality_feeds"
  end.

(** [v in ["filter", "search", "analyze"]] *)
Definition is_query_kind (v : pyval) : bool :=
  eq_str v "filter" || eq_str v "search" || eq_str v "analyze".

(** [v.lower()]: only a string has the method. *)
Definition py_lower (v : pyval) : outcome string :=
  match v with
  | PScalar (SStr s) => Ret (PyStr.lower s)
  | _ => Raise (no_attribute v "lower")
  end.

(** The list [tool_calls] built inside the [try] block. *)
Definition tool_calls (intent : pydict) : outcome (list (tool * pydict)) :=
  if is_query_kind (dict_get "intent" intent) then
    if truthy (dict_get "theater" intent) then
      Ret [ (filter_by_theater_tool, [ ("theater", dict_get "theater" intent) ]) ]
    else if truthy (dict_get "codec" intent) then
      Ret [ (filter_by_codec_tool, [ ("codec", dict_get "codec" intent) ]) ]
    else if eq_str (dict_get "quality" intent) "high" then
      Ret [ (get_high_quality_feeds_tool, []) ]
    else
      match py_lower (dict_get_default "quality" (PScalar (SStr "")) intent) with
      | Raise e => Raise e
      | Ret q =>
          if PyStr.contains "best" q then Ret [ (get_high_quality_feeds_tool, []) ]
          else Ret [ (get_all_camera_feeds_tool, []) ]
      end
  else Ret [].

(** [tool_func.invoke(params)] followed by [json.loads]: the arguments are
    checked against the tool's signature (a [theater] or [codec] that is
    not a string is refused), the [MCPTools] method runs and its dictionary
    comes back through JSON unchanged. *)
Definition invoke (quicksort : DataLoader.sort_kind) (t : tool) (params : pydict)
  : M pyval :=
  log (ToolInvoked t);;
  match t with
  | get_all_camera_feeds_tool => MCPTools.get_all_camera_feeds
  | filter_by_theater_tool =>
      match dict_lookup "theater" params with
      | Some (PScalar (SStr theater)) => MCPTools.filter_by_theater theater
      | _ => raise (ValidationError "theater: Input should be a valid string")
      end
  | filter_by_codec_tool =>
      match dict_lookup "codec" params with
      | Some (PScalar (SStr codec)) => MCPTools.filter_by_codec codec
      | _ => raise (ValidationError "codec: Input should be a valid string")
      end
  | get_high_quality_feeds_tool => MCPTools.get_high_quality_feeds quicksort
  end.

(** [d[k] = v] *)
Fixpoint dict_set (k : string) (v : pyval) (d : pydict) : pydict :=
  match d with
  | [] => [ (k, v) ]
  | (k', v') :: d' => if String.eqb k k' then (k, v) :: d' else (k', v') :: dict_set k v d'
  end.

(** The loop over [tool_calls], filling [results]. *)
Fixpoint run_tool_calls (quicksort : DataLoader.sort_kind)
    (calls : list (tool * pydict)) (results : pydict) : M pydict :=
  match calls with
  | [] => mret results
  | (t, params) :: rest =>
      result ← invoke quicksort t params;
      run_tool_calls quicksort rest (dict_set (tool_name t) result results)
  end.

Definition with_results (state : QueryState) (r : pyval) : QueryState :=
  mkQueryState (query state) (intent state) (Some r) (response state) (error state).

Definition with_error (state : QueryState) (msg : string) : QueryState :=
  mkQueryState (query state) (intent state) (data_results state) (response state) (Some msg).

Definition _execute_tools (quicksort : DataLoader.sort_kind) (state : QueryState)
  : M QueryState :=
  match intent state with
  | Some (PDict intent) =>
      if eq_str (dict_get "intent" intent) "error" then
        mret (with_results state
                (PDict [ ("error",
                          dict_get_default "error" (PScalar (SStr "Unknown error")) intent) ]))
      else
        try_except
          (calls ← lift (tool_calls intent);
           results ← run_tool_calls quicksort calls [];
           mret (with_results state (PDict results)))
          (fun e =>
             mret (with_results
                     (with_error state ("Error executing tools: " +:+ exn_str e))
                     (PDict [ ("error", PScalar (SStr (exn_str e))) ])))
  | Some v => raise (no_attribute v "get")
  | None => raise (no_attribute (PScalar SNone) "get")
  end.

(** What [_parse_query] and [_generate_response] get from outside: the
    model's reply to the prompt built from the query, [json.loads], and the
    model's reply to the prompt built from the query, the intent and the
    data results.  A failure of either is an exception. *)
Record External : Type := mkExternal {
  llm_parse : string -> outcome string;
  json_loads : string -> outcome pyval;
  llm_respond : string -> option pyval -> option pyval -> outcome string
}.

(** The text between the fences of a reply, as [_parse_query] cuts it. *)
Definition fenced (content : string) : string :=
  if PyStr.contains "```json" content then
    let json_start := PyStr.find "```json" content + 7 in
    let json_end := PyStr.find_from "```" content json_start in
    PyStr.strip (PyStr.slice content json_start json_end)
  else if PyStr.contains "```" content then
    let json_start := PyStr.find "```" content + 3 in
    let json_end := PyStr.find_from "```" content json_start in
    PyStr.strip (PyStr.slice content json_start json_end)
  else content.

(** The intent the [except] branch of [_parse_query] builds from the
    keywords of the query. *)
Definition keyword_intent (query : string) : pydict :=
  let query_lower := PyStr.lower query in
  let intent_data : pydict :=
    [ ("intent", PScalar (SStr "search"));
      ("theater", PScalar SNone);
      ("codec", PScalar SNone);
      ("resolution", PScalar SNone);
      ("quality", PScalar SNone);
      ("latency", PScalar SNone);
      ("other_filters", PDict []) ] in
  let intent_data :=
    if PyStr.contains "pacific" query_lower || PyStr.contains "pac" query_lower
    then dict_set "theater" (PScalar (SStr "PAC")) intent_data else intent_data in
  let intent_data :=
    if PyStr.contains "europe" query_lower || PyStr.contains "eur" query_lower
    then dict_set "theater" (PScalar (SStr "EUR")) intent_data else intent_data in
  let intent_data :=
    if PyStr.contains "h265" query_lower
    then dict_set "codec" (PScalar (SStr "H265")) intent_data else intent_data in
  let intent_data :=
    if PyStr.contains "4k" query_lower
    then dict_set "resolution" (PScalar (SStr "4K")) intent_data else intent_data in
  let intent_data :=
    if PyStr.contains "best" query_lower || PyStr.contains "quality" query_lower
    then dict_set "quality" (PScalar (SStr "high")) intent_data else intent_data in
  intent_data.

Definition with_intent (state : QueryState) (v : pyval) : QueryState :=
  mkQueryState (query state) (Some v) (data_results state) (response state) (error state).

Definition with_response (state : QueryState) (text : string) : QueryState :=
  mkQueryState (query state) (intent state) (data_results state) (Some text) (error state).

Definition _parse_query (ext : External) (state : QueryState) : M QueryState :=
  try_except
    (reply ← lift (llm_parse ext (query state));
     let content := PyStr.strip reply in
     let content := fenced content in
     intent_data ← lift (json_loads ext content);
     mret (with_intent state intent_data))
    (fun _ => mret (with_intent state (PDict (keyword_intent (query state))))).

(** [if state.get("error"):] *)
Definition error_set (state : QueryState) : option string :=
  match error state with
  | Some msg => if String.eqb msg "" then None else Some msg
  | None => None
  end.

Definition _generate_response (ext : External) (state : QueryState) : M QueryState :=
  match error_set state with
  | Some msg => mret (with_response state ("I encountered an error: " +:+ msg))
  | None =>
      try_except
        (text ← lift (llm_respond ext (query state) (intent state) (data_results state));
         mret (with_response state text))
        (fun e =>
           mret (with_response state
                   ("I encountered an error generating the response: " +:+ exn_str e)))
  end.

(** [query]: the compiled graph runs the three nodes in order from the
    initial state; the returned dictionary has the fields of the final
    state. *)
Definition query_ (quicksort : DataLoader.sort_kind) (ext : External) (q : string)
  : M QueryState :=
  state ← _parse_query ext (mkQueryState q None None None None);
  state ← _execute_tools quicksort state;
  _generate_response ext state.

End QueryAgent.

(** ** Sorting algorithms for [sort_values] *)

(** Insertion sort, which keeps equal keys in their order (as
    [kind='stable'] would). *)
Fixpoint insert_desc {A} (key : A -> Z) (x : A) (l : list A) : list A :=
  match l with
  | [] => [x]
  | y :: l' =>
      if decide (DataLoader.descending key x y) then x :: y :: l'
      else y :: insert_desc key x l'
  end.

Definition insertion_sort : DataLoader.sort_kind :=
  fun A key l => foldr (insert_desc key) [] l.

(** What pandas and numpy do for [sort_values(by, ascending=False)] with
    the default [kind='quicksort'] on a column of integers.  Neither is
    code of this repository.  [Numpy] follows numpy's generic index sort
    ([aquicksort] in [npysort/quicksort.cpp]): partitions around the
    median of three while a range has more than seventeen elements,
    insertion sort below that, heap sort for a range whose depth limit is
    used up.  A numpy build that dispatches the call to a vectorised sort
    may order equal keys differently; nothing proved of the ranking for
    every catalog depends on the algorithm. *)

Module Numpy.

(** [v[a[p]]]: the key of the index held at position [p] of the index
    array [a]. *)
Definition key_at (v : list Z) (a : list nat) (p : nat) : Z := v !!! (a !!! p).

(** [INTP_SWAP(a[i], a[j])] *)
Definition swap (a : list nat) (i j : nat) : list nat :=
  <[j := a !!! i]> (<[i := a !!! j]> a).

(** [do ++pi; while (v[*pi] < vp)], from the incremented position on. *)
Fixpoint scan_up (fuel : nat) (v : list Z) (a : list nat) (vp : Z) (pi : nat) : nat :=
  match fuel with
  | O => pi
  | S fuel' => if key_at v a pi <? vp then scan_up fuel' v a vp (S pi) else pi
  end.

(** [do --pj; while (vp < v[*pj])], from the decremented position on. *)
Fixpoint scan_down (fuel : nat) (v : list Z) (a : list nat) (vp : Z) (pj : nat) : nat :=
  match fuel with
  | O => pj
  | S fuel' => if vp <? key_at v a pj then scan_down fuel' v a vp (Nat.pred pj) else pj
  end.

(** The loop [for (;;)] of the partition: the array and the final [pi]. *)
Fixpoint partition_loop (fuel : nat) (v : list Z) (a : list nat) (vp : Z) (pi pj : nat)
  : list nat * nat :=
  match fuel with
  | O => (a, pi)
  | S fuel' =>
      let pi := scan_up (length a) v a vp (S pi) in
      let pj := scan_down (length a) v a vp (Nat.pred pj) in
      if (pj <=? pi)%nat then (a, pi)
      else partition_loop fuel' v (swap a pi pj) vp pi pj
  end.

(** One partition of [a[pl..pr]] around the median of three. *)
Definition partition (v : list Z) (a : list nat) (pl pr : nat) : list nat * nat :=
  let pm := (pl + Nat.shiftr (pr - pl) 1)%nat in
  let a := if key_at v a pm <? key_at v a pl then swap a pm pl else a in
  let a := if key_at v a pr <? key_at v a pm then swap a pr pm else a in
  let a := if key_at v a pm <? key_at v a pl then swap a pm pl else a in
  let vp := key_at v a pm in
  let pj := Nat.pred pr in
  let a := swap a pm pj in
  let '(a, pi) := partition_loop (length a) v a vp pl pj in
  let pk := Nat.pred pr in
  (swap a pi pk, pi).

(** The inner loop of the insertion sort: shift the larger keys up. *)
Fixpoint shift_up (fuel : nat) (v : list Z) (a : list nat) (pl : nat) (vp : Z) (pj : nat)
  : list nat * nat :=
  match fuel with
  | O => (a, pj)
  | S fuel' =>
      if (pl <? pj)%nat && (vp <? key_at v a (Nat.pred pj))
      then shift_up fuel' v (<[pj := a !!! Nat.pred pj]> a) pl vp (Nat.pred pj)
      else (a, pj)
  end.

Definition insert_at (v : list Z) (pl : nat) (a : list nat) (pi : nat) : list nat :=
  let vi := a !!! pi in
  let '(a', pj) := shift_up (length a) v a pl (v !!! vi) pi in
  <[pj := vi]> a'.

(** Insertion sort of [a[pl..pr]]. *)
Definition insertion_pass (v : list Z) (a : list nat) (pl pr : nat) : list nat :=
  foldl (insert_at v pl) a (seq (S pl) (pr - pl)).

(** Heap sort of the [n] positions from [lo] on, with positions counted
    from 1 as in the source ([a = tosort - 1]). *)
Definition heap_get (a : list nat) (lo i : nat) : nat := a !!! (lo + i - 1)%nat.
Definition heap_set (a : list nat) (lo i x : nat) : list nat := <[(lo + i - 1)%nat := x]> a.

Fixpoint sift (fuel : nat) (v : list Z) (a : list nat) (lo n tmp i j : nat) : list nat :=
  match fuel with
  | O => heap_set a lo i tmp
  | S fuel' =>
      if (j <=? n)%nat then
        let j := if (j <? n)%nat
                    && (v !!! heap_get a lo j <? v !!! heap_get a lo (S j))
                 then S j else j in
        if v !!! tmp <? v !!! heap_get a lo j
        then sift fuel' v (heap_set a lo i (heap_get a lo j)) lo n tmp j (j + j)%nat
        else heap_set a lo i tmp
      else heap_set a lo i tmp
  end.

Definition aheapsort (v : list Z) (a : list nat) (lo n : nat) : list nat :=
  let a := foldl (fun a l => sift (length a) v a lo n (heap_get a lo l) l (l + l)%nat)
                 a (rev (seq 1 (Nat.shiftr n 1))) in
  foldl (fun a m =>
           let tmp := heap_get a lo m in
           let a := heap_set a lo m (heap_get a lo 1) in
           sift (length a) v a lo (m - 1) tmp 1 2)%nat
        a (rev (seq 2 (n - 1))).

(** [SMALL_QUICKSORT] *)
Definition SMALL_QUICKSORT : nat := 16.

(** The loop [while (1)] of [aquicksort]: [top] tells that control is at
    the head of the loop, where the depth limit is looked at; [stack]
    holds the ranges put aside, each with its depth. *)
Fixpoint aquicksort_loop (fuel : nat) (v : list Z) (a : list nat) (top : bool)
    (pl pr : nat) (cdepth : Z) (stack : list (nat * nat * Z)) : list nat :=
  match fuel with
  | O => a
  | S fuel' =>
      let stack_pop (a : list nat) :=
        match stack with
        | [] => a
        | (pl', pr', cdepth') :: stack' => aquicksort_loop fuel' v a true pl' pr' cdepth' stack'
        end in
      if top && (cdepth <? 0) then stack_pop (aheapsort v a pl (pr - pl + 1))
      else if (SMALL_QUICKSORT <? pr - pl)%nat then
        let '(a, pi) := partition v a pl pr in
        if (pi - pl <? pr - pi)%nat
        then aquicksort_loop fuel' v a false pl (pi - 1) (cdepth - 1)
               ((S pi, pr, cdepth - 1) :: stack)
        else aquicksort_loop fuel' v a false (S pi) pr (cdepth - 1)
               ((pl, (pi - 1)%nat, cdepth - 1) :: stack)
      else stack_pop (insertion_pass v a pl pr)
  end.

(** [v.argsort(kind='quicksort')] for integer keys. *)
Definition argsort (v : list Z) : list nat :=
  let num := length v in
  aquicksort_loop (2 * num + 1) v (seq 0 num) true 0 (num - 1)
                  (Z.log2 (Z.of_nat num) * 2) [].

End Numpy.

Module Pandas.

(** [nargsort(items, kind='quicksort', ascending=False)] for keys without
    missing values: the keys are reversed, sorted ascending and the
    indexer is reversed. *)
Definition nargsort_descending (items : list Z) : list nat :=
  let idx := seq 0 (length items) in
  let non_nans := rev items in
  let non_nan_idx := rev idx in
  let indexer := map (fun i => non_nan_idx !!! i) (Numpy.argsort non_nans) in
  rev indexer.

(** [frame.sort_values(by, ascending=False)]: the rows taken in the order
    of the indexer. *)
Definition sort_values_descending : DataLoader.sort_kind :=
  fun A key l => omap (fun i => l !! i) (nargsort_descending (map key l)).

End Pandas.

(** ** The specification's wording, for comparison with the code *)

(** The score of section 4.2: 3 for high resolution, 2 for a modern codec,
    1 for low latency. *)
Definition spec_quality_score (f : Feed) : Z :=
  (if decide (1920 <= RES_W f /\ 1080 <= RES_H f) then 3 else 0)
  + (if decide (CODEC f ∈ ["H265"; "AV1"; "VP9"]) then 2 else 0)
  + (if decide (LAT_MS f <= 500) then 1 else 0).

(** The number of catalog rows of a given resolution. *)
Definition count_resolution (cat : DataFrame) (width height : Z) : Z :=
  len (select (fun row => bool_decide (RES_W (feed row) = width /\ RES_H (feed row) = height))
              cat).

(** A catalog row with its score attached. *)
Definition annotate (r : Row) : Row :=
  mkRow (label r) (feed r) (Some (spec_quality_score (feed r))).

(** Stability of a ranking: rows with equal scores appear by ascending
    index label, that is in catalog order. *)
Definition ties_in_catalog_order (ranked : DataFrame) : Prop :=
  forall (i j : nat) (a b : Row),
    (i < j)%nat -> ranked !! i = Some a -> ranked !! j = Some b ->
    quality_score a = quality_score b -> (label a < label b)%nat.

(** The loaded catalog: the frame [self.camera_feeds] refers to. *)
Definition catalog (w : World) : option DataFrame :=
  r ← camera_feeds (data_loader w); heap w !! r.

(** A world that differs from [w] by new frames and new events only. *)
Definition grown (w : World) (frames : list DataFrame) (events : list event) : World :=
  mkWorld (heap w ++ frames) (data_loader w) (table_feeds_csv w) (trace w ++ events).

(** The postcondition [Q] holds of the outcome and final world of [m]. *)
Definition wp {A} (m : M A) (w : World) (Q : outcome A -> World -> Prop) : Prop :=
  Q (m w).1 (m w).2.

(** The tools a trace shows as invoked, in order. *)
Definition tools_invoked (tr : list event) : list tool :=
  omap (fun e => match e with ToolInvoked t => Some t | CatalogRead => None end) tr.

#[global] Instance scalar_eq_dec : EqDecision scalar.
Proof. solve_decision. Defined.

#[global] Instance Feed_eq_dec : EqDecision Feed.
Proof. solve_decision. Defined.

#[global] Instance Row_eq_dec : EqDecision Row.
Proof. solve_decision. Defined.

(** The seven filter names of Multi-Filter Search (section 4.4). *)
Definition supported_filters : list string :=
  [ "theater"; "codec"; "min_width"; "min_height"; "max_latency"; "encrypted";
    "civilian_safe" ].

(** The type of value each filter takes, after the column it constrains. *)
Inductive value_kind : Type := KStr | KInt | KBool.

Definition kind_of_filter (key : string) : option value_kind :=
  if decide (key = "theater") then Some KStr
  else if decide (key = "codec") then Some KStr
  else if decide (key = "min_width") then Some KInt
  else if decide (key = "min_height") then Some KInt
  else if decide (key = "max_latency") then Some KInt
  else if decide (key = "encrypted") then Some KBool
  else if decide (key = "civilian_safe") then Some KBool
  else None.

Definition has_kind (v : scalar) (k : value_kind) : Prop :=
  match k, v with
  | KStr, SStr _ | KInt, SInt _ | KBool, SBool _ => True
  | _, _ => False
  end.

Definition well_typed (filters : gmap string scalar) : Prop :=
  forall key v k,
    filters !! key = Some v -> kind_of_filter key = Some k -> has_kind v k.

(** What a supplied filter asks of a record; a name outside the seven asks
    nothing. *)
Definition meets (key : string) (v : scalar) (f : Feed) : Prop :=
  if decide (key = "theater") then exists s, v = SStr s /\ THEATER f = PyStr.upper s
  else if decide (key = "codec") then exists s, v = SStr s /\ CODEC f = PyStr.upper s
  else if decide (key = "min_width") then exists n, v = SInt n /\ n <= RES_W f
  else if decide (key = "min_height") then exists n, v = SInt n /\ n <= RES_H f
  else if decide (key = "max_latency") then exists n, v = SInt n /\ LAT_MS f <= n
  else if decide (key = "encrypted") then v = SBool (ENCR f)
  else if decide (key = "civilian_safe") then v = SBool (CIV_OK f)
  else True.

(** The keys under [applied_filters] of a search result. *)
Definition applied_filter_names (result : pyval) : list string :=
  match result with
  | PDict d =>
      match dict_lookup "applied_filters" d with
      | Some (PDict applied) => applied.*1
      | _ => []
      end
  | _ => []
  end.

(** The mapping with the unsupported names removed. *)
Definition supported_only (filters : gmap string scalar) : gmap string scalar :=
  filter (fun kv => kv.1 ∈ supported_filters) filters.

(** The mask the block for [key] selects with: the one built from the
    supplied value, or none when the name is not supplied. *)
Definition filter_pred (filters : gmap string scalar) (key : string)
    (mask : scalar -> outcome (Row -> bool)) : Row -> bool :=
  match filters !! key with
  | Some v => match mask v with
              | Ret p => p
              | Raise _ => fun _ => true
              end
  | None => fun _ => true
  end.

(** The entry the block for [key] notes under [applied_filters]. *)
Definition applied_entry (filters : gmap string scalar) (key : string) : pydict :=
  match filters !! key with
  | Some v => [ (key, PScalar v) ]
  | None => []
  end.

(** The rows left after the seven blocks of [search_feeds], and the
    entries noted, when no block raises. *)
Definition search_rows (filters : gmap string scalar) (cat : DataFrame) : DataFrame :=
  select (filter_pred filters "civilian_safe" MCPTools.civilian_safe_mask)
    (select (filter_pred filters "encrypted" MCPTools.encrypted_mask)
       (select (filter_pred filters "max_latency" MCPTools.max_latency_mask)
          (select (filter_pred filters "min_height" MCPTools.min_height_mask)
             (select (filter_pred filters "min_width" MCPTools.min_width_mask)
                (select (filter_pred filters "codec" MCPTools.codec_mask)
                   (select (filter_pred filters "theater" MCPTools.theater_mask)
                      cat)))))).

Definition applied_entries (filters : gmap string scalar) : pydict :=
  concat (map (applied_entry filters) supported_filters).

(** Every Filter Engine and aggregate operation of [MCPTools], with its
    arguments. *)
Inductive operation : Type :=
| get_all_camera_feeds_op
| filter_by_theater_op (theater : string)
| filter_by_codec_op (codec : string)
| filter_by_resolution_op (min_width min_height max_width max_height : option Z)
| filter_by_latency_op (max_latency min_latency : option Z)
| get_high_quality_feeds_op
| filter_by_model_op (model_tag : string)
| filter_by_encryption_op (encrypted : bool)
| filter_by_civilian_safety_op (safe : bool)
| analyze_theater_distribution_op
| analyze_codec_distribution_op
| analyze_resolution_distribution_op
| get_feed_by_id_op (feed_id : string)
| search_feeds_op (filters : gmap string scalar).

Definition perform (quicksort : DataLoader.sort_kind) (op : operation) : M pyval :=
  match op with
  | get_all_camera_feeds_op => MCPTools.get_all_camera_feeds
  | filter_by_theater_op theater => MCPTools.filter_by_theater theater
  | filter_by_codec_op codec => MCPTools.filter_by_codec codec
  | filter_by_resolution_op min_width min_height max_width max_height =>
      MCPTools.filter_by_resolution min_width min_height max_width max_height
  | filter_by_latency_op max_latency min_latency =>
      MCPTools.filter_by_latency max_latency min_latency
  | get_high_quality_feeds_op => MCPTools.get_high_quality_feeds quicksort
  | filter_by_model_op model_tag => MCPTools.filter_by_model model_tag
  | filter_by_encryption_op encrypted => MCPTools.filter_by_encryption encrypted
  | filter_by_civilian_safety_op safe => MCPTools.filter_by_civilian_safety safe
  | analyze_theater_distribution_op => MCPTools.analyze_theater_distribution quicksort
  | analyze_codec_distribution_op => MCPTools.analyze_codec_distribution quicksort
  | analyze_resolution_distribution_op => MCPTools.analyze_resolution_distribution
  | get_feed_by_id_op feed_id => MCPTools.get_feed_by_id feed_id
  | search_feeds_op filters => MCPTools.search_feeds filters
  end.

(** The [DataLoader] operations that hand a frame to their caller. *)
Inductive view_operation : Type :=
| get_feeds_by_theater_view (theater : string)
| get_feeds_by_codec_view (codec : string)
| get_feeds_by_resolution_view (min_width min_height max_width max_height : option Z)
| get_feeds_by_latency_view (max_latency min_latency : option Z)
| get_high_quality_feeds_view
| get_feeds_by_model_view (model_tag : string)
| get_encrypted_feeds_view (encrypted : bool)
| get_civilian_safe_feeds_view (safe : bool).

Definition view (quicksort : DataLoader.sort_kind) (op : view_operation) : M nat :=
  match op with
  | get_feeds_by_theater_view theater => DataLoader.get_feeds_by_theater theater
  | get_feeds_by_codec_view codec => DataLoader.get_feeds_by_codec codec
  | get_feeds_by_resolution_view min_width min_height max_width max_height =>
      DataLoader.get_feeds_by_resolution min_width min_height max_width max_height
  | get_feeds_by_latency_view max_latency min_latency =>
      DataLoader.get_feeds_by_latency max_latency min_latency
  | get_high_quality_feeds_view => DataLoader.get_high_quality_feeds quicksort
  | get_feeds_by_model_view model_tag => DataLoader.get_feeds_by_model model_tag
  | get_encrypted_feeds_view encrypted => DataLoader.get_encrypted_feeds encrypted
  | get_civilian_safe_feeds_view safe => DataLoader.get_civilian_safe_feeds safe
  end.

(** The bounds a range filter was called with; the other operations have
    none. *)
Definition bounds_of (op : view_operation) : option (list (option Z)) :=
  match op with
  | get_feeds_by_resolution_view min_width min_height max_width max_height =>
      Some [min_width; min_height; max_width; max_height]
  | get_feeds_by_latency_view max_latency min_latency => Some [max_latency; min_latency]
  | _ => None
  end.

(** The operation selects rows: it is not a range filter, or one of its
    bounds is supplied and not 0. *)
Definition selecting (op : view_operation) : Prop :=
  match bounds_of op with
  | Some bounds => Exists (fun b => DataLoader.if_bound b = true) bounds
  | None => True
  end.

(** A range filter called with every bound omitted. *)
Definition unbounded (op : view_operation) : Prop :=
  match bounds_of op with
  | Some bounds => Forall (fun b => b = None) bounds
  | None => False
  end.

(** The [if bound:] blocks of a range filter, in order. *)
Fixpoint bound_blocks (blocks : list (option Z * (Z -> Row -> bool))) (feeds : nat) : M nat :=
  match blocks with
  | [] => mret feeds
  | (bound, mask) :: rest =>
      feeds ← DataLoader.when_bound bound mask feeds; bound_blocks rest feeds
  end.

(** A computation that, run on a loaded catalog, only adds frames and
    events. *)
Definition grows {A} (m : M A) : Prop :=
  forall (w : World) (cat : DataFrame),
    catalog w = Some cat ->
    wp m w (fun _ w' => exists frames events, w' = grown w frames events).

(** The names noted so far are names the caller supplied. *)
Definition names_supplied (filters : gmap string scalar) (st : nat * pydict) : Prop :=
  Forall (fun key => is_Some (filters !! key)) (st.2.*1).

(** The filter mapping of the specification's example. *)
Definition pac_h265 : gmap string scalar :=
  {[ "theater" := SStr "PAC"; "codec" := SStr "H265" ]}.

(** A computation that invokes no tool, on any world. *)
Definition quiet {A} (m : M A) : Prop :=
  forall w : World,
    wp m w (fun _ w' => tools_invoked (trace w') = tools_invoked (trace w)).

(** ** A small catalog *)

(** The two feeds of the specification's end-to-end example and a third
    one that ties with the first on quality. *)
Definition FD_001 : Feed := mkFeed "FD-001" "PAC" "H265" 3840 2160 150 None true true.
Definition FD_002 : Feed := mkFeed "FD-002" "EUR" "H264" 1280 720 800 None false true.
Definition FD_003 : Feed :=
  mkFeed "FD-003" "PAC" "AV1" 1920 1080 100 (Some "Viper-VL") false false.

(** The world at start-up, with the feed table on disk. *)
Definition start_up (lines : list Feed) : World :=
  mkWorld [] (mkLoader None) (Some lines) [].

(** The world after [MCPTools.__init__] loaded that table. *)
Definition small_world : World :=
  mkWorld [read_csv [FD_001; FD_002; FD_003]] (mkLoader (Some 0%nat))
          (Some [FD_001; FD_002; FD_003]) [].

(** The state [_execute_tools] receives for a parsed intent. *)
Definition parsed (intent : pydict) : QueryAgent.QueryState :=
  QueryAgent.mkQueryState "which feeds?" (Some (PDict intent)) None None None.

(** An intent with a theater, a codec and a quality hint. *)
Definition eur_h265_intent : pydict :=
  [ ("intent", PScalar (SStr "filter"));
    ("theater", PScalar (SStr "EUR"));
    ("codec", PScalar (SStr "H265"));
    ("quality", PScalar (SStr "high")) ].

(** The same hints under the fourth kind the parser's prompt offers. *)
Definition get_info_intent : pydict :=
  [ ("intent", PScalar (SStr "get_info"));
    ("theater", PScalar (SStr "EUR"));
    ("codec", PScalar (SStr "H265")) ].

(** The intent [_parse_query] falls back to for a query without keywords:
    every hint is [None]. *)
Definition fallback_intent : pydict :=
  [ ("intent", PScalar (SStr "search"));
    ("theater", PScalar SNone);
    ("codec", PScalar SNone);
    ("resolution", PScalar SNone);
    ("quality", PScalar SNone);
    ("latency", PScalar SNone);
    ("other_filters", PDict []) ].

(** An upstream failure. *)
Definition error_intent : pydict :=
  [ ("intent", PScalar (SStr "error"));
    ("error", PScalar (SStr "model unavailable"));
    ("theater", PScalar (SStr "EUR")) ].




(** An outside world in which every call fails (the class of the exception
    does not matter: the handlers catch [Exception]). *)
Definition offline : QueryAgent.External :=
  QueryAgent.mkExternal (fun _ => Raise (TypeError "model call failed"))
                        (fun _ => Raise (TypeError "not JSON"))
                        (fun _ _ _ => Raise (TypeError "model call failed")).

(** * Properties *)

(** ** Sorting algorithms *)

Section sorting.
Context {A : Type} (key : A -> Z).

#[local] Instance descending_total : Total (DataLoader.descending key).
Proof. intros x y. unfold DataLoader.descending. lia. Qed.

#[local] Instance descending_trans : Transitive (DataLoader.descending key).
Proof. intros x y z. unfold DataLoader.descending. lia. Qed.

Lemma insert_desc_perm x l : insert_desc key x l ≡ₚ x :: l.
Proof.
  induction l as [|y l IH]; simpl; [done|].
  case_decide; [done|]. rewrite IH. apply Permutation_swap.
Qed.

Lemma insert_desc_sorted x l :
  Sorted (DataLoader.descending key) l ->
  Sorted (DataLoader.descending key) (insert_desc key x l).
Proof.
  induction 1 as [|y l Hl IH Hhd]; simpl.
  - repeat constructor.
  - case_decide as Hxy.
    + repeat constructor; done.
    + constructor; [done|].
      assert (DataLoader.descending key y x) as Hyx
        by (destruct (total (DataLoader.descending key) x y); done).
      destruct Hhd as [|z l' Hyz]; simpl; [by constructor|].
      case_decide; by constructor.
Qed.

End sorting.

Lemma insertion_sort_sorts : DataLoader.sorts_descending insertion_sort.
Proof.
  intros A key l. unfold insertion_sort. split.
  - induction l as [|x l IH]; simpl; [done|]. by rewrite insert_desc_perm, IH.
  - induction l as [|x l IH]; simpl; [constructor|]. by apply insert_desc_sorted.
Qed.


(** ** Reasoning about computations on the world *)

Ltac unfold_monad :=
  unfold mbind, M_bind, mret, M_ret, bind, ret, raise, lift, try_except,
    log, alloc, deref, update, df_select, df_copy in *.

Section wp_rules.
Context {A B : Type}.

Lemma wp_ret (a : A) w (Q : outcome A -> World -> Prop) :
  Q (Ret a) w -> wp (mret a) w Q.
Proof. done. Qed.

Lemma wp_bind (m : M A) (k : A -> M B) w (Q : outcome B -> World -> Prop) :
  wp m w (fun o w' => match o with
                      | Ret a => wp (k a) w' Q
                      | Raise e => Q (Raise e) w'
                      end) ->
  wp (m ≫= k) w Q.
Proof.
  unfold wp, mbind, M_bind, bind. by destruct (m w) as [[a|e] w'].
Qed.

Lemma wp_mono (m : M A) w (Q Q' : outcome A -> World -> Prop) :
  wp m w Q -> (forall o w', Q o w' -> Q' o w') -> wp m w Q'.
Proof. unfold wp. auto. Qed.

Lemma wp_eq (m : M A) w (Q : outcome A -> World -> Prop) o w' :
  m w = (o, w') -> Q o w' -> wp m w Q.
Proof. unfold wp. by intros ->. Qed.
End wp_rules.

Lemma wp_bind_inv {A B} (P : A -> Prop) (m : M A) (k : A -> M B) (w : World)
    (Q : outcome B -> World -> Prop) :
  wp m w (fun o _ => forall a, o = Ret a -> P a) ->
  (forall a w', P a -> wp (k a) w' Q) ->
  (forall e w', Q (Raise e) w') ->
  wp (m ≫= k) w Q.
Proof.
  intros Hm Hk He. apply wp_bind. eapply wp_mono; [exact Hm|].
  intros [a|e] w' H; [apply Hk; by apply H|apply He].
Qed.

Lemma bind_run {A B} (m : M A) (k : A -> M B) (w w' : World) (a : A) :
  m w = (Ret a, w') -> (m ≫= k) w = k a w'.
Proof. intros H. unfold mbind, M_bind, bind. by rewrite H. Qed.

Lemma grown_nil (w : World) : grown w [] [] = w.
Proof. destruct w. unfold grown. simpl. by rewrite !app_nil_r. Qed.

Lemma grown_grown (w : World) fs es fs' es' :
  grown (grown w fs es) fs' es' = grown w (fs ++ fs') (es ++ es').
Proof. unfold grown. simpl. by rewrite !(assoc_L (++)). Qed.

Lemma heap_grown (w : World) fs es (r : nat) (df : DataFrame) :
  heap w !! r = Some df -> heap (grown w fs es) !! r = Some df.
Proof. intros H. simpl. by apply lookup_app_l_Some. Qed.

Lemma heap_grown_first (w : World) (df : DataFrame) fs es :
  heap (grown w (df :: fs) es) !! length (heap w) = Some df.
Proof. simpl. by apply list_lookup_middle. Qed.

Lemma catalog_loaded (w : World) (cat : DataFrame) :
  catalog w = Some cat ->
  exists r, camera_feeds (data_loader w) = Some r /\ heap w !! r = Some cat.
Proof.
  unfold catalog. destruct (camera_feeds (data_loader w)) as [r|]; [|done].
  simpl. eauto.
Qed.

Lemma catalog_grown (w : World) fs es (cat : DataFrame) :
  catalog w = Some cat -> catalog (grown w fs es) = Some cat.
Proof.
  intros (r & Hr & Hcat)%catalog_loaded. unfold catalog. simpl. rewrite Hr. simpl.
  by apply lookup_app_l_Some.
Qed.

Lemma log_run (e : event) (w : World) : log e w = (Ret (), grown w [] [e]).
Proof. unfold log, grown. by rewrite app_nil_r. Qed.

Lemma alloc_run (df : DataFrame) (w : World) :
  alloc df w = (Ret (length (heap w)), grown w [df] []).
Proof. unfold alloc, grown. by rewrite app_nil_r. Qed.

Lemma df_select_run (p : Row -> bool) (r : nat) (df : DataFrame) (w : World) :
  heap w !! r = Some df ->
  df_select p r w = (Ret (length (heap w)), grown w [select p df] []).
Proof.
  intros H. unfold df_select, mbind, M_bind, bind, deref. simpl.
  rewrite H. apply alloc_run.
Qed.

Lemma deref_run (r : nat) (df : DataFrame) (w : World) :
  heap w !! r = Some df -> deref r w = (Ret df, w).
Proof. intros H. unfold deref. by rewrite H. Qed.

Lemma get_camera_feeds_run (w : World) (r : nat) :
  camera_feeds (data_loader w) = Some r ->
  DataLoader.get_camera_feeds w = (Ret r, grown w [] [CatalogRead]).
Proof.
  intros Hr. unfold DataLoader.get_camera_feeds, DataLoader.self_camera_feeds.
  unfold_monad. simpl. rewrite Hr. simpl. rewrite Hr. unfold grown.
  by rewrite app_nil_r.
Qed.

Lemma selection_run (p : Row -> bool) (w : World) (cat : DataFrame) :
  catalog w = Some cat ->
  (DataLoader.get_camera_feeds ≫= df_select p) w =
    (Ret (length (heap w)), grown w [select p cat] [CatalogRead]).
Proof.
  intros (r & Hr & Hcat)%catalog_loaded.
  erewrite bind_run; [|by apply get_camera_feeds_run].
  rewrite (df_select_run p r cat) by by apply heap_grown.
  rewrite grown_grown. simpl. by rewrite app_nil_r.
Qed.

Lemma select_none (p : Row -> bool) (df : DataFrame) :
  (forall row, row ∈ df -> p row = false) -> select p df = [].
Proof.
  unfold select. induction df as [|row df IH]; intros Hp; simpl; [done|].
  rewrite (Hp row) by apply list_elem_of_here.
  apply IH. intros row' Hrow'. apply Hp. by apply list_elem_of_further.
Qed.

(** Away from 0 the range filters are exact: a bound that is supplied and
    not 0 constrains the result, an omitted one does not. *)
Lemma select_all (df : DataFrame) : select (fun _ => true) df = df.
Proof. unfold select. induction df as [|row df IH]; simpl; congruence. Qed.

Lemma elem_of_select (p : Row -> bool) (df : DataFrame) (row : Row) :
  row ∈ select p df <-> row ∈ df /\ p row = true.
Proof. unfold select. rewrite !list_elem_of_In. apply filter_In. Qed.

Lemma select_sublist (p : Row -> bool) (df : DataFrame) : select p df `sublist_of` df.
Proof.
  unfold select. induction df as [|row df IH]; simpl; [done|].
  destruct (p row); by constructor.
Qed.

(** ** Loading *)

(** After [MCPTools.__init__] the catalog is the table as [read_csv] reads
    it. *)
Lemma loaded_after_init (lines : list Feed) :
  exists w, MCPTools.__init__ (start_up lines) = (Ret (), w)
            /\ catalog w = Some (read_csv lines).
Proof. by eexists. Qed.

Lemma small_world_after_init :
  MCPTools.__init__ (start_up [FD_001; FD_002; FD_003]) = (Ret (), small_world).
Proof. reflexivity. Qed.

(** ** Quality ranking *)

Lemma score_spec (f : Feed) : DataLoader.score f = spec_quality_score f.
Proof.
  unfold DataLoader.score, spec_quality_score, DataLoader.high_res,
    DataLoader.modern_codec, DataLoader.low_latency, DataLoader.astype_int.
  f_equal; [f_equal|].
  - destruct (Z.leb_spec 1920 (RES_W f)), (Z.leb_spec 1080 (RES_H f)); simpl;
      case_decide; try done; lia.
  - destruct (String.eqb_spec (CODEC f) "H265"), (String.eqb_spec (CODEC f) "AV1"),
      (String.eqb_spec (CODEC f) "VP9"); simpl; case_decide as Hin; try done;
      exfalso; revert Hin; rewrite !elem_of_cons, elem_of_nil; intuition congruence.
  - destruct (Z.leb_spec (LAT_MS f) 500); case_decide; try done; lia.
Qed.

Lemma assign_scores (df : DataFrame) :
  assign_quality_score (map (fun r => DataLoader.score (feed r)) df) df = map annotate df.
Proof.
  unfold assign_quality_score. induction df as [|r df IH]; simpl; [done|].
  rewrite IH. unfold annotate at 1. by rewrite score_spec.
Qed.

Lemma spec_quality_score_range (f : Feed) :
  spec_quality_score f ∈ [0; 1; 2; 3; 4; 5; 6].
Proof.
  unfold spec_quality_score.
  repeat case_decide; simpl; rewrite !elem_of_cons; auto 10.
Qed.

Lemma get_high_quality_feeds_run (quicksort : DataLoader.sort_kind)
    (w : World) (r : nat) (cat : DataFrame) :
  camera_feeds (data_loader w) = Some r -> heap w !! r = Some cat ->
  DataLoader.get_high_quality_feeds quicksort w =
    (Ret (S (length (heap w))),
     grown w [map annotate cat; quicksort Row DataLoader.score_of (map annotate cat)]
           [CatalogRead]).
Proof.
  intros Hr Hcat. unfold DataLoader.get_high_quality_feeds.
  erewrite bind_run; [|by apply get_camera_feeds_run].
  erewrite bind_run; [|by apply deref_run, heap_grown].
  erewrite bind_run; [|unfold df_copy; erewrite bind_run;
                        [apply alloc_run|by apply deref_run, heap_grown]].
  rewrite grown_grown. simpl app.
  unfold DataLoader.sort_values_desc, update. unfold_monad. simpl.
  rewrite app_nil_r.
  rewrite (alter_app_r_alt _ (heap w) [cat] (length (heap w))) by lia.
  rewrite Nat.sub_diag. simpl.
  rewrite (list_lookup_middle (heap w) [] _ (length (heap w))) by done.
  simpl. rewrite assign_scores, length_app. simpl.
  unfold grown. rewrite <- (assoc_L (++)). simpl.
  repeat f_equal. lia.
Qed.

(** C2: on a loaded catalog the quality ranking succeeds and its frame holds
    exactly the catalog rows, each with [quality_score] set to
    3*[width >= 1920 and height >= 1080] + 2*[codec in H265, AV1, VP9]
    + 1*[latency_ms <= 500]; that score is one of 0..6. *)
Theorem quality_score_formula (quicksort : DataLoader.sort_kind)
    (w : World) (cat : DataFrame) :
  DataLoader.sorts_descending quicksort ->
  catalog w = Some cat ->
  exists (r' : nat) (ranked : DataFrame) (w' : World),
    DataLoader.get_high_quality_feeds quicksort w = (Ret r', w')
    /\ heap w' !! r' = Some ranked
    /\ ranked ≡ₚ map annotate cat
    /\ (forall row, row ∈ ranked ->
          exists c, c ∈ cat /\ label row = label c /\ feed row = feed c
                    /\ quality_score row = Some (spec_quality_score (feed c)))
    /\ (forall c, c ∈ cat -> spec_quality_score (feed c) ∈ [0; 1; 2; 3; 4; 5; 6]).
Proof.
  intros Hsort (r & Hr & Hcat)%catalog_loaded.
  rewrite (get_high_quality_feeds_run quicksort w r cat Hr Hcat).
  eexists _, _, _. split; [done|].
  simpl. split; [|split; [|split]].
  - rewrite (lookup_app_r (heap w)) by lia.
    replace (S (length (heap w)) - length (heap w))%nat with 1%nat by lia. done.
  - apply Hsort.
  - intros row Hrow.
    rewrite (proj1 (Hsort Row DataLoader.score_of (map annotate cat))) in Hrow.
    apply list_elem_of_fmap in Hrow as (c & -> & Hc). by exists c.
  - intros c _. apply spec_quality_score_range.
Qed.

Lemma quality_score_formula_example :
  exists (r' : nat) (ranked : DataFrame) (w' : World),
    DataLoader.get_high_quality_feeds insertion_sort small_world = (Ret r', w')
    /\ heap w' !! r' = Some ranked
    /\ ranked ≡ₚ map annotate (read_csv [FD_001; FD_002; FD_003])
    /\ (forall row, row ∈ ranked ->
          exists c, c ∈ read_csv [FD_001; FD_002; FD_003]
                    /\ label row = label c /\ feed row = feed c
                    /\ quality_score row = Some (spec_quality_score (feed c)))
    /\ (forall c, c ∈ read_csv [FD_001; FD_002; FD_003] ->
          spec_quality_score (feed c) ∈ [0; 1; 2; 3; 4; 5; 6]).
Proof.
  apply (quality_score_formula insertion_sort small_world).
  - apply insertion_sort_sorts.
  - reflexivity.
Defined.




(** Up to seventeen rows that sort is an insertion sort and keeps equal
    scores in catalog order, as on the small catalog. *)
Lemma ranking_of_small_catalog :
  exists (r' : nat) (w' : World),
    DataLoader.get_high_quality_feeds Pandas.sort_values_descending small_world = (Ret r', w')
    /\ heap w' !! r' = Some [ mkRow 0 FD_001 (Some 6); mkRow 2 FD_003 (Some 6);
                              mkRow 1 FD_002 (Some 0) ].
Proof. eexists _, _. split; [vm_compute; reflexivity|reflexivity]. Qed.

(** ** Lookup by feed id *)

(** C4 (as the code has it): for a feed id that no catalog row carries the
    lookup returns normally, with a dictionary of exactly two entries: the
    message under [error] and, under [available_feeds], the feed ids of the
    first ten catalog rows (all of them when there are fewer).  The
    dictionary has no entry [found]. *)
Theorem feed_lookup_not_found (w : World) (cat : DataFrame) (feed_id : string) :
  catalog w = Some cat ->
  (forall row, row ∈ cat -> FEED_ID (feed row) <> feed_id) ->
  exists (hints : list string) (result : pydict) (w' : World),
    MCPTools.get_feed_by_id feed_id w = (Ret (PDict result), w')
    /\ result = [ ("error", PScalar (SStr ("Feed ID '" +:+ feed_id +:+ "' not found")));
                  ("available_feeds", PList (map (fun h => PScalar (SStr h)) hints)) ]
    /\ hints = take 10 (map (fun row => FEED_ID (feed row)) cat)
    /\ (length hints <= 10)%nat
    /\ (forall h, h ∈ hints -> exists row, row ∈ cat /\ FEED_ID (feed row) = h)
    /\ dict_lookup "found" result = None.
Proof.
  intros Hcat Hnone. pose proof Hcat as (r & Hr & Hheap)%catalog_loaded.
  exists (take 10 (map (fun row => FEED_ID (feed row)) cat)).
  eexists _, _. split; [|split; [reflexivity|split; [reflexivity|split; [|split]]]].
  - unfold MCPTools.get_feed_by_id.
    unfold mbind at 1, M_bind at 1, bind at 1.
    rewrite (get_camera_feeds_run w r Hr).
    unfold mbind at 1, M_bind at 1, bind at 1.
    set (p := fun row : Row => String.eqb (FEED_ID (feed row)) feed_id).
    rewrite (df_select_run p r cat) by by apply heap_grown.
    rewrite grown_grown. simpl app.
    unfold mbind at 1, M_bind at 1, bind at 1.
    rewrite (deref_run (length (heap (grown w [] [CatalogRead]))) (select p cat)).
    2:{ simpl. rewrite app_nil_r.
        by rewrite (list_lookup_middle (heap w) [] _ (length (heap w))). }
    unfold mbind at 1, M_bind at 1, bind at 1.
    rewrite (deref_run r cat) by by apply heap_grown.
    rewrite select_none.
    2:{ intros row Hrow. apply String.eqb_neq. by apply Hnone. }
    unfold mret, M_ret, ret. rewrite firstn_map, map_map. reflexivity.
  - rewrite length_take. lia.
  - intros h Hh%elem_of_take. destruct Hh as (i & Hh & _).
    rewrite list_lookup_fmap in Hh.
    destruct (cat !! i) as [row|] eqn:Hrow; [|done]. simpl in Hh.
    exists row. split; [by eapply list_elem_of_lookup_2|congruence].
  - reflexivity.
Qed.

Lemma feed_lookup_not_found_example :
  exists (hints : list string) (result : pydict) (w' : World),
    MCPTools.get_feed_by_id "FD-404" small_world = (Ret (PDict result), w')
    /\ result = [ ("error", PScalar (SStr ("Feed ID '" +:+ "FD-404" +:+ "' not found")));
                  ("available_feeds", PList (map (fun h => PScalar (SStr h)) hints)) ]
    /\ hints = take 10 (map (fun row => FEED_ID (feed row))
                            (read_csv [FD_001; FD_002; FD_003]))
    /\ (length hints <= 10)%nat
    /\ (forall h, h ∈ hints ->
          exists row, row ∈ read_csv [FD_001; FD_002; FD_003] /\ FEED_ID (feed row) = h)
    /\ dict_lookup "found" result = None.
Proof.
  apply (feed_lookup_not_found small_world (read_csv [FD_001; FD_002; FD_003]) "FD-404").
  - reflexivity.
  - intros row Hrow.
    change (read_csv [FD_001; FD_002; FD_003])
      with [mkRow 0 FD_001 None; mkRow 1 FD_002 None; mkRow 2 FD_003 None] in Hrow.
    rewrite !elem_of_cons, elem_of_nil in Hrow.
    destruct Hrow as [->|[->|[->|[]]]]; discriminate.
Defined.

(** C4 as stated fails: the result for an unknown id carries no [found]
    flag at all, so the flag is not [False]; [found] is only ever written,
    as [True], on the success path. *)
Lemma feed_lookup_has_no_found_flag :
  exists (result : pydict) (w' : World),
    MCPTools.get_feed_by_id "FD-404" small_world = (Ret (PDict result), w')
    /\ result = [ ("error", PScalar (SStr "Feed ID 'FD-404' not found"));
                  ("available_feeds",
                   PList [ PScalar (SStr "FD-001"); PScalar (SStr "FD-002");
                           PScalar (SStr "FD-003") ]) ]
    /\ dict_lookup "found" result = None
    /\ dict_lookup "found" result <> Some (PScalar (SBool false)).
Proof.
  eexists _, _. split; [vm_compute; reflexivity|].
  split; [reflexivity|]. split; [reflexivity|]. discriminate.
Qed.

(** ** The catalog is never written *)

Create HintDb grows.

Lemma grows_ret {A} (a : A) : grows (mret a).
Proof. intros w cat _. exists [], []. by rewrite grown_nil. Qed.

Lemma grows_raise {A} (e : exn) : grows (@raise A e).
Proof. intros w cat _. exists [], []. by rewrite grown_nil. Qed.

Lemma grows_lift {A} (o : outcome A) : grows (lift o).
Proof. intros w cat _. exists [], []. by rewrite grown_nil. Qed.

Lemma grows_bind {A B} (m : M A) (k : A -> M B) :
  grows m -> (forall a, grows (k a)) -> grows (m ≫= k).
Proof.
  intros Hm Hk w cat Hcat. apply wp_bind.
  eapply wp_mono; [by eapply Hm|]. intros [a|e] w' (fs & es & ->); [|by eauto].
  eapply wp_mono; [eapply Hk; by apply catalog_grown|].
  intros _ w'' (fs' & es' & ->). rewrite grown_grown. eauto.
Qed.

Lemma grows_log (e : event) : grows (log e).
Proof. intros w cat _. unfold wp. rewrite log_run. simpl. eauto. Qed.

Lemma grows_alloc (df : DataFrame) : grows (alloc df).
Proof. intros w cat _. unfold wp. rewrite alloc_run. simpl. eauto. Qed.

Lemma grows_deref (r : nat) : grows (deref r).
Proof. intros w cat _. exists [], []. by rewrite grown_nil. Qed.

#[export] Hint Resolve grows_ret grows_raise grows_lift grows_log grows_alloc
  grows_deref : grows.

Ltac grows_step :=
  first [ solve [auto with grows]
        | match goal with
          | |- grows (match ?x with _ => _ end) => destruct x
          | |- grows (if ?b then _ else _) => destruct b
          end
        | apply grows_bind; [|intros ?] ].

Lemma grows_df_select (p : Row -> bool) (r : nat) : grows (df_select p r).
Proof. unfold df_select. repeat grows_step. Qed.

Lemma grows_get_camera_feeds : grows DataLoader.get_camera_feeds.
Proof.
  intros w cat (r & Hr & _)%catalog_loaded. unfold wp.
  rewrite (get_camera_feeds_run w r Hr). simpl. eauto.
Qed.

Lemma grows_get_high_quality_feeds (quicksort : DataLoader.sort_kind) :
  grows (DataLoader.get_high_quality_feeds quicksort).
Proof.
  intros w cat (r & Hr & Hcat)%catalog_loaded. unfold wp.
  rewrite (get_high_quality_feeds_run quicksort w r cat Hr Hcat). simpl.
  by eexists _, _.
Qed.

#[export] Hint Resolve grows_df_select grows_get_camera_feeds
  grows_get_high_quality_feeds : grows.

Lemma grows_when_bound (bound : option Z) (mask : Z -> Row -> bool) (feeds : nat) :
  grows (DataLoader.when_bound bound mask feeds).
Proof. unfold DataLoader.when_bound. repeat grows_step. Qed.

Lemma grows_apply_filter (filters : gmap string scalar) (key : string)
    (mask : scalar -> outcome (Row -> bool)) (st : nat * pydict) :
  grows (MCPTools.apply_filter filters key mask st).
Proof. unfold MCPTools.apply_filter. repeat grows_step. Qed.

#[export] Hint Resolve grows_when_bound grows_apply_filter : grows.

Lemma grows_perform (quicksort : DataLoader.sort_kind) (op : operation) :
  grows (perform quicksort op).
Proof.
  destruct op; simpl;
    unfold MCPTools.get_all_camera_feeds, MCPTools.filter_by_theater,
      MCPTools.filter_by_codec, MCPTools.filter_by_resolution,
      MCPTools.filter_by_latency, MCPTools.get_high_quality_feeds,
      MCPTools.filter_by_model, MCPTools.filter_by_encryption,
      MCPTools.filter_by_civilian_safety, MCPTools.analyze_theater_distribution,
      MCPTools.analyze_codec_distribution, MCPTools.distribution,
      MCPTools.analyze_resolution_distribution, MCPTools.get_feed_by_id,
      MCPTools.search_feeds, DataLoader.get_feeds_by_theater,
      DataLoader.get_feeds_by_codec, DataLoader.get_feeds_by_resolution,
      DataLoader.get_feeds_by_latency, DataLoader.get_feeds_by_model,
      DataLoader.get_encrypted_feeds, DataLoader.get_civilian_safe_feeds;
    repeat grows_step.
Qed.

Lemma bound_blocks_run (blocks : list (option Z * (Z -> Row -> bool))) (r : nat)
    (df : DataFrame) (w : World) :
  heap w !! r = Some df ->
  exists (r' : nat) (frames : list DataFrame) (df' : DataFrame),
    bound_blocks blocks r w = (Ret r', grown w frames [])
    /\ heap (grown w frames []) !! r' = Some df'
    /\ ((r' = r /\ frames = []
         /\ Forall (fun b => DataLoader.if_bound b = false) blocks.*1)
        \/ ((length (heap w) <= r')%nat
            /\ Exists (fun b => DataLoader.if_bound b = true) blocks.*1)).
Proof.
  revert r df w. induction blocks as [|[bound mask] blocks IH]; intros r df w Hdf.
  - exists r, [], df. rewrite grown_nil. split; [done|]. split; [done|]. left. by repeat split.
  - cbn [bound_blocks]. destruct (DataLoader.if_bound bound) eqn:Hbound.
    + assert (exists z, bound = Some z /\ (z =? 0) = false) as (z & -> & Hz).
      { destruct bound as [z|]; [|done]. exists z. split; [done|].
        simpl in Hbound. by destruct (z =? 0). }
      erewrite bind_run.
      2:{ unfold DataLoader.when_bound. rewrite Hbound. by apply df_select_run. }
      destruct (IH (length (heap w)) (select (mask z) df) (grown w [select (mask z) df] []))
        as (r' & frames & df' & Hrun & Hdf' & Hcase);
        [apply (heap_grown_first w _ [] [])|].
      exists r', (select (mask z) df :: frames), df'.
      rewrite Hrun, grown_grown. split; [done|]. split.
      { by rewrite grown_grown in Hdf'. }
      right. split; [|by left].
      destruct Hcase as [(-> & _ & _)|[Hle _]]; [done|].
      simpl in Hle. rewrite length_app in Hle. lia.
    + erewrite bind_run.
      2:{ unfold DataLoader.when_bound. rewrite Hbound.
          instantiate (1 := w). instantiate (1 := r). by destruct bound. }
      destruct (IH r df w Hdf) as (r' & frames & df' & Hrun & Hdf' & Hcase).
      exists r', frames, df'. split; [done|]. split; [done|].
      destruct Hcase as [(-> & -> & Hall)|[Hle Hex]].
      * left. repeat split; try done. by constructor.
      * right. split; [done|]. by right.
Qed.

Lemma view_fresh_or_catalog (quicksort : DataLoader.sort_kind) (op : view_operation)
    (w : World) (cat : DataFrame) :
  catalog w = Some cat ->
  exists (r' : nat) (w' : World) (frames : list DataFrame) (df : DataFrame),
    view quicksort op w = (Ret r', w')
    /\ w' = grown w frames [CatalogRead]
    /\ heap w' !! r' = Some df
    /\ (selecting op -> (length (heap w) <= r')%nat)
    /\ (unbounded op -> frames = [] /\ camera_feeds (data_loader w) = Some r').
Proof.
  intros Hcat. pose proof Hcat as (r & Hr & Hheap)%catalog_loaded.
  assert (forall p : Row -> bool,
            exists (r' : nat) (w' : World) (frames : list DataFrame) (df : DataFrame),
              (DataLoader.get_camera_feeds ≫= df_select p) w = (Ret r', w')
              /\ w' = grown w frames [CatalogRead]
              /\ heap w' !! r' = Some df
              /\ (True -> (length (heap w) <= r')%nat)
              /\ (False -> frames = [] /\ camera_feeds (data_loader w) = Some r'))
    as Hselect.
  { intros p. eexists _, _, [_], _. split; [by apply selection_run|].
    split; [done|]. split; [apply (heap_grown_first w _ [] _)|]. split; [done|done]. }
  assert (forall blocks : list (option Z * (Z -> Row -> bool)),
            exists (r' : nat) (w' : World) (frames : list DataFrame) (df : DataFrame),
              (DataLoader.get_camera_feeds ≫= bound_blocks blocks) w = (Ret r', w')
              /\ w' = grown w frames [CatalogRead]
              /\ heap w' !! r' = Some df
              /\ (Exists (fun b => DataLoader.if_bound b = true) blocks.*1 ->
                  (length (heap w) <= r')%nat)
              /\ (Forall (fun b => b = None) blocks.*1 ->
                  frames = [] /\ camera_feeds (data_loader w) = Some r'))
    as Hrange.
  { intros blocks.
    destruct (bound_blocks_run blocks r cat (grown w [] [CatalogRead]))
      as (r' & frames & df & Hrun & Hdf & Hcase); [by apply heap_grown|].
    exists r', (grown w frames [CatalogRead]), frames, df.
    rewrite grown_grown in Hrun, Hdf. simpl in Hrun, Hdf.
    split; [erewrite bind_run; [exact Hrun|by apply get_camera_feeds_run]|].
    split; [done|]. split; [done|]. split.
    - intros Hex. destruct Hcase as [(_ & _ & Hall)|[Hle _]].
      + exfalso. apply Exists_exists in Hex as (b & Hb & Hyes).
        rewrite Forall_forall in Hall. specialize (Hall b Hb). congruence.
      + simpl in Hle. by rewrite app_nil_r in Hle.
    - intros Hnone. destruct Hcase as [(-> & -> & _)|[_ Hex]]; [done|].
      exfalso. apply Exists_exists in Hex as (b & Hb & Hyes).
      rewrite Forall_forall in Hnone. by rewrite (Hnone b Hb) in Hyes. }
  destruct op; simpl; unfold selecting, unbounded; simpl.
  - apply Hselect.
  - apply Hselect.
  - apply (Hrange [ (min_width, fun b r => b <=? RES_W (feed r));
                    (min_height, fun b r => b <=? RES_H (feed r));
                    (max_width, fun b r => RES_W (feed r) <=? b);
                    (max_height, fun b r => RES_H (feed r) <=? b) ]).
  - apply (Hrange [ (max_latency, fun b r => LAT_MS (feed r) <=? b);
                    (min_latency, fun b r => b <=? LAT_MS (feed r)) ]).
  - eexists _, _, [_; _], _.
    split; [by apply (get_high_quality_feeds_run quicksort w r cat)|].
    split; [done|]. split; [|split; [intros _; lia|done]].
    simpl. rewrite (lookup_app_r (heap w)) by lia.
    by replace (S (length (heap w)) - length (heap w))%nat with 1%nat by lia.
  - apply Hselect.
  - apply Hselect.
  - apply Hselect.
Qed.

(** C9 (as the code has it): whatever operation runs on a loaded catalog,
    with whatever arguments and whether it returns or raises, the frame
    [self.camera_feeds] refers to holds the same rows afterwards; the world
    only gained new frames (the derived views) and events.  The frame a
    [DataLoader] operation hands back is a new object, not one of the
    frames there were and not the catalog's, whenever the operation selects
    rows: every operation but the two range filters, and a range filter
    with a bound that is supplied and not 0.  A range filter called with
    every bound omitted makes no frame and hands back the catalog frame
    itself. *)
Theorem catalog_unchanged (quicksort : DataLoader.sort_kind) (op : operation)
    (vop : view_operation) (w : World) (cat : DataFrame) :
  catalog w = Some cat ->
  (catalog (perform quicksort op w).2 = Some cat
   /\ exists frames events, (perform quicksort op w).2 = grown w frames events)
  /\ exists (r' : nat) (w' : World) (frames : list DataFrame) (df : DataFrame),
       view quicksort vop w = (Ret r', w')
       /\ w' = grown w frames [CatalogRead]
       /\ catalog w' = Some cat
       /\ heap w' !! r' = Some df
       /\ (selecting vop ->
           heap w !! r' = None /\ camera_feeds (data_loader w') <> Some r')
       /\ (unbounded vop ->
           heap w' = heap w /\ camera_feeds (data_loader w') = Some r' /\ df = cat).
Proof.
  intros Hcat. split.
  - destruct (grows_perform quicksort op w cat Hcat) as (fs & es & Hw').
    split; [|by eauto]. rewrite Hw'. by apply catalog_grown.
  - destruct (view_fresh_or_catalog quicksort vop w cat Hcat)
      as (r' & w' & frames & df & Hrun & -> & Hdf & Hfresh & Hsame).
    pose proof Hcat as (r & Hr & Hheap)%catalog_loaded.
    exists r', (grown w frames [CatalogRead]), frames, df.
    split; [done|]. split; [done|]. split; [by apply catalog_grown|]. split; [done|]. split.
    + intros Hsel. specialize (Hfresh Hsel). split; [by apply lookup_ge_None|].
      simpl. rewrite Hr. intros [= ->]. apply lookup_lt_Some in Hheap. lia.
    + intros Hnone. destruct (Hsame Hnone) as [-> Hr'].
      split; [simpl; by rewrite app_nil_r|]. split; [done|].
      rewrite Hr in Hr'. injection Hr' as <-.
      rewrite (heap_grown w [] [CatalogRead] r cat Hheap) in Hdf. congruence.
Qed.

Lemma catalog_unchanged_example :
  (catalog (perform insertion_sort get_high_quality_feeds_op small_world).2
     = Some (read_csv [FD_001; FD_002; FD_003])
   /\ exists frames events,
        (perform insertion_sort get_high_quality_feeds_op small_world).2
          = grown small_world frames events)
  /\ exists (r' : nat) (w' : World) (frames : list DataFrame) (df : DataFrame),
       view insertion_sort (get_feeds_by_latency_view (Some 500) None) small_world
         = (Ret r', w')
       /\ w' = grown small_world frames [CatalogRead]
       /\ catalog w' = Some (read_csv [FD_001; FD_002; FD_003])
       /\ heap w' !! r' = Some df
       /\ (selecting (get_feeds_by_latency_view (Some 500) None) ->
           heap small_world !! r' = None /\ camera_feeds (data_loader w') <> Some r')
       /\ (unbounded (get_feeds_by_latency_view (Some 500) None) ->
           heap w' = heap small_world /\ camera_feeds (data_loader w') = Some r'
           /\ df = read_csv [FD_001; FD_002; FD_003]).
Proof.
  apply (catalog_unchanged insertion_sort get_high_quality_feeds_op
           (get_feeds_by_latency_view (Some 500) None) small_world
           (read_csv [FD_001; FD_002; FD_003])).
  reflexivity.
Defined.

(** C9 as stated fails where it promises a fresh view: the range filters
    called without a bound return the very frame the loader holds (frame 0
    of the small world), and no frame is made. *)
Lemma range_filter_without_bound_returns_catalog :
  camera_feeds (data_loader small_world) = Some 0%nat
  /\ DataLoader.get_feeds_by_latency None None small_world
     = (Ret 0%nat, grown small_world [] [CatalogRead])
  /\ DataLoader.get_feeds_by_resolution None None None None small_world
     = (Ret 0%nat, grown small_world [] [CatalogRead])
  /\ heap (grown small_world [] [CatalogRead]) = heap small_world.
Proof. repeat split. Qed.

(** The copy in [get_high_quality_feeds] matters: assigning the column to
    the loader's own frame would rewrite the catalog. *)
Lemma assignment_without_copy_writes_catalog :
  catalog (update 0 (assign_quality_score [6; 0; 6]) small_world).2
  = Some [ mkRow 0 FD_001 (Some 6); mkRow 1 FD_002 (Some 0); mkRow 2 FD_003 (Some 6) ]
  /\ catalog small_world
     = Some [ mkRow 0 FD_001 None; mkRow 1 FD_002 None; mkRow 2 FD_003 None ].
Proof. split; reflexivity. Qed.

(** ** Range filters *)

(** C6 fails on the code for a bound of 0: [if max_latency:] and its
    siblings test the truth value of the bound, so a supplied 0 is treated
    like an omitted bound.  No feed of the small catalog has latency <= 0
    or width <= 0, yet both calls return all three rows. *)
Theorem zero_bound_is_ignored :
  (exists (r' : nat) (w' : World),
      DataLoader.get_feeds_by_latency (Some 0) None small_world = (Ret r', w')
      /\ heap w' !! r' = Some (read_csv [FD_001; FD_002; FD_003])
      /\ List.filter (fun row => LAT_MS (feed row) <=? 0)
                     (read_csv [FD_001; FD_002; FD_003]) = [])
  /\ (exists (r' : nat) (w' : World),
         DataLoader.get_feeds_by_resolution None None (Some 0) None small_world
           = (Ret r', w')
         /\ heap w' !! r' = Some (read_csv [FD_001; FD_002; FD_003])
         /\ List.filter (fun row => RES_W (feed row) <=? 0)
                        (read_csv [FD_001; FD_002; FD_003]) = []).
Proof.
  split; eexists _, _; (split; [vm_compute; reflexivity|]); split; reflexivity.
Qed.

Lemma when_bound_run (bound : option Z) (mask : Z -> Row -> bool) (r : nat)
    (df : DataFrame) (w : World) :
  heap w !! r = Some df ->
  bound <> Some 0 ->
  exists r' fs,
    DataLoader.when_bound bound mask r w = (Ret r', grown w fs [])
    /\ heap (grown w fs []) !! r' =
         Some (select (fun row => from_option (fun b => mask b row) true bound) df).
Proof.
  intros Hdf Hnz. destruct bound as [b|]; simpl.
  - assert ((b =? 0) = false) as -> by (apply Z.eqb_neq; congruence). simpl.
    rewrite (df_select_run _ r df w Hdf). eexists _, [_]. split; [done|].
    apply (heap_grown_first w _ [] []).
  - exists r, []. rewrite grown_nil. split; [done|]. simpl. by rewrite ?app_nil_r, select_all.
Qed.

Ltac bounds_iff :=
  split;
  [ intros; repeat split; try tauto; intros ? [= <-]; tauto
  | intros;
    repeat match goal with
           | H : _ /\ _ |- _ => destruct H
           | H : forall b, Some ?z = Some b -> _ |- _ => specialize (H z eq_refl)
           end;
    tauto ].

Lemma wp_when_bound (bound : option Z) (mask : Z -> Row -> bool) (r : nat)
    (df : DataFrame) (w : World) (Q : outcome nat -> World -> Prop) :
  heap w !! r = Some df ->
  bound <> Some 0 ->
  (forall r' w',
      heap w' !! r' = Some (select (fun row => from_option (fun b => mask b row) true bound) df) ->
      Q (Ret r') w') ->
  wp (DataLoader.when_bound bound mask r) w Q.
Proof.
  intros Hdf Hnz HQ.
  destruct (when_bound_run bound mask r df w Hdf Hnz) as (r' & fs & Hrun & Hheap).
  eapply wp_eq; [exact Hrun|]. by apply HQ.
Qed.

(** X1: with every bound omitted or different from 0, the by-latency filter
    returns, in catalog order, exactly the catalog rows within the supplied
    bounds. *)
Lemma latency_filter_away_from_zero (max_latency min_latency : option Z)
    (w : World) (cat : DataFrame) :
  catalog w = Some cat ->
  max_latency <> Some 0 -> min_latency <> Some 0 ->
  exists (r' : nat) (found : DataFrame) (w' : World),
    DataLoader.get_feeds_by_latency max_latency min_latency w = (Ret r', w')
    /\ heap w' !! r' = Some found
    /\ found `sublist_of` cat
    /\ (forall row,
          row ∈ found
          <-> row ∈ cat
              /\ (forall b, max_latency = Some b -> LAT_MS (feed row) <= b)
              /\ (forall b, min_latency = Some b -> b <= LAT_MS (feed row))).
Proof.
  intros (r & Hr & Hcat)%catalog_loaded Hmax Hmin.
  set (found := select (fun row => from_option (fun b => b <=? LAT_MS (feed row)) true
                                               min_latency)
                  (select (fun row => from_option (fun b => LAT_MS (feed row) <=? b) true
                                                  max_latency) cat)).
  enough (wp (DataLoader.get_feeds_by_latency max_latency min_latency) w
            (fun o w' => exists r', o = Ret r' /\ heap w' !! r' = Some found)) as H.
  { unfold wp in H.
    destruct (DataLoader.get_feeds_by_latency max_latency min_latency w) as [o w'].
    simpl in H. destruct H as (r' & -> & Hfound). exists r', found, w'.
    split; [done|]. split; [done|]. split.
    - unfold found. etrans; apply select_sublist.
    - intros row. unfold found. rewrite !elem_of_select.
      destruct max_latency as [bmax|], min_latency as [bmin|]; simpl;
        rewrite ?Z.leb_le; bounds_iff. }
  unfold DataLoader.get_feeds_by_latency.
  apply wp_bind. eapply wp_eq; [by apply get_camera_feeds_run|].
  apply wp_bind. eapply (wp_when_bound _ _ _ cat); [by apply heap_grown|done|].
  intros r1 w1 Hh1. apply wp_bind. eapply wp_when_bound; [exact Hh1|done|].
  intros r2 w2 Hh2. apply wp_ret. by exists r2.
Qed.

Lemma latency_filter_away_from_zero_example :
  exists (r' : nat) (found : DataFrame) (w' : World),
    DataLoader.get_feeds_by_latency (Some 500) (Some 120) small_world = (Ret r', w')
    /\ heap w' !! r' = Some found
    /\ found `sublist_of` read_csv [FD_001; FD_002; FD_003]
    /\ (forall row,
          row ∈ found
          <-> row ∈ read_csv [FD_001; FD_002; FD_003]
              /\ (forall b, Some 500 = Some b -> LAT_MS (feed row) <= b)
              /\ (forall b, Some 120 = Some b -> b <= LAT_MS (feed row))).
Proof.
  apply (latency_filter_away_from_zero (Some 500) (Some 120) small_world
           (read_csv [FD_001; FD_002; FD_003])); [reflexivity|discriminate..].
Defined.

(** X2: with every bound omitted or different from 0, the by-resolution
    filter returns, in catalog order, exactly the catalog rows whose width
    and height are within the supplied bounds. *)
Lemma resolution_filter_away_from_zero
    (min_width min_height max_width max_height : option Z)
    (w : World) (cat : DataFrame) :
  catalog w = Some cat ->
  min_width <> Some 0 -> min_height <> Some 0 ->
  max_width <> Some 0 -> max_height <> Some 0 ->
  exists (r' : nat) (found : DataFrame) (w' : World),
    DataLoader.get_feeds_by_resolution min_width min_height max_width max_height w
      = (Ret r', w')
    /\ heap w' !! r' = Some found
    /\ found `sublist_of` cat
    /\ (forall row,
          row ∈ found
          <-> row ∈ cat
              /\ (forall b, min_width = Some b -> b <= RES_W (feed row))
              /\ (forall b, min_height = Some b -> b <= RES_H (feed row))
              /\ (forall b, max_width = Some b -> RES_W (feed row) <= b)
              /\ (forall b, max_height = Some b -> RES_H (feed row) <= b)).
Proof.
  intros (r & Hr & Hcat)%catalog_loaded Hminw Hminh Hmaxw Hmaxh.
  set (found :=
         select (fun row => from_option (fun b => RES_H (feed row) <=? b) true max_height)
           (select (fun row => from_option (fun b => RES_W (feed row) <=? b) true max_width)
              (select (fun row => from_option (fun b => b <=? RES_H (feed row)) true
                                              min_height)
                 (select (fun row => from_option (fun b => b <=? RES_W (feed row)) true
                                                 min_width) cat)))).
  enough (wp (DataLoader.get_feeds_by_resolution min_width min_height max_width
                max_height) w
            (fun o w' => exists r', o = Ret r' /\ heap w' !! r' = Some found)) as H.
  { unfold wp in H.
    destruct (DataLoader.get_feeds_by_resolution min_width min_height max_width
                max_height w) as [o w'].
    simpl in H. destruct H as (r' & -> & Hfound). exists r', found, w'.
    split; [done|]. split; [done|]. split.
    - unfold found. repeat (etrans; [apply select_sublist|]). done.
    - intros row. unfold found. rewrite !elem_of_select.
      destruct min_width, min_height, max_width, max_height; simpl;
        rewrite ?Z.leb_le; bounds_iff. }
  unfold DataLoader.get_feeds_by_resolution.
  apply wp_bind. eapply wp_eq; [by apply get_camera_feeds_run|].
  apply wp_bind. eapply (wp_when_bound _ _ _ cat); [by apply heap_grown|done|].
  intros r1 w1 Hh1. apply wp_bind. eapply wp_when_bound; [exact Hh1|done|].
  intros r2 w2 Hh2. apply wp_bind. eapply wp_when_bound; [exact Hh2|done|].
  intros r3 w3 Hh3. apply wp_bind. eapply wp_when_bound; [exact Hh3|done|].
  intros r4 w4 Hh4. apply wp_ret. by exists r4.
Qed.

Lemma resolution_filter_away_from_zero_example :
  exists (r' : nat) (found : DataFrame) (w' : World),
    DataLoader.get_feeds_by_resolution (Some 1920) None None (Some 1080) small_world
      = (Ret r', w')
    /\ heap w' !! r' = Some found
    /\ found `sublist_of` read_csv [FD_001; FD_002; FD_003]
    /\ (forall row,
          row ∈ found
          <-> row ∈ read_csv [FD_001; FD_002; FD_003]
              /\ (forall b, Some 1920 = Some b -> b <= RES_W (feed row))
              /\ (forall b, None = Some b -> b <= RES_H (feed row))
              /\ (forall b, None = Some b -> RES_W (feed row) <= b)
              /\ (forall b, Some 1080 = Some b -> RES_H (feed row) <= b)).
Proof.
  apply (resolution_filter_away_from_zero (Some 1920) None None (Some 1080) small_world
           (read_csv [FD_001; FD_002; FD_003])); [reflexivity|discriminate..].
Defined.

(** ** Multi-Filter Search *)

Lemma lookup_supported_only (filters : gmap string scalar) (key : string) :
  key ∈ supported_filters -> supported_only filters !! key = filters !! key.
Proof.
  intros Hkey. unfold supported_only. apply option_eq. intros v.
  rewrite map_lookup_filter_Some. simpl. tauto.
Qed.

Lemma supported_only_lookup_Some (filters : gmap string scalar) (key : string) :
  is_Some (supported_only filters !! key) -> key ∈ supported_filters.
Proof.
  intros [v Hv]. unfold supported_only in Hv.
  apply map_lookup_filter_Some in Hv. simpl in Hv. tauto.
Qed.

Lemma apply_filter_names (filters : gmap string scalar) (key : string)
    (mask : scalar -> outcome (Row -> bool)) (st : nat * pydict) (w : World) :
  names_supplied filters st ->
  wp (MCPTools.apply_filter filters key mask st) w
     (fun o _ => forall st', o = Ret st' -> names_supplied filters st').
Proof.
  intros Hst. unfold MCPTools.apply_filter.
  destruct (filters !! key) as [v|] eqn:Hv.
  - unfold wp. unfold_monad. destruct (mask v) as [p|e]; simpl.
    + intros st' [= <-]. unfold names_supplied in *. simpl.
      rewrite fmap_app. apply Forall_app. split; [done|].
      repeat constructor. simpl. by rewrite Hv.
    + by intros st' [=].
  - unfold wp. simpl. by intros st' [= <-].
Qed.

Lemma search_feeds_names (filters : gmap string scalar) (w : World) :
  wp (MCPTools.search_feeds filters) w
     (fun o _ => forall result, o = Ret result ->
                 Forall (fun key => is_Some (filters !! key))
                        (applied_filter_names result)).
Proof.
  unfold MCPTools.search_feeds.
  apply (wp_bind_inv (fun _ => True)); [done| |by intros ? ? ? [=]].
  intros feeds w0 _.
  apply (wp_bind_inv (names_supplied filters));
    [apply apply_filter_names; by constructor| |by intros ? ? ? [=]].
  do 6 (intros ? ? ?;
        apply (wp_bind_inv (names_supplied filters));
        [by apply apply_filter_names| |by intros ? ? ? [=]]).
  intros st w7 Hst. unfold wp. unfold_monad. simpl.
  intros result [= <-]. exact Hst.
Qed.

(** C10: a search behaves exactly as the same search without the
    unsupported names (same outcome, same final world), and no
    unsupported name appears under [applied_filters]. *)
Theorem unknown_filters_ignored (filters : gmap string scalar) (w : World) :
  MCPTools.search_feeds filters w = MCPTools.search_feeds (supported_only filters) w
  /\ (forall result w',
        MCPTools.search_feeds filters w = (Ret result, w') ->
        forall key, key ∈ applied_filter_names result -> key ∈ supported_filters).
Proof.
  assert (MCPTools.search_feeds filters w
          = MCPTools.search_feeds (supported_only filters) w) as Heq.
  { unfold MCPTools.search_feeds, MCPTools.apply_filter.
    rewrite !lookup_supported_only by (unfold supported_filters; set_solver).
    done. }
  split; [done|]. intros result w' Hrun key Hkey.
  rewrite Heq in Hrun.
  pose proof (search_feeds_names (supported_only filters) w) as Hnames.
  unfold wp in Hnames. rewrite Hrun in Hnames. simpl in Hnames.
  specialize (Hnames result eq_refl). rewrite Forall_forall in Hnames.
  by apply (supported_only_lookup_Some filters), Hnames.
Qed.

Lemma wp_apply_filter (filters : gmap string scalar) (key : string)
    (mask : scalar -> outcome (Row -> bool)) (st : nat * pydict) (w : World)
    (df : DataFrame) (Q : outcome (nat * pydict) -> World -> Prop) :
  heap w !! st.1 = Some df ->
  (forall v, filters !! key = Some v -> exists p, mask v = Ret p) ->
  (forall st' w',
      heap w' !! st'.1 = Some (select (filter_pred filters key mask) df) ->
      st'.2 = (st.2 ++ applied_entry filters key)%list ->
      Q (Ret st') w') ->
  wp (MCPTools.apply_filter filters key mask st) w Q.
Proof.
  intros Hdf Hmask HQ.
  unfold MCPTools.apply_filter, filter_pred, applied_entry in *.
  destruct (filters !! key) as [v|].
  - destruct (Hmask v eq_refl) as [p Hp]. rewrite Hp in *.
    unfold wp, mbind, M_bind, bind, lift.
    rewrite (df_select_run p st.1 df w Hdf). simpl. apply HQ; [|done].
    simpl. by apply list_lookup_middle.
  - apply wp_ret, HQ; [by rewrite select_all|by rewrite app_nil_r].
Qed.

Lemma well_typed_str (filters : gmap string scalar) (key : string) (v : scalar) :
  well_typed filters -> filters !! key = Some v ->
  kind_of_filter key = Some KStr -> exists s, v = SStr s.
Proof.
  intros Hwt Hv Hkind. specialize (Hwt key v KStr Hv Hkind).
  destruct v; simpl in Hwt; try done. by eauto.
Qed.

Lemma well_typed_int (filters : gmap string scalar) (key : string) (v : scalar) :
  well_typed filters -> filters !! key = Some v ->
  kind_of_filter key = Some KInt -> exists n, v = SInt n.
Proof.
  intros Hwt Hv Hkind. specialize (Hwt key v KInt Hv Hkind).
  destruct v; simpl in Hwt; try done. by eauto.
Qed.

Lemma well_typed_bool (filters : gmap string scalar) (key : string) (v : scalar) :
  well_typed filters -> filters !! key = Some v ->
  kind_of_filter key = Some KBool -> exists b, v = SBool b.
Proof.
  intros Hwt Hv Hkind. specialize (Hwt key v KBool Hv Hkind).
  destruct v; simpl in Hwt; try done. by eauto.
Qed.

Ltac mask_defined Hwt :=
  let v := fresh "v" in
  let Hv := fresh "Hv" in
  intros v Hv;
  first [ destruct (well_typed_str _ _ _ Hwt Hv eq_refl) as [? ->]
        | destruct (well_typed_int _ _ _ Hwt Hv eq_refl) as [? ->]
        | eexists; reflexivity ];
  try (eexists; reflexivity).

(** A well-typed search on a loaded catalog returns, and what it returns
    is the rows selected by every supplied mask in turn. *)
Lemma search_feeds_run (filters : gmap string scalar) (w : World) (cat : DataFrame) :
  catalog w = Some cat ->
  well_typed filters ->
  exists w',
    MCPTools.search_feeds filters w =
      (Ret (PDict [ ("feeds", to_dict_records (search_rows filters cat));
                    ("applied_filters", PDict (applied_entries filters));
                    ("count", PScalar (SInt (len (search_rows filters cat)))) ]), w').
Proof.
  intros (r & Hr & Hcat)%catalog_loaded Hwt.
  enough (wp (MCPTools.search_feeds filters) w
            (fun o _ => o = Ret (PDict
               [ ("feeds", to_dict_records (search_rows filters cat));
                 ("applied_filters", PDict (applied_entries filters));
                 ("count", PScalar (SInt (len (search_rows filters cat)))) ]))) as H.
  { unfold wp in H. destruct (MCPTools.search_feeds filters w) as [o w'].
    simpl in H. subst o. by exists w'. }
  unfold MCPTools.search_feeds.
  apply wp_bind. eapply wp_eq; [by apply get_camera_feeds_run|].
  apply wp_bind.
  eapply (wp_apply_filter _ _ _ _ _ cat); [by apply heap_grown|mask_defined Hwt|].
  intros st1 w1 Hh1 Ha1. apply wp_bind.
  eapply wp_apply_filter; [exact Hh1|mask_defined Hwt|].
  intros st2 w2 Hh2 Ha2. apply wp_bind.
  eapply wp_apply_filter; [exact Hh2|mask_defined Hwt|].
  intros st3 w3 Hh3 Ha3. apply wp_bind.
  eapply wp_apply_filter; [exact Hh3|mask_defined Hwt|].
  intros st4 w4 Hh4 Ha4. apply wp_bind.
  eapply wp_apply_filter; [exact Hh4|mask_defined Hwt|].
  intros st5 w5 Hh5 Ha5. apply wp_bind.
  eapply wp_apply_filter; [exact Hh5|mask_defined Hwt|].
  intros st6 w6 Hh6 Ha6. apply wp_bind.
  eapply wp_apply_filter; [exact Hh6|mask_defined Hwt|].
  intros st7 w7 Hh7 Ha7. apply wp_bind.
  eapply wp_eq; [by apply deref_run|]. apply wp_ret.
  rewrite Ha7, Ha6, Ha5, Ha4, Ha3, Ha2, Ha1. unfold search_rows, applied_entries.
  simpl. by rewrite !app_nil_r, <- !(assoc_L (++)).
Qed.

Lemma meets_unsupported (key : string) (v : scalar) (f : Feed) :
  key ∉ supported_filters -> meets key v f.
Proof.
  intros Hkey. unfold meets. repeat case_decide; subst; try done;
    exfalso; apply Hkey; unfold supported_filters; rewrite !elem_of_cons; auto 10.
Qed.

Ltac pred_cases filters key :=
  unfold filter_pred; destruct (filters !! key) as [v0|] eqn:Hlookup;
  [|split; [by intros _ v [=]|done]].

Lemma theater_pred_meets (filters : gmap string scalar) (row : Row) :
  well_typed filters ->
  filter_pred filters "theater" MCPTools.theater_mask row = true
  <-> forall v, filters !! "theater" = Some v -> meets "theater" v (feed row).
Proof.
  intros Hwt. pred_cases filters "theater".
  destruct (well_typed_str _ _ _ Hwt Hlookup eq_refl) as [s ->]. simpl. split.
  - intros Heq v [= <-]. exists s. split; [done|]. by apply String.eqb_eq.
  - intros H. destruct (H _ eq_refl) as (s' & [= <-] & ->). apply String.eqb_refl.
Qed.

Lemma codec_pred_meets (filters : gmap string scalar) (row : Row) :
  well_typed filters ->
  filter_pred filters "codec" MCPTools.codec_mask row = true
  <-> forall v, filters !! "codec" = Some v -> meets "codec" v (feed row).
Proof.
  intros Hwt. pred_cases filters "codec".
  destruct (well_typed_str _ _ _ Hwt Hlookup eq_refl) as [s ->]. simpl. split.
  - intros Heq v [= <-]. exists s. split; [done|]. by apply String.eqb_eq.
  - intros H. destruct (H _ eq_refl) as (s' & [= <-] & ->). apply String.eqb_refl.
Qed.

Lemma min_width_pred_meets (filters : gmap string scalar) (row : Row) :
  well_typed filters ->
  filter_pred filters "min_width" MCPTools.min_width_mask row = true
  <-> forall v, filters !! "min_width" = Some v -> meets "min_width" v (feed row).
Proof.
  intros Hwt. pred_cases filters "min_width".
  destruct (well_typed_int _ _ _ Hwt Hlookup eq_refl) as [n ->]. simpl. split.
  - intros Hle v [= <-]. exists n. split; [done|]. by apply Z.leb_le.
  - intros H. destruct (H _ eq_refl) as (n' & [= <-] & Hle). by apply Z.leb_le.
Qed.

Lemma min_height_pred_meets (filters : gmap string scalar) (row : Row) :
  well_typed filters ->
  filter_pred filters "min_height" MCPTools.min_height_mask row = true
  <-> forall v, filters !! "min_height" = Some v -> meets "min_height" v (feed row).
Proof.
  intros Hwt. pred_cases filters "min_height".
  destruct (well_typed_int _ _ _ Hwt Hlookup eq_refl) as [n ->]. simpl. split.
  - intros Hle v [= <-]. exists n. split; [done|]. by apply Z.leb_le.
  - intros H. destruct (H _ eq_refl) as (n' & [= <-] & Hle). by apply Z.leb_le.
Qed.

Lemma max_latency_pred_meets (filters : gmap string scalar) (row : Row) :
  well_typed filters ->
  filter_pred filters "max_latency" MCPTools.max_latency_mask row = true
  <-> forall v, filters !! "max_latency" = Some v -> meets "max_latency" v (feed row).
Proof.
  intros Hwt. pred_cases filters "max_latency".
  destruct (well_typed_int _ _ _ Hwt Hlookup eq_refl) as [n ->]. simpl. split.
  - intros Hle v [= <-]. exists n. split; [done|]. by apply Z.leb_le.
  - intros H. destruct (H _ eq_refl) as (n' & [= <-] & Hle). by apply Z.leb_le.
Qed.

Lemma encrypted_pred_meets (filters : gmap string scalar) (row : Row) :
  well_typed filters ->
  filter_pred filters "encrypted" MCPTools.encrypted_mask row = true
  <-> forall v, filters !! "encrypted" = Some v -> meets "encrypted" v (feed row).
Proof.
  intros Hwt. pred_cases filters "encrypted".
  destruct (well_typed_bool _ _ _ Hwt Hlookup eq_refl) as [b ->]. simpl. split.
  - intros Heq v [= <-]. apply Bool.eqb_prop in Heq.
    change (SBool b = SBool (ENCR (feed row))). by rewrite Heq.
  - intros H. specialize (H _ eq_refl).
    change (SBool b = SBool (ENCR (feed row))) in H.
    injection H as ->. apply Bool.eqb_reflx.
Qed.

Lemma civilian_safe_pred_meets (filters : gmap string scalar) (row : Row) :
  well_typed filters ->
  filter_pred filters "civilian_safe" MCPTools.civilian_safe_mask row = true
  <-> forall v, filters !! "civilian_safe" = Some v -> meets "civilian_safe" v (feed row).
Proof.
  intros Hwt. pred_cases filters "civilian_safe".
  destruct (well_typed_bool _ _ _ Hwt Hlookup eq_refl) as [b ->]. simpl. split.
  - intros Heq v [= <-]. apply Bool.eqb_prop in Heq.
    change (SBool b = SBool (CIV_OK (feed row))). by rewrite Heq.
  - intros H. specialize (H _ eq_refl).
    change (SBool b = SBool (CIV_OK (feed row))) in H.
    injection H as ->. apply Bool.eqb_reflx.
Qed.

Lemma search_rows_meets (filters : gmap string scalar) (cat : DataFrame) (row : Row) :
  well_typed filters ->
  row ∈ search_rows filters cat
  <-> row ∈ cat /\ forall key v, filters !! key = Some v -> meets key v (feed row).
Proof.
  intros Hwt. unfold search_rows. rewrite !elem_of_select.
  rewrite (theater_pred_meets filters row Hwt), (codec_pred_meets filters row Hwt),
    (min_width_pred_meets filters row Hwt), (min_height_pred_meets filters row Hwt),
    (max_latency_pred_meets filters row Hwt), (encrypted_pred_meets filters row Hwt),
    (civilian_safe_pred_meets filters row Hwt).
  split.
  - intros (((((((Hrow & H1) & H2) & H3) & H4) & H5) & H6) & H7). split; [done|].
    intros key v Hv.
    destruct (decide (key ∈ supported_filters)) as [Hin|Hout];
      [|by apply meets_unsupported].
    unfold supported_filters in Hin. rewrite !elem_of_cons, elem_of_nil in Hin.
    destruct Hin as [->|[->|[->|[->|[->|[->|[->|[]]]]]]]]; auto.
  - intros [Hrow H]. repeat split; try done; intros v Hv; by apply H.
Qed.

Lemma filter_by_theater_run (theater : string) (w : World) (cat : DataFrame) :
  catalog w = Some cat ->
  let found :=
    select (fun row => String.eqb (THEATER (feed row)) (PyStr.upper theater)) cat in
  exists w',
    MCPTools.filter_by_theater theater w =
      (Ret (PDict [ ("feeds", to_dict_records found);
                    ("theater", PScalar (SStr theater));
                    ("count", PScalar (SInt (len found))) ]), w').
Proof.
  intros (r & Hr & Hcat)%catalog_loaded found.
  unfold MCPTools.filter_by_theater.
  erewrite bind_run.
  2:{ unfold DataLoader.get_feeds_by_theater.
      erewrite bind_run; [|by apply get_camera_feeds_run].
      by apply df_select_run, heap_grown. }
  erewrite bind_run; [|apply deref_run, (heap_grown_first _ _ [] [])].
  by eexists.
Qed.

Lemma filter_by_codec_run (codec : string) (w : World) (cat : DataFrame) :
  catalog w = Some cat ->
  let found :=
    select (fun row => String.eqb (CODEC (feed row)) (PyStr.upper codec)) cat in
  exists w',
    MCPTools.filter_by_codec codec w =
      (Ret (PDict [ ("feeds", to_dict_records found);
                    ("codec", PScalar (SStr codec));
                    ("count", PScalar (SInt (len found))) ]), w').
Proof.
  intros (r & Hr & Hcat)%catalog_loaded found.
  unfold MCPTools.filter_by_codec.
  erewrite bind_run.
  2:{ unfold DataLoader.get_feeds_by_codec.
      erewrite bind_run; [|by apply get_camera_feeds_run].
      by apply df_select_run, heap_grown. }
  erewrite bind_run; [|apply deref_run, (heap_grown_first _ _ [] [])].
  by eexists.
Qed.

Lemma intersection_of_selections (p q : Row -> bool) (cat : DataFrame) :
  list_intersection (select p cat) (select q cat) = select q (select p cat).
Proof.
  assert (forall l : DataFrame, (forall row, row ∈ l -> row ∈ cat) ->
            list_intersection l (select q cat) = select q l) as Hgen.
  { induction l as [|row l IH]; intros Hl; [done|].
    unfold select at 2. simpl.
    rewrite IH by (intros; apply Hl; by apply list_elem_of_further).
    destruct (decide_rel elem_of row (select q cat)) as [Hin|Hin].
    - apply elem_of_select in Hin as [_ ->]. done.
    - destruct (q row) eqn:Hq; [|done]. exfalso. apply Hin.
      apply elem_of_select. split; [|done]. apply Hl, list_elem_of_here. }
  apply Hgen. by intros row [? _]%elem_of_select.
Qed.

Lemma pac_h265_well_typed : well_typed pac_h265.
Proof.
  intros key v k Hv Hk. unfold pac_h265 in Hv.
  apply lookup_insert_Some in Hv as [[<- <-]|[_ Hv]].
  - by injection Hk as <-.
  - apply lookup_singleton_Some in Hv as [<- <-]. by injection Hk as <-.
Qed.

Lemma pac_h265_rows (cat : DataFrame) :
  search_rows pac_h265 cat =
    select (fun row => String.eqb (CODEC (feed row)) "H265")
           (select (fun row => String.eqb (THEATER (feed row)) "PAC") cat).
Proof.
  unfold search_rows.
  change (filter_pred pac_h265 "civilian_safe" _) with (fun _ : Row => true).
  change (filter_pred pac_h265 "encrypted" _) with (fun _ : Row => true).
  change (filter_pred pac_h265 "max_latency" _) with (fun _ : Row => true).
  change (filter_pred pac_h265 "min_height" _) with (fun _ : Row => true).
  change (filter_pred pac_h265 "min_width" _) with (fun _ : Row => true).
  by rewrite !select_all.
Qed.

(** C7: on a loaded catalog the search for theater "PAC" and codec "H265"
    returns the rows that the by-theater filter for "PAC" and the by-codec
    filter for "H265" both return (their intersection, in catalog order);
    and for any filters of the right value types the search returns, in
    catalog order, exactly the catalog rows that meet every supplied
    filter. *)
Theorem search_is_conjunction (w : World) (cat : DataFrame) :
  catalog w = Some cat ->
  (exists (both pac h265 : DataFrame) (w1 w2 w3 : World),
      MCPTools.search_feeds {[ "theater" := SStr "PAC"; "codec" := SStr "H265" ]} w =
        (Ret (PDict [ ("feeds", to_dict_records both);
                      ("applied_filters",
                       PDict [ ("theater", PScalar (SStr "PAC"));
                               ("codec", PScalar (SStr "H265")) ]);
                      ("count", PScalar (SInt (len both))) ]), w1)
      /\ MCPTools.filter_by_theater "PAC" w =
           (Ret (PDict [ ("feeds", to_dict_records pac);
                         ("theater", PScalar (SStr "PAC"));
                         ("count", PScalar (SInt (len pac))) ]), w2)
      /\ MCPTools.filter_by_codec "H265" w =
           (Ret (PDict [ ("feeds", to_dict_records h265);
                         ("codec", PScalar (SStr "H265"));
                         ("count", PScalar (SInt (len h265))) ]), w3)
      /\ pac = select (fun row => String.eqb (THEATER (feed row)) "PAC") cat
      /\ h265 = select (fun row => String.eqb (CODEC (feed row)) "H265") cat
      /\ both = list_intersection pac h265
      /\ (forall row, row ∈ both <-> row ∈ pac /\ row ∈ h265)
      /\ both `sublist_of` cat
      /\ (forall row, row ∈ both
                      <-> row ∈ cat /\ THEATER (feed row) = "PAC"
                          /\ CODEC (feed row) = "H265"))
  /\ (forall filters : gmap string scalar,
        well_typed filters ->
        exists (found : DataFrame) (w' : World),
          MCPTools.search_feeds filters w =
            (Ret (PDict [ ("feeds", to_dict_records found);
                          ("applied_filters", PDict (applied_entries filters));
                          ("count", PScalar (SInt (len found))) ]), w')
          /\ found `sublist_of` cat
          /\ (forall row,
                row ∈ found
                <-> row ∈ cat
                    /\ forall key v, filters !! key = Some v -> meets key v (feed row))).
Proof.
  intros Hcat. split.
  - destruct (search_feeds_run pac_h265 w cat Hcat pac_h265_well_typed) as [w1 H1].
    destruct (filter_by_theater_run "PAC" w cat Hcat) as [w2 H2].
    destruct (filter_by_codec_run "H265" w cat Hcat) as [w3 H3].
    rewrite pac_h265_rows in H1.
    eexists _, _, _, w1, w2, w3.
    split; [exact H1|]. split; [exact H2|]. split; [exact H3|].
    split; [done|]. split; [done|].
    rewrite intersection_of_selections. split; [done|]. split; [|split].
    + intros row. rewrite !elem_of_select. tauto.
    + etrans; apply select_sublist.
    + intros row. rewrite !elem_of_select, !String.eqb_eq. tauto.
  - intros filters Hwt.
    destruct (search_feeds_run filters w cat Hcat Hwt) as [w' Hrun].
    exists (search_rows filters cat), w'. split; [exact Hrun|]. split.
    + unfold search_rows. repeat (etrans; [apply select_sublist|]). done.
    + intros row. by apply search_rows_meets.
Qed.

Lemma search_is_conjunction_example :
  (exists (both pac h265 : DataFrame) (w1 w2 w3 : World),
      MCPTools.search_feeds {[ "theater" := SStr "PAC"; "codec" := SStr "H265" ]}
        small_world =
        (Ret (PDict [ ("feeds", to_dict_records both);
                      ("applied_filters",
                       PDict [ ("theater", PScalar (SStr "PAC"));
                               ("codec", PScalar (SStr "H265")) ]);
                      ("count", PScalar (SInt (len both))) ]), w1)
      /\ MCPTools.filter_by_theater "PAC" small_world =
           (Ret (PDict [ ("feeds", to_dict_records pac);
                         ("theater", PScalar (SStr "PAC"));
                         ("count", PScalar (SInt (len pac))) ]), w2)
      /\ MCPTools.filter_by_codec "H265" small_world =
           (Ret (PDict [ ("feeds", to_dict_records h265);
                         ("codec", PScalar (SStr "H265"));
                         ("count", PScalar (SInt (len h265))) ]), w3)
      /\ pac = select (fun row => String.eqb (THEATER (feed row)) "PAC")
                 (read_csv [FD_001; FD_002; FD_003])
      /\ h265 = select (fun row => String.eqb (CODEC (feed row)) "H265")
                  (read_csv [FD_001; FD_002; FD_003])
      /\ both = list_intersection pac h265
      /\ (forall row, row ∈ both <-> row ∈ pac /\ row ∈ h265)
      /\ both `sublist_of` read_csv [FD_001; FD_002; FD_003]
      /\ (forall row, row ∈ both
                      <-> row ∈ read_csv [FD_001; FD_002; FD_003]
                          /\ THEATER (feed row) = "PAC" /\ CODEC (feed row) = "H265"))
  /\ (forall filters : gmap string scalar,
        well_typed filters ->
        exists (found : DataFrame) (w' : World),
          MCPTools.search_feeds filters small_world =
            (Ret (PDict [ ("feeds", to_dict_records found);
                          ("applied_filters", PDict (applied_entries filters));
                          ("count", PScalar (SInt (len found))) ]), w')
          /\ found `sublist_of` read_csv [FD_001; FD_002; FD_003]
          /\ (forall row,
                row ∈ found
                <-> row ∈ read_csv [FD_001; FD_002; FD_003]
                    /\ forall key v, filters !! key = Some v -> meets key v (feed row))).
Proof.
  apply (search_is_conjunction small_world (read_csv [FD_001; FD_002; FD_003])).
  reflexivity.
Defined.

(** ** The intent resolver *)

Create HintDb quiet.

Lemma quiet_ret {A} (a : A) : quiet (mret a).
Proof. by intros w. Qed.

Lemma quiet_raise {A} (e : exn) : quiet (@raise A e).
Proof. by intros w. Qed.

Lemma quiet_lift {A} (o : outcome A) : quiet (lift o).
Proof. by intros w. Qed.

Lemma quiet_bind {A B} (m : M A) (k : A -> M B) :
  quiet m -> (forall a, quiet (k a)) -> quiet (m ≫= k).
Proof.
  intros Hm Hk w. apply wp_bind.
  eapply wp_mono; [apply Hm|]. intros [a|e] w' Hw'; [|done].
  eapply wp_mono; [apply Hk|]. intros ? w'' Hw''. simpl in *. congruence.
Qed.

Lemma quiet_alloc (df : DataFrame) : quiet (alloc df).
Proof. by intros w. Qed.

Lemma quiet_deref (r : nat) : quiet (deref r).
Proof. by intros w. Qed.

Lemma quiet_update (r : nat) (f : DataFrame -> DataFrame) : quiet (update r f).
Proof. by intros w. Qed.

Lemma quiet_catalog_read : quiet (log CatalogRead).
Proof.
  intros w. unfold wp, log, tools_invoked. simpl.
  by rewrite omap_app, app_nil_r.
Qed.

Lemma quiet_self_camera_feeds : quiet DataLoader.self_camera_feeds.
Proof. by intros w. Qed.

Lemma quiet_load_all_data : quiet DataLoader.load_all_data.
Proof.
  intros w. unfold wp, DataLoader.load_all_data.
  by destruct (table_feeds_csv w).
Qed.

#[export] Hint Resolve quiet_ret quiet_raise quiet_lift quiet_alloc quiet_deref
  quiet_update quiet_catalog_read quiet_self_camera_feeds quiet_load_all_data : quiet.

Ltac quiet_step :=
  first [ solve [auto with quiet]
        | match goal with
          | |- quiet (match ?x with _ => _ end) => destruct x
          | |- quiet (if ?b then _ else _) => destruct b
          end
        | apply quiet_bind; [|intros ?] ].

Lemma quiet_get_camera_feeds : quiet DataLoader.get_camera_feeds.
Proof. unfold DataLoader.get_camera_feeds. repeat quiet_step. Qed.

Lemma quiet_df_select (p : Row -> bool) (r : nat) : quiet (df_select p r).
Proof. unfold df_select. repeat quiet_step. Qed.

Lemma quiet_df_copy (r : nat) : quiet (df_copy r).
Proof. unfold df_copy. repeat quiet_step. Qed.

#[export] Hint Resolve quiet_get_camera_feeds quiet_df_select quiet_df_copy : quiet.

Lemma quiet_get_all_camera_feeds : quiet MCPTools.get_all_camera_feeds.
Proof. unfold MCPTools.get_all_camera_feeds. repeat quiet_step. Qed.

Lemma quiet_filter_by_theater (theater : string) :
  quiet (MCPTools.filter_by_theater theater).
Proof.
  unfold MCPTools.filter_by_theater, DataLoader.get_feeds_by_theater.
  repeat quiet_step.
Qed.

Lemma quiet_filter_by_codec (codec : string) : quiet (MCPTools.filter_by_codec codec).
Proof.
  unfold MCPTools.filter_by_codec, DataLoader.get_feeds_by_codec.
  repeat quiet_step.
Qed.

Lemma quiet_get_high_quality_feeds (quicksort : DataLoader.sort_kind) :
  quiet (MCPTools.get_high_quality_feeds quicksort).
Proof.
  unfold MCPTools.get_high_quality_feeds, DataLoader.get_high_quality_feeds,
    DataLoader.sort_values_desc.
  repeat quiet_step.
Qed.

(** Invoking a tool shows as that one tool in the trace, whatever comes of
    the call. *)
Lemma invoke_trace (quicksort : DataLoader.sort_kind) (t : tool) (params : pydict)
    (w : World) :
  tools_invoked (trace (QueryAgent.invoke quicksort t params w).2)
  = (tools_invoked (trace w) ++ [t])%list.
Proof.
  assert (forall m : M pyval, quiet m ->
            tools_invoked (trace ((log (ToolInvoked t);; m) w).2)
            = (tools_invoked (trace w) ++ [t])%list) as Hlog.
  { intros m Hm. unfold mbind, M_bind, bind. rewrite log_run.
    specialize (Hm (grown w [] [ToolInvoked t])). unfold wp in Hm.
    rewrite Hm. simpl. unfold tools_invoked. by rewrite omap_app. }
  unfold QueryAgent.invoke. apply Hlog.
  destruct t; repeat quiet_step;
    auto using quiet_get_all_camera_feeds, quiet_filter_by_theater,
      quiet_filter_by_codec, quiet_get_high_quality_feeds.
Qed.

Lemma dict_get_lookup (k : string) (d : pydict) (v : pyval) :
  dict_lookup k d = Some v -> dict_get k d = v.
Proof. unfold dict_get. by intros ->. Qed.

Lemma query_kind_facts (intent : pydict) (kind : string) :
  dict_lookup "intent" intent = Some (PScalar (SStr kind)) ->
  kind ∈ ["filter"; "search"; "analyze"] ->
  eq_str (dict_get "intent" intent) "error" = false
  /\ QueryAgent.is_query_kind (dict_get "intent" intent) = true.
Proof.
  intros Hkind%dict_get_lookup Hin. rewrite Hkind.
  rewrite !elem_of_cons, elem_of_nil in Hin.
  destruct Hin as [->|[->|[->|[]]]]; by split.
Qed.

(** With one call selected, [_execute_tools] returns normally and shows
    exactly that tool as invoked. *)
Lemma execute_single_call (quicksort : DataLoader.sort_kind)
    (state : QueryAgent.QueryState) (intent : pydict) (t : tool) (params : pydict)
    (w : World) :
  QueryAgent.intent state = Some (PDict intent) ->
  eq_str (dict_get "intent" intent) "error" = false ->
  QueryAgent.tool_calls intent = Ret [ (t, params) ] ->
  tools_invoked (trace (QueryAgent._execute_tools quicksort state w).2)
  = (tools_invoked (trace w) ++ [t])%list.
Proof.
  intros Hintent Herr Hcalls. unfold QueryAgent._execute_tools.
  rewrite Hintent, Herr. unfold try_except, mbind, M_bind, bind, lift.
  rewrite Hcalls. simpl. unfold mbind, M_bind, bind.
  pose proof (invoke_trace quicksort t params w) as Htrace.
  by destruct (QueryAgent.invoke quicksort t params w) as [[result|e] w1].
Qed.

Lemma get_all_camera_feeds_run (w : World) (cat : DataFrame) :
  catalog w = Some cat ->
  MCPTools.get_all_camera_feeds w =
    (Ret (PDict [ ("feeds", to_dict_records cat);
                  ("total_count", PScalar (SInt (len cat))) ]),
     grown w [] [CatalogRead]).
Proof.
  intros (r & Hr & Hcat)%catalog_loaded. unfold MCPTools.get_all_camera_feeds.
  erewrite bind_run; [|by apply get_camera_feeds_run].
  erewrite bind_run; [|by apply deref_run, heap_grown]. done.
Qed.

(** C8: an intent of kind "error" yields the error-tagged result and leaves
    the whole world as it was: no frame is read or made and no tool runs.
    The state comes back with [data_results] set to the one-entry
    dictionary holding the upstream error (or "Unknown error"), and its
    other fields as they were. *)
Theorem error_intent_short_circuits (quicksort : DataLoader.sort_kind)
    (state : QueryAgent.QueryState) (intent : pydict) (w : World) :
  QueryAgent.intent state = Some (PDict intent) ->
  dict_lookup "intent" intent = Some (PScalar (SStr "error")) ->
  QueryAgent._execute_tools quicksort state w =
    (Ret (QueryAgent.with_results state
            (PDict [ ("error",
                      dict_get_default "error" (PScalar (SStr "Unknown error")) intent) ])),
     w)
  /\ trace (QueryAgent._execute_tools quicksort state w).2 = trace w
  /\ heap (QueryAgent._execute_tools quicksort state w).2 = heap w
  /\ exists state' : QueryAgent.QueryState,
       (QueryAgent._execute_tools quicksort state w).1 = Ret state'
       /\ QueryAgent.data_results state' =
            Some (PDict [ ("error",
                           dict_get_default "error" (PScalar (SStr "Unknown error"))
                                            intent) ])
       /\ QueryAgent.query state' = QueryAgent.query state
       /\ QueryAgent.intent state' = QueryAgent.intent state
       /\ QueryAgent.response state' = QueryAgent.response state
       /\ QueryAgent.error state' = QueryAgent.error state
       /\ tools_invoked (trace (QueryAgent._execute_tools quicksort state w).2)
          = tools_invoked (trace w)
       /\ (QueryAgent._execute_tools quicksort state w).2 = w.
Proof.
  intros Hintent Hkind%dict_get_lookup.
  assert (QueryAgent._execute_tools quicksort state w =
            (Ret (QueryAgent.with_results state
                    (PDict [ ("error",
                              dict_get_default "error" (PScalar (SStr "Unknown error"))
                                               intent) ])), w)) as Hrun.
  { unfold QueryAgent._execute_tools. by rewrite Hintent, Hkind. }
  rewrite Hrun. split; [done|]. split; [done|]. split; [done|].
  eexists. split; [done|]. by repeat split.
Qed.

Lemma error_intent_short_circuits_example :
  QueryAgent._execute_tools insertion_sort (parsed error_intent) small_world =
    (Ret (QueryAgent.with_results (parsed error_intent)
            (PDict [ ("error", PScalar (SStr "model unavailable")) ])),
     small_world)
  /\ trace (QueryAgent._execute_tools insertion_sort (parsed error_intent) small_world).2
     = trace small_world
  /\ heap (QueryAgent._execute_tools insertion_sort (parsed error_intent) small_world).2
     = heap small_world
  /\ exists state' : QueryAgent.QueryState,
       (QueryAgent._execute_tools insertion_sort (parsed error_intent) small_world).1
         = Ret state'
       /\ QueryAgent.data_results state' =
            Some (PDict [ ("error", PScalar (SStr "model unavailable")) ])
       /\ QueryAgent.query state' = QueryAgent.query (parsed error_intent)
       /\ QueryAgent.intent state' = QueryAgent.intent (parsed error_intent)
       /\ QueryAgent.response state' = QueryAgent.response (parsed error_intent)
       /\ QueryAgent.error state' = QueryAgent.error (parsed error_intent)
       /\ tools_invoked
            (trace (QueryAgent._execute_tools insertion_sort (parsed error_intent)
                      small_world).2)
          = tools_invoked (trace small_world)
       /\ (QueryAgent._execute_tools insertion_sort (parsed error_intent) small_world).2
          = small_world.
Proof.
  apply (error_intent_short_circuits insertion_sort (parsed error_intent) error_intent
           small_world); reflexivity.
Defined.

(** C1 (as the code has it): for an intent of kind "filter", "search" or
    "analyze", a theater hint that is not null and not empty selects the
    by-theater filter, with that hint as its argument, as the one tool that
    runs, whatever the codec and quality hints are; failing a theater
    hint, a codec hint selects the by-codec filter whatever the quality
    hint is. *)
Theorem hint_precedence (quicksort : DataLoader.sort_kind)
    (state : QueryAgent.QueryState) (intent : pydict) (kind : string) (w : World) :
  QueryAgent.intent state = Some (PDict intent) ->
  dict_lookup "intent" intent = Some (PScalar (SStr kind)) ->
  kind ∈ ["filter"; "search"; "analyze"] ->
  (truthy (dict_get "theater" intent) = true ->
     QueryAgent.tool_calls intent =
       Ret [ (filter_by_theater_tool, [ ("theater", dict_get "theater" intent) ]) ]
     /\ tools_invoked (trace (QueryAgent._execute_tools quicksort state w).2)
        = (tools_invoked (trace w) ++ [filter_by_theater_tool])%list)
  /\ (truthy (dict_get "theater" intent) = false ->
      truthy (dict_get "codec" intent) = true ->
      QueryAgent.tool_calls intent =
        Ret [ (filter_by_codec_tool, [ ("codec", dict_get "codec" intent) ]) ]
      /\ tools_invoked (trace (QueryAgent._execute_tools quicksort state w).2)
         = (tools_invoked (trace w) ++ [filter_by_codec_tool])%list).
Proof.
  intros Hintent Hkind Hin.
  destruct (query_kind_facts intent kind Hkind Hin) as [Herr Hquery].
  split.
  - intros Htheater.
    assert (QueryAgent.tool_calls intent =
              Ret [ (filter_by_theater_tool, [ ("theater", dict_get "theater" intent) ]) ])
      as Hcalls by (unfold QueryAgent.tool_calls; by rewrite Hquery, Htheater).
    split; [done|]. by eapply execute_single_call.
  - intros Htheater Hcodec.
    assert (QueryAgent.tool_calls intent =
              Ret [ (filter_by_codec_tool, [ ("codec", dict_get "codec" intent) ]) ])
      as Hcalls by (unfold QueryAgent.tool_calls; by rewrite Hquery, Htheater, Hcodec).
    split; [done|]. by eapply execute_single_call.
Qed.

Lemma hint_precedence_example :
  QueryAgent.tool_calls eur_h265_intent =
    Ret [ (filter_by_theater_tool, [ ("theater", PScalar (SStr "EUR")) ]) ]
  /\ tools_invoked
       (trace (QueryAgent._execute_tools insertion_sort (parsed eur_h265_intent)
                 small_world).2)
     = [filter_by_theater_tool].
Proof.
  refine (proj1 (hint_precedence insertion_sort (parsed eur_h265_intent) eur_h265_intent
                   "filter" small_world eq_refl eq_refl _) eq_refl).
  apply list_elem_of_here.
Defined.

(** C1 as stated fails outside the three kinds: under "get_info" the same
    theater and codec hints select no call at all, and the result is the
    empty dictionary. *)
Lemma other_kind_selects_nothing :
  eq_str (dict_get "intent" get_info_intent) "error" = false
  /\ truthy (dict_get "theater" get_info_intent) = true
  /\ truthy (dict_get "codec" get_info_intent) = true
  /\ QueryAgent.tool_calls get_info_intent = Ret []
  /\ QueryAgent._execute_tools insertion_sort (parsed get_info_intent) small_world =
       (Ret (QueryAgent.with_results (parsed get_info_intent) (PDict [])), small_world).
Proof. repeat split. Qed.

(** C5 (as the code has it): for an intent of kind "filter", "search" or
    "analyze" whose theater and codec hints are absent, null or empty and
    whose quality hint is absent, or is a string other than "high" without
    "best" in it (in any letter case), the one tool that runs is the full
    listing; on a loaded catalog the result holds every catalog row under
    [get_all_camera_feeds] and the state's [error] stays as it was. *)
Theorem no_hint_lists_catalog (quicksort : DataLoader.sort_kind)
    (state : QueryAgent.QueryState) (intent : pydict) (kind : string)
    (w : World) (cat : DataFrame) :
  QueryAgent.intent state = Some (PDict intent) ->
  catalog w = Some cat ->
  dict_lookup "intent" intent = Some (PScalar (SStr kind)) ->
  kind ∈ ["filter"; "search"; "analyze"] ->
  truthy (dict_get "theater" intent) = false ->
  truthy (dict_get "codec" intent) = false ->
  (dict_lookup "quality" intent = None
   \/ exists q, dict_lookup "quality" intent = Some (PScalar (SStr q))
                /\ q <> "high" /\ PyStr.contains "best" (PyStr.lower q) = false) ->
  QueryAgent.tool_calls intent = Ret [ (get_all_camera_feeds_tool, []) ]
  /\ exists (state' : QueryAgent.QueryState) (w' : World),
       QueryAgent._execute_tools quicksort state w = (Ret state', w')
       /\ QueryAgent.data_results state' =
            Some (PDict [ ("get_all_camera_feeds",
                           PDict [ ("feeds", to_dict_records cat);
                                   ("total_count", PScalar (SInt (len cat))) ]) ])
       /\ QueryAgent.error state' = QueryAgent.error state
       /\ tools_invoked (trace w')
          = (tools_invoked (trace w) ++ [get_all_camera_feeds_tool])%list.
Proof.
  intros Hintent Hcat Hkind Hin Htheater Hcodec Hquality.
  destruct (query_kind_facts intent kind Hkind Hin) as [Herr Hquery].
  assert (QueryAgent.tool_calls intent = Ret [ (get_all_camera_feeds_tool, []) ])
    as Hcalls.
  { unfold QueryAgent.tool_calls. rewrite Hquery, Htheater, Hcodec.
    unfold dict_get, dict_get_default.
    destruct Hquality as [->|(q & -> & Hq & Hbest)]; simpl.
    - done.
    - apply String.eqb_neq in Hq. by rewrite Hq, Hbest. }
  split; [done|].
  pose proof (execute_single_call quicksort state intent _ _ w Hintent Herr Hcalls)
    as Htrace.
  revert Htrace. unfold QueryAgent._execute_tools. rewrite Hintent, Herr.
  unfold try_except. erewrite bind_run; [|unfold lift; by rewrite Hcalls].
  simpl. erewrite bind_run.
  2:{ erewrite bind_run; [done|].
      unfold QueryAgent.invoke. rewrite (bind_run _ _ _ _ _ (log_run _ w)).
      apply get_all_camera_feeds_run. by apply catalog_grown. }
  unfold mret, M_ret, ret. simpl. intros Htrace.
  eexists _, _. split; [done|]. by repeat split.
Qed.

Lemma no_hint_lists_catalog_example :
  QueryAgent.tool_calls [ ("intent", PScalar (SStr "search")) ]
    = Ret [ (get_all_camera_feeds_tool, []) ]
  /\ exists (state' : QueryAgent.QueryState) (w' : World),
       QueryAgent._execute_tools insertion_sort
         (parsed [ ("intent", PScalar (SStr "search")) ]) small_world = (Ret state', w')
       /\ QueryAgent.data_results state' =
            Some (PDict [ ("get_all_camera_feeds",
                           PDict [ ("feeds",
                                    to_dict_records (read_csv [FD_001; FD_002; FD_003]));
                                   ("total_count", PScalar (SInt 3)) ]) ])
       /\ QueryAgent.error state' = None
       /\ tools_invoked (trace w') = [get_all_camera_feeds_tool].
Proof.
  apply (no_hint_lists_catalog insertion_sort
           (parsed [ ("intent", PScalar (SStr "search")) ])
           [ ("intent", PScalar (SStr "search")) ] "search" small_world
           (read_csv [FD_001; FD_002; FD_003])); try reflexivity.
  - rewrite !elem_of_cons. auto.
  - by left.
Defined.

(** C5 as stated fails outside the three kinds: an intent of kind
    "get_info" with no hint at all resolves to no call, not to the full
    listing. *)
Lemma other_kind_lists_nothing :
  eq_str (dict_get "intent" [ ("intent", PScalar (SStr "get_info")) ]) "error" = false
  /\ QueryAgent.tool_calls [ ("intent", PScalar (SStr "get_info")) ] = Ret []
  /\ QueryAgent._execute_tools insertion_sort
       (parsed [ ("intent", PScalar (SStr "get_info")) ]) small_world =
       (Ret (QueryAgent.with_results (parsed [ ("intent", PScalar (SStr "get_info")) ])
               (PDict [])), small_world).
Proof. repeat split. Qed.

(** X3: a null quality hint, as in the parser's own fallback intent, makes
    [.lower()] fail inside the [try] block: the result is the error entry
    and no tool runs. *)
Lemma null_quality_raises :
  QueryAgent.tool_calls fallback_intent
    = Raise (AttributeError "'NoneType' object has no attribute 'lower'")
  /\ QueryAgent._execute_tools insertion_sort (parsed fallback_intent) small_world =
       (Ret (QueryAgent.mkQueryState "which feeds?" (Some (PDict fallback_intent))
               (Some (PDict [ ("error",
                               PScalar (SStr "'NoneType' object has no attribute 'lower'")) ]))
               None
               (Some "Error executing tools: 'NoneType' object has no attribute 'lower'")),
        small_world).
Proof. split; reflexivity. Qed.

(** * Further properties of the filter engine *)

(** ** Case folding *)

Lemma upper_ascii_idemp (c : ascii) :
  PyStr.upper_ascii (PyStr.upper_ascii c) = PyStr.upper_ascii c.
Proof. by destruct c as [[] [] [] [] [] [] [] []]. Qed.

Lemma upper_lower_ascii (c : ascii) :
  PyStr.upper_ascii (PyStr.lower_ascii c) = PyStr.upper_ascii c.
Proof. by destruct c as [[] [] [] [] [] [] [] []]. Qed.

Lemma upper_idemp (s : string) : PyStr.upper (PyStr.upper s) = PyStr.upper s.
Proof.
  unfold PyStr.upper. induction s as [|c s IH]; simpl; [done|].
  by rewrite upper_ascii_idemp, IH.
Qed.

Lemma upper_lower (s : string) : PyStr.upper (PyStr.lower s) = PyStr.upper s.
Proof.
  unfold PyStr.upper, PyStr.lower. induction s as [|c s IH]; simpl; [done|].
  by rewrite upper_lower_ascii, IH.
Qed.

(** ** Single-column filters *)

Lemma wrapper_run {A} (m : M nat) (k : DataFrame -> M A) (w w' : World) (r : nat)
    (found : DataFrame) :
  m w = (Ret r, w') -> heap w' !! r = Some found ->
  (feeds ← m; df ← deref feeds; k df) w = k found w'.
Proof.
  intros Hm Hfound. erewrite bind_run; [|exact Hm].
  erewrite bind_run; [done|by apply deref_run].
Qed.

Lemma theater_rows (theater : string) (cat : DataFrame) (row : Row) :
  row ∈ select (fun r => String.eqb (THEATER (feed r)) (PyStr.upper theater)) cat
  <-> row ∈ cat /\ THEATER (feed row) = PyStr.upper theater.
Proof. by rewrite elem_of_select, String.eqb_eq. Qed.

Lemma codec_rows (codec : string) (cat : DataFrame) (row : Row) :
  row ∈ select (fun r => String.eqb (CODEC (feed r)) (PyStr.upper codec)) cat
  <-> row ∈ cat /\ CODEC (feed row) = PyStr.upper codec.
Proof. by rewrite elem_of_select, String.eqb_eq. Qed.

(** X4: the by-theater filter does not depend on the letter case of an
    ASCII argument: a code, its upper-case form and its lower-case form
    give the same feeds, the catalog rows whose THEATER is the upper-case
    form, in catalog order; only the echoed [theater] entry differs. *)
Theorem theater_filter_case_blind (theater : string) (w : World) (cat : DataFrame) :
  catalog w = Some cat ->
  PyStr.isascii theater = true ->
  exists (found : DataFrame) (w1 w2 w3 : World),
    MCPTools.filter_by_theater theater w =
      (Ret (PDict [ ("feeds", to_dict_records found);
                    ("theater", PScalar (SStr theater));
                    ("count", PScalar (SInt (len found))) ]), w1)
    /\ MCPTools.filter_by_theater (PyStr.upper theater) w =
         (Ret (PDict [ ("feeds", to_dict_records found);
                       ("theater", PScalar (SStr (PyStr.upper theater)));
                       ("count", PScalar (SInt (len found))) ]), w2)
    /\ MCPTools.filter_by_theater (PyStr.lower theater) w =
         (Ret (PDict [ ("feeds", to_dict_records found);
                       ("theater", PScalar (SStr (PyStr.lower theater)));
                       ("count", PScalar (SInt (len found))) ]), w3)
    /\ found `sublist_of` cat
    /\ (forall row, row ∈ found
                    <-> row ∈ cat /\ THEATER (feed row) = PyStr.upper theater).
Proof.
  intros Hcat _.
  destruct (filter_by_theater_run theater w cat Hcat) as [w1 H1].
  destruct (filter_by_theater_run (PyStr.upper theater) w cat Hcat) as [w2 H2].
  destruct (filter_by_theater_run (PyStr.lower theater) w cat Hcat) as [w3 H3].
  rewrite upper_idemp in H2. rewrite upper_lower in H3.
  eexists _, w1, w2, w3. split; [exact H1|]. split; [exact H2|]. split; [exact H3|].
  split; [apply select_sublist|]. intros row. apply theater_rows.
Qed.

Lemma theater_filter_case_blind_example :
  exists (found : DataFrame) (w1 w2 w3 : World),
    MCPTools.filter_by_theater "Pac" small_world =
      (Ret (PDict [ ("feeds", to_dict_records found);
                    ("theater", PScalar (SStr "Pac"));
                    ("count", PScalar (SInt (len found))) ]), w1)
    /\ MCPTools.filter_by_theater (PyStr.upper "Pac") small_world =
         (Ret (PDict [ ("feeds", to_dict_records found);
                       ("theater", PScalar (SStr (PyStr.upper "Pac")));
                       ("count", PScalar (SInt (len found))) ]), w2)
    /\ MCPTools.filter_by_theater (PyStr.lower "Pac") small_world =
         (Ret (PDict [ ("feeds", to_dict_records found);
                       ("theater", PScalar (SStr (PyStr.lower "Pac")));
                       ("count", PScalar (SInt (len found))) ]), w3)
    /\ found `sublist_of` read_csv [FD_001; FD_002; FD_003]
    /\ (forall row, row ∈ found
                    <-> row ∈ read_csv [FD_001; FD_002; FD_003]
                        /\ THEATER (feed row) = PyStr.upper "Pac").
Proof.
  apply (theater_filter_case_blind "Pac" small_world (read_csv [FD_001; FD_002; FD_003]));
    reflexivity.
Defined.

(** X5: the comparison folds the argument only, not the column: a catalog
    row whose THEATER holds a lower-case ASCII letter is returned for no
    ASCII argument at all.  The feeds returned are the catalog rows whose
    THEATER is the upper-case form of the argument, and none of them has
    the THEATER of such a row. *)
Theorem mixed_case_theater_unreachable (theater : string) (row : Row)
    (w : World) (cat : DataFrame) :
  catalog w = Some cat ->
  PyStr.isascii theater = true ->
  THEATER (feed row) <> PyStr.upper (THEATER (feed row)) ->
  exists (found : DataFrame) (w' : World),
    MCPTools.filter_by_theater theater w =
      (Ret (PDict [ ("feeds", to_dict_records found);
                    ("theater", PScalar (SStr theater));
                    ("count", PScalar (SInt (len found))) ]), w')
    /\ found = select (fun r => String.eqb (THEATER (feed r)) (PyStr.upper theater)) cat
    /\ (forall r, r ∈ found -> THEATER (feed r) <> THEATER (feed row))
    /\ (forall r, r ∈ found -> feed r <> feed row)
    /\ row ∉ found.
Proof.
  intros Hcat _ Hmixed.
  destruct (filter_by_theater_run theater w cat Hcat) as [w' Hrun].
  assert (forall r,
            r ∈ select (fun r => String.eqb (THEATER (feed r)) (PyStr.upper theater)) cat ->
            THEATER (feed r) <> THEATER (feed row)) as Hother.
  { intros r [_ Heq]%theater_rows Hsame. apply Hmixed.
    by rewrite <- Hsame, Heq, upper_idemp. }
  eexists _, w'. split; [exact Hrun|]. split; [done|]. split; [done|]. split.
  - intros r Hr Hsame. apply (Hother r Hr). by rewrite Hsame.
  - intros Hrow. by apply (Hother row Hrow).
Qed.

Lemma mixed_case_theater_unreachable_example :
  exists (found : DataFrame) (w' : World),
    MCPTools.filter_by_theater "Pac"
      (mkWorld [ [mkRow 0 (mkFeed "FD-010" "Pac" "H264" 640 480 900 None false true) None] ]
               (mkLoader (Some 0%nat)) None []) =
      (Ret (PDict [ ("feeds", to_dict_records found);
                    ("theater", PScalar (SStr "Pac"));
                    ("count", PScalar (SInt (len found))) ]), w')
    /\ found = select (fun r => String.eqb (THEATER (feed r)) (PyStr.upper "Pac"))
                  [mkRow 0 (mkFeed "FD-010" "Pac" "H264" 640 480 900 None false true) None]
    /\ (forall r, r ∈ found ->
                  THEATER (feed r)
                  <> THEATER (feed (mkRow 0 (mkFeed "FD-010" "Pac" "H264" 640 480 900 None
                                                    false true) None)))
    /\ (forall r, r ∈ found ->
                  feed r <> feed (mkRow 0 (mkFeed "FD-010" "Pac" "H264" 640 480 900 None
                                                  false true) None))
    /\ mkRow 0 (mkFeed "FD-010" "Pac" "H264" 640 480 900 None false true) None ∉ found.
Proof.
  apply (mixed_case_theater_unreachable "Pac"
           (mkRow 0 (mkFeed "FD-010" "Pac" "H264" 640 480 900 None false true) None) _
           [mkRow 0 (mkFeed "FD-010" "Pac" "H264" 640 480 900 None false true) None]).
  - reflexivity.
  - reflexivity.
  - discriminate.
Defined.

(** X6: for an ASCII argument the by-codec filter returns, in catalog
    order, exactly the rows whose CODEC is the upper-case form of the
    argument, whatever the letter case of the argument; a codec no row
    carries gives an empty result with count 0, not an exception. *)
Theorem codec_filter_case_blind (codec : string) (w : World) (cat : DataFrame) :
  catalog w = Some cat ->
  PyStr.isascii codec = true ->
  exists (found : DataFrame) (w1 w2 : World),
    MCPTools.filter_by_codec codec w =
      (Ret (PDict [ ("feeds", to_dict_records found);
                    ("codec", PScalar (SStr codec));
                    ("count", PScalar (SInt (len found))) ]), w1)
    /\ MCPTools.filter_by_codec (PyStr.lower codec) w =
         (Ret (PDict [ ("feeds", to_dict_records found);
                       ("codec", PScalar (SStr (PyStr.lower codec)));
                       ("count", PScalar (SInt (len found))) ]), w2)
    /\ found `sublist_of` cat
    /\ (forall row, row ∈ found <-> row ∈ cat /\ CODEC (feed row) = PyStr.upper codec)
    /\ ((forall row, row ∈ cat -> CODEC (feed row) <> PyStr.upper codec) -> found = []).
Proof.
  intros Hcat _.
  destruct (filter_by_codec_run codec w cat Hcat) as [w1 H1].
  destruct (filter_by_codec_run (PyStr.lower codec) w cat Hcat) as [w2 H2].
  rewrite upper_lower in H2.
  eexists _, w1, w2. split; [exact H1|]. split; [exact H2|].
  split; [apply select_sublist|]. split; [intros row; apply codec_rows|].
  intros Hnone. apply select_none. intros row Hrow.
  apply String.eqb_neq. by apply Hnone.
Qed.

Lemma codec_filter_case_blind_example :
  exists (found : DataFrame) (w1 w2 : World),
    MCPTools.filter_by_codec "av1" small_world =
      (Ret (PDict [ ("feeds", to_dict_records found);
                    ("codec", PScalar (SStr "av1"));
                    ("count", PScalar (SInt (len found))) ]), w1)
    /\ MCPTools.filter_by_codec (PyStr.lower "av1") small_world =
         (Ret (PDict [ ("feeds", to_dict_records found);
                       ("codec", PScalar (SStr (PyStr.lower "av1")));
                       ("count", PScalar (SInt (len found))) ]), w2)
    /\ found `sublist_of` read_csv [FD_001; FD_002; FD_003]
    /\ (forall row, row ∈ found
                    <-> row ∈ read_csv [FD_001; FD_002; FD_003]
                        /\ CODEC (feed row) = PyStr.upper "av1")
    /\ ((forall row, row ∈ read_csv [FD_001; FD_002; FD_003] ->
                     CODEC (feed row) <> PyStr.upper "av1") -> found = []).
Proof.
  apply (codec_filter_case_blind "av1" small_world (read_csv [FD_001; FD_002; FD_003]));
    reflexivity.
Defined.

(** X7: the by-model filter matches the tag exactly (letter case
    included); a feed without a model tag is returned for no argument. *)
Theorem model_filter_exact (model_tag : string) (w : World) (cat : DataFrame) :
  catalog w = Some cat ->
  exists (found : DataFrame) (w' : World),
    MCPTools.filter_by_model model_tag w =
      (Ret (PDict [ ("feeds", to_dict_records found);
                    ("model_tag", PScalar (SStr model_tag));
                    ("count", PScalar (SInt (len found))) ]), w')
    /\ found `sublist_of` cat
    /\ (forall row, row ∈ found <-> row ∈ cat /\ MODL_TAG (feed row) = Some model_tag)
    /\ (forall row, row ∈ found -> MODL_TAG (feed row) <> None).
Proof.
  intros Hcat.
  set (p := fun r : Row => match MODL_TAG (feed r) with
                           | Some t => String.eqb t model_tag
                           | None => false
                           end).
  assert (forall row, row ∈ select p cat
                      <-> row ∈ cat /\ MODL_TAG (feed row) = Some model_tag) as Hrows.
  { intros row. rewrite elem_of_select. unfold p.
    destruct (MODL_TAG (feed row)) as [t|]; [|by intuition].
    rewrite String.eqb_eq. split; intros [? ?]; split; congruence. }
  exists (select p cat). eexists. split; [|split; [apply select_sublist|split; [done|]]].
  - unfold MCPTools.filter_by_model.
    erewrite wrapper_run;
      [done|apply (selection_run p w cat Hcat)|apply (heap_grown_first _ _ [] [_])].
  - intros row [_ Htag]%Hrows. by rewrite Htag.
Qed.

Lemma model_filter_exact_example :
  exists (found : DataFrame) (w' : World),
    MCPTools.filter_by_model "Viper-VL" small_world =
      (Ret (PDict [ ("feeds", to_dict_records found);
                    ("model_tag", PScalar (SStr "Viper-VL"));
                    ("count", PScalar (SInt (len found))) ]), w')
    /\ found `sublist_of` read_csv [FD_001; FD_002; FD_003]
    /\ (forall row, row ∈ found
                    <-> row ∈ read_csv [FD_001; FD_002; FD_003]
                        /\ MODL_TAG (feed row) = Some "Viper-VL")
    /\ (forall row, row ∈ found -> MODL_TAG (feed row) <> None).
Proof.
  apply (model_filter_exact "Viper-VL" small_world (read_csv [FD_001; FD_002; FD_003])).
  reflexivity.
Defined.

(** ** The two flag filters split the catalog *)

Lemma select_complement (p : Row -> bool) (df : DataFrame) :
  (select p df ++ select (fun r => negb (p r)) df)%list ≡ₚ df.
Proof.
  unfold select. induction df as [|row df IH]; simpl; [done|].
  destruct (p row); simpl.
  - by rewrite IH.
  - rewrite <- Permutation_middle. by rewrite IH.
Qed.

Lemma select_ext (p q : Row -> bool) (df : DataFrame) :
  (forall row, p row = q row) -> select p df = select q df.
Proof. intros Hpq. unfold select. apply filter_ext. intros row. apply Hpq. Qed.

Lemma flag_partition (flag : Row -> bool) (cat : DataFrame) :
  let yes := select (fun r => Bool.eqb (flag r) true) cat in
  let no := select (fun r => Bool.eqb (flag r) false) cat in
  (yes ++ no)%list ≡ₚ cat
  /\ len yes + len no = len cat
  /\ (forall row, row ∈ yes -> row ∉ no).
Proof.
  intros yes no.
  assert (no = select (fun r => negb (Bool.eqb (flag r) true)) cat) as Hno.
  { apply select_ext. intros row. by destruct (flag row). }
  assert ((yes ++ no)%list ≡ₚ cat) as Hperm.
  { rewrite Hno. apply select_complement. }
  split; [done|]. split.
  - unfold len. rewrite <- Hperm, length_app. lia.
  - intros row [_ Hyes]%elem_of_select [_ Hnot]%elem_of_select.
    destruct (flag row); discriminate.
Qed.

(** X8: [filter_by_encryption(True)] and [filter_by_encryption(False)]
    split the catalog: every row is in exactly one of the two results and
    the two counts add up to the catalog size. *)
Theorem encryption_splits_catalog (w : World) (cat : DataFrame) :
  catalog w = Some cat ->
  exists (enc plain : DataFrame) (w1 w2 : World),
    MCPTools.filter_by_encryption true w =
      (Ret (PDict [ ("feeds", to_dict_records enc);
                    ("encrypted", PScalar (SBool true));
                    ("count", PScalar (SInt (len enc))) ]), w1)
    /\ MCPTools.filter_by_encryption false w =
         (Ret (PDict [ ("feeds", to_dict_records plain);
                       ("encrypted", PScalar (SBool false));
                       ("count", PScalar (SInt (len plain))) ]), w2)
    /\ (enc ++ plain)%list ≡ₚ cat
    /\ len enc + len plain = len cat
    /\ (forall row, row ∈ enc -> row ∉ plain)
    /\ (forall row, row ∈ enc -> ENCR (feed row) = true)
    /\ (forall row, row ∈ plain -> ENCR (feed row) = false).
Proof.
  intros Hcat.
  destruct (flag_partition (fun r => ENCR (feed r)) cat) as (Hperm & Hlen & Hdisj).
  eexists _, _, _, _. split; [|split; [|split; [exact Hperm|split; [exact Hlen|
    split; [exact Hdisj|split]]]]].
  - unfold MCPTools.filter_by_encryption, DataLoader.get_encrypted_feeds.
    erewrite wrapper_run;
      [done|apply (selection_run _ w cat Hcat)|apply (heap_grown_first _ _ [] [_])].
  - unfold MCPTools.filter_by_encryption, DataLoader.get_encrypted_feeds.
    erewrite wrapper_run;
      [done|apply (selection_run _ w cat Hcat)|apply (heap_grown_first _ _ [] [_])].
  - intros row [_ H]%elem_of_select. by destruct (ENCR (feed row)).
  - intros row [_ H]%elem_of_select. by destruct (ENCR (feed row)).
Qed.

Lemma encryption_splits_catalog_example :
  exists (enc plain : DataFrame) (w1 w2 : World),
    MCPTools.filter_by_encryption true small_world =
      (Ret (PDict [ ("feeds", to_dict_records enc);
                    ("encrypted", PScalar (SBool true));
                    ("count", PScalar (SInt (len enc))) ]), w1)
    /\ MCPTools.filter_by_encryption false small_world =
         (Ret (PDict [ ("feeds", to_dict_records plain);
                       ("encrypted", PScalar (SBool false));
                       ("count", PScalar (SInt (len plain))) ]), w2)
    /\ (enc ++ plain)%list ≡ₚ read_csv [FD_001; FD_002; FD_003]
    /\ len enc + len plain = len (read_csv [FD_001; FD_002; FD_003])
    /\ (forall row, row ∈ enc -> row ∉ plain)
    /\ (forall row, row ∈ enc -> ENCR (feed row) = true)
    /\ (forall row, row ∈ plain -> ENCR (feed row) = false).
Proof.
  apply (encryption_splits_catalog small_world (read_csv [FD_001; FD_002; FD_003])).
  reflexivity.
Defined.

(** X9: likewise [filter_by_civilian_safety(True)] and
    [filter_by_civilian_safety(False)] split the catalog. *)
Theorem civilian_safety_splits_catalog (w : World) (cat : DataFrame) :
  catalog w = Some cat ->
  exists (safe other : DataFrame) (w1 w2 : World),
    MCPTools.filter_by_civilian_safety true w =
      (Ret (PDict [ ("feeds", to_dict_records safe);
                    ("civilian_safe", PScalar (SBool true));
                    ("count", PScalar (SInt (len safe))) ]), w1)
    /\ MCPTools.filter_by_civilian_safety false w =
         (Ret (PDict [ ("feeds", to_dict_records other);
                       ("civilian_safe", PScalar (SBool false));
                       ("count", PScalar (SInt (len other))) ]), w2)
    /\ (safe ++ other)%list ≡ₚ cat
    /\ len safe + len other = len cat
    /\ (forall row, row ∈ safe -> row ∉ other)
    /\ (forall row, row ∈ safe -> CIV_OK (feed row) = true)
    /\ (forall row, row ∈ other -> CIV_OK (feed row) = false).
Proof.
  intros Hcat.
  destruct (flag_partition (fun r => CIV_OK (feed r)) cat) as (Hperm & Hlen & Hdisj).
  eexists _, _, _, _. split; [|split; [|split; [exact Hperm|split; [exact Hlen|
    split; [exact Hdisj|split]]]]].
  - unfold MCPTools.filter_by_civilian_safety, DataLoader.get_civilian_safe_feeds.
    erewrite wrapper_run;
      [done|apply (selection_run _ w cat Hcat)|apply (heap_grown_first _ _ [] [_])].
  - unfold MCPTools.filter_by_civilian_safety, DataLoader.get_civilian_safe_feeds.
    erewrite wrapper_run;
      [done|apply (selection_run _ w cat Hcat)|apply (heap_grown_first _ _ [] [_])].
  - intros row [_ H]%elem_of_select. by destruct (CIV_OK (feed row)).
  - intros row [_ H]%elem_of_select. by destruct (CIV_OK (feed row)).
Qed.

Lemma civilian_safety_splits_catalog_example :
  exists (safe other : DataFrame) (w1 w2 : World),
    MCPTools.filter_by_civilian_safety true small_world =
      (Ret (PDict [ ("feeds", to_dict_records safe);
                    ("civilian_safe", PScalar (SBool true));
                    ("count", PScalar (SInt (len safe))) ]), w1)
    /\ MCPTools.filter_by_civilian_safety false small_world =
         (Ret (PDict [ ("feeds", to_dict_records other);
                       ("civilian_safe", PScalar (SBool false));
                       ("count", PScalar (SInt (len other))) ]), w2)
    /\ (safe ++ other)%list ≡ₚ read_csv [FD_001; FD_002; FD_003]
    /\ len safe + len other = len (read_csv [FD_001; FD_002; FD_003])
    /\ (forall row, row ∈ safe -> row ∉ other)
    /\ (forall row, row ∈ safe -> CIV_OK (feed row) = true)
    /\ (forall row, row ∈ other -> CIV_OK (feed row) = false).
Proof.
  apply (civilian_safety_splits_catalog small_world (read_csv [FD_001; FD_002; FD_003])).
  reflexivity.
Defined.

(** ** Lookup by feed id, when the id exists *)

Lemma select_first (p : Row -> bool) (df : DataFrame) (row : Row) :
  row ∈ df -> p row = true ->
  exists (first : Row) (rest : DataFrame) (i : nat),
    select p df = first :: rest
    /\ df !! i = Some first /\ p first = true
    /\ (forall j other, (j < i)%nat -> df !! j = Some other -> p other = false).
Proof.
  unfold select. induction df as [|x df IH]; intros Hin Hp.
  - by apply elem_of_nil in Hin.
  - simpl. destruct (p x) eqn:Hx.
    + exists x, (List.filter p df), 0%nat. repeat split; try done. intros j other Hj. lia.
    + apply elem_of_cons in Hin as [->|Hin]; [congruence|].
      destruct (IH Hin Hp) as (first & rest & i & Hsel & Hi & Hfirst & Hbefore).
      exists first, rest, (S i). repeat split; try done.
      intros [|j] other Hj Hother; simpl in Hother; [congruence|].
      eapply Hbefore; [|done]. lia.
Qed.

(** X10: for a feed id that some catalog row carries, the lookup returns
    that row under [feed] with [found] true; when several rows carry the
    id, it is the first of them in catalog order. *)
Theorem feed_lookup_found (w : World) (cat : DataFrame) (feed_id : string) (row : Row) :
  catalog w = Some cat ->
  row ∈ cat -> FEED_ID (feed row) = feed_id ->
  exists (first : Row) (i : nat) (w' : World),
    MCPTools.get_feed_by_id feed_id w =
      (Ret (PDict [ ("feed", row_to_dict first); ("found", PScalar (SBool true)) ]), w')
    /\ cat !! i = Some first
    /\ FEED_ID (feed first) = feed_id
    /\ (forall j other, (j < i)%nat -> cat !! j = Some other ->
                        FEED_ID (feed other) <> feed_id).
Proof.
  intros Hcat Hrow Hid. pose proof Hcat as (r & Hr & Hheap)%catalog_loaded.
  set (p := fun x : Row => String.eqb (FEED_ID (feed x)) feed_id).
  destruct (select_first p cat row Hrow) as (first & rest & i & Hsel & Hi & Hp & Hbefore).
  { by apply String.eqb_eq. }
  exists first, i. eexists. split; [|split; [done|split]].
  - unfold MCPTools.get_feed_by_id.
    erewrite bind_run; [|by apply get_camera_feeds_run].
    erewrite bind_run; [|by apply (df_select_run p r cat), heap_grown].
    erewrite bind_run; [|apply deref_run, (heap_grown_first _ _ [] [])].
    erewrite bind_run; [|by apply deref_run, heap_grown, heap_grown].
    by rewrite Hsel.
  - by apply String.eqb_eq.
  - intros j other Hj Hother. apply String.eqb_neq. by eapply Hbefore.
Qed.

Lemma feed_lookup_found_example :
  exists (first : Row) (i : nat) (w' : World),
    MCPTools.get_feed_by_id "FD-002" small_world =
      (Ret (PDict [ ("feed", row_to_dict first); ("found", PScalar (SBool true)) ]), w')
    /\ read_csv [FD_001; FD_002; FD_003] !! i = Some first
    /\ FEED_ID (feed first) = "FD-002"
    /\ (forall j other, (j < i)%nat ->
                        read_csv [FD_001; FD_002; FD_003] !! j = Some other ->
                        FEED_ID (feed other) <> "FD-002").
Proof.
  apply (feed_lookup_found small_world (read_csv [FD_001; FD_002; FD_003]) "FD-002"
           (mkRow 1 FD_002 None)).
  - reflexivity.
  - apply list_elem_of_further, list_elem_of_here.
  - reflexivity.
Defined.

(** ** More on Multi-Filter Search *)

Lemma no_supported_filter_typed (filters : gmap string scalar) :
  (forall key, key ∈ supported_filters -> filters !! key = None) -> well_typed filters.
Proof.
  intros Hnone key v k Hv Hk.
  destruct (decide (key ∈ supported_filters)) as [Hin|Hout].
  - rewrite (Hnone key Hin) in Hv. discriminate.
  - exfalso. revert Hk. unfold kind_of_filter.
    repeat case_decide; subst; try discriminate;
      exfalso; apply Hout; unfold supported_filters; rewrite !elem_of_cons; auto 10.
Qed.

(** X11: a search whose mapping holds none of the seven supported names (the
    empty mapping in particular) returns every catalog row in catalog
    order, an empty [applied_filters] and the catalog size as count. *)
Theorem search_without_supported_filters (filters : gmap string scalar)
    (w : World) (cat : DataFrame) :
  catalog w = Some cat ->
  (forall key, key ∈ supported_filters -> filters !! key = None) ->
  exists w',
    MCPTools.search_feeds filters w =
      (Ret (PDict [ ("feeds", to_dict_records cat);
                    ("applied_filters", PDict []);
                    ("count", PScalar (SInt (len cat))) ]), w').
Proof.
  intros Hcat Hnone.
  destruct (search_feeds_run filters w cat Hcat (no_supported_filter_typed _ Hnone))
    as [w' Hrun].
  exists w'. rewrite Hrun.
  assert (forall key mask, key ∈ supported_filters ->
                           filter_pred filters key mask = fun _ => true) as Hpred.
  { intros key mask Hkey. unfold filter_pred. by rewrite (Hnone key Hkey). }
  assert (forall key, key ∈ supported_filters -> applied_entry filters key = []) as Hentry.
  { intros key Hkey. unfold applied_entry. by rewrite (Hnone key Hkey). }
  unfold search_rows, applied_entries, supported_filters in *.
  rewrite !Hpred by (rewrite !elem_of_cons; auto 10).
  simpl. rewrite !Hentry by (rewrite !elem_of_cons; auto 10).
  by rewrite !select_all.
Qed.

Lemma search_without_supported_filters_example :
  exists w',
    MCPTools.search_feeds {[ "region" := SStr "PAC" ]} small_world =
      (Ret (PDict [ ("feeds", to_dict_records (read_csv [FD_001; FD_002; FD_003]));
                    ("applied_filters", PDict []);
                    ("count", PScalar (SInt (len (read_csv [FD_001; FD_002; FD_003])))) ]),
       w').
Proof.
  apply (search_without_supported_filters {[ "region" := SStr "PAC" ]} small_world
           (read_csv [FD_001; FD_002; FD_003])).
  - reflexivity.
  - intros key Hkey. apply lookup_singleton_None. intros <-.
    unfold supported_filters in Hkey. rewrite !elem_of_cons, elem_of_nil in Hkey.
    destruct Hkey as [?|[?|[?|[?|[?|[?|[?|[]]]]]]]]; discriminate.
Defined.

Lemma bind_raise {A B} (m : M A) (k : A -> M B) (w w' : World) (e : exn) :
  m w = (Raise e, w') -> (m ≫= k) w = (Raise e, w').
Proof. intros H. unfold mbind, M_bind, bind. by rewrite H. Qed.

(** X12: [search_feeds] has no handler of its own: a [theater] value that is
    not a string makes [.upper()] raise AttributeError out of the search,
    before any row is selected; the catalog stays as it was. *)
Theorem search_raises_on_non_string_theater (filters : gmap string scalar) (v : scalar)
    (w : World) (cat : DataFrame) :
  catalog w = Some cat ->
  filters !! "theater" = Some v ->
  (forall s, v <> SStr s) ->
  MCPTools.search_feeds filters w =
    (Raise (no_attribute (PScalar v) "upper"), grown w [] [CatalogRead])
  /\ catalog (MCPTools.search_feeds filters w).2 = Some cat.
Proof.
  intros Hcat Hv Hnot. pose proof Hcat as (r & Hr & Hheap)%catalog_loaded.
  assert (MCPTools.search_feeds filters w =
            (Raise (no_attribute (PScalar v) "upper"), grown w [] [CatalogRead])) as Hrun.
  { unfold MCPTools.search_feeds.
    erewrite bind_run; [|by apply get_camera_feeds_run].
    apply bind_raise. unfold MCPTools.apply_filter. rewrite Hv.
    apply bind_raise. unfold lift, MCPTools.theater_mask, MCPTools.str_upper.
    destruct v as [|b|z|s]; try done. by destruct (Hnot s). }
  rewrite Hrun. split; [done|]. by apply catalog_grown.
Qed.

Lemma search_raises_on_non_string_theater_example :
  MCPTools.search_feeds {[ "theater" := SInt 7 ]} small_world =
    (Raise (no_attribute (PScalar (SInt 7)) "upper"), grown small_world [] [CatalogRead])
  /\ catalog (MCPTools.search_feeds {[ "theater" := SInt 7 ]} small_world).2
     = Some (read_csv [FD_001; FD_002; FD_003]).
Proof.
  apply (search_raises_on_non_string_theater {[ "theater" := SInt 7 ]} (SInt 7) small_world
           (read_csv [FD_001; FD_002; FD_003])); [reflexivity|reflexivity|discriminate].
Defined.

Lemma select_mono (p q : Row -> bool) (df df' : DataFrame) :
  (forall row, q row = true -> p row = true) ->
  df' `sublist_of` df -> select q df' `sublist_of` select p df.
Proof.
  intros Hqp Hsub. unfold select.
  induction Hsub as [|row l1 l2 Hsub IH|row l1 l2 Hsub IH]; simpl.
  - done.
  - destruct (q row) eqn:Hq.
    + rewrite (Hqp row Hq). by constructor.
    + destruct (p row); [by constructor|done].
  - destruct (p row); [by constructor|done].
Qed.

Lemma filter_pred_mono (filters filters' : gmap string scalar) (key : string)
    (mask : scalar -> outcome (Row -> bool)) (row : Row) :
  filters ⊆ filters' ->
  filter_pred filters' key mask row = true -> filter_pred filters key mask row = true.
Proof.
  intros Hsub. unfold filter_pred.
  destruct (filters !! key) as [v|] eqn:Hv; [|done].
  by rewrite (lookup_weaken _ _ _ _ Hv Hsub).
Qed.

Lemma well_typed_weaken (filters filters' : gmap string scalar) :
  filters ⊆ filters' -> well_typed filters' -> well_typed filters.
Proof.
  intros Hsub Hwt key v k Hv Hk. eapply Hwt; [|done]. by eapply lookup_weaken.
Qed.

(** X13: supplying more filters never adds a row: when a mapping extends
    another one (and its values have the columns' types), its search
    result is a sublist of the other's, so rows keep their order and the
    count does not grow. *)
Theorem search_more_filters_fewer_rows (filters filters' : gmap string scalar)
    (w : World) (cat : DataFrame) :
  catalog w = Some cat ->
  well_typed filters' ->
  filters ⊆ filters' ->
  exists (found found' : DataFrame) (w1 w2 : World),
    MCPTools.search_feeds filters w =
      (Ret (PDict [ ("feeds", to_dict_records found);
                    ("applied_filters", PDict (applied_entries filters));
                    ("count", PScalar (SInt (len found))) ]), w1)
    /\ MCPTools.search_feeds filters' w =
         (Ret (PDict [ ("feeds", to_dict_records found');
                       ("applied_filters", PDict (applied_entries filters'));
                       ("count", PScalar (SInt (len found'))) ]), w2)
    /\ found' `sublist_of` found
    /\ found `sublist_of` cat
    /\ len found' <= len found <= len cat.
Proof.
  intros Hcat Hwt' Hsub.
  pose proof (well_typed_weaken _ _ Hsub Hwt') as Hwt.
  destruct (search_feeds_run filters w cat Hcat Hwt) as [w1 H1].
  destruct (search_feeds_run filters' w cat Hcat Hwt') as [w2 H2].
  assert (search_rows filters' cat `sublist_of` search_rows filters cat) as Hfewer.
  { unfold search_rows.
    repeat (apply select_mono; [intros row; by apply filter_pred_mono|]). done. }
  assert (search_rows filters cat `sublist_of` cat) as Hcatalog.
  { unfold search_rows. repeat (etrans; [apply select_sublist|]). done. }
  exists (search_rows filters cat), (search_rows filters' cat), w1, w2.
  repeat split; try done; unfold len; apply inj_le; by apply sublist_length.
Qed.

Lemma search_more_filters_fewer_rows_example :
  exists (found found' : DataFrame) (w1 w2 : World),
    MCPTools.search_feeds {[ "theater" := SStr "pac" ]} small_world =
      (Ret (PDict [ ("feeds", to_dict_records found);
                    ("applied_filters", PDict (applied_entries {[ "theater" := SStr "pac" ]}));
                    ("count", PScalar (SInt (len found))) ]), w1)
    /\ MCPTools.search_feeds (<[ "encrypted" := SBool true ]> {[ "theater" := SStr "pac" ]})
         small_world =
         (Ret (PDict [ ("feeds", to_dict_records found');
                       ("applied_filters",
                        PDict (applied_entries
                                 (<[ "encrypted" := SBool true ]>
                                    {[ "theater" := SStr "pac" ]})));
                       ("count", PScalar (SInt (len found'))) ]), w2)
    /\ found' `sublist_of` found
    /\ found `sublist_of` read_csv [FD_001; FD_002; FD_003]
    /\ len found' <= len found <= len (read_csv [FD_001; FD_002; FD_003]).
Proof.
  apply (search_more_filters_fewer_rows {[ "theater" := SStr "pac" ]}
           (<[ "encrypted" := SBool true ]> {[ "theater" := SStr "pac" ]})
           small_world (read_csv [FD_001; FD_002; FD_003])).
  - reflexivity.
  - intros key v k Hv Hk. apply lookup_insert_Some in Hv as [[<- <-]|[_ Hv]].
    + by injection Hk as <-.
    + apply lookup_singleton_Some in Hv as [<- <-]. by injection Hk as <-.
  - by apply insert_subseteq.
Defined.

(** ** The two routes to a latency bound *)

Lemma max_latency_only (b : Z) (cat : DataFrame) :
  search_rows {[ "max_latency" := SInt b ]} cat
    = select (fun row => LAT_MS (feed row) <=? b) cat
  /\ applied_entries {[ "max_latency" := SInt b ]} = [ ("max_latency", PScalar (SInt b)) ].
Proof.
  unfold search_rows, applied_entries, applied_entry, filter_pred, supported_filters.
  simpl. rewrite lookup_singleton_eq, !lookup_singleton_ne by done. simpl.
  by rewrite !select_all.
Qed.

(** X14: for a bound other than 0 the search route and the range filter
    agree: [search_feeds(max_latency=b)] and [filter_by_latency(b)] return
    the same feeds, the catalog rows with LAT_MS <= b in catalog order.
    (At 0 they part: see C6.) *)
Theorem search_agrees_with_latency_filter (b : Z) (w : World) (cat : DataFrame) :
  catalog w = Some cat ->
  b <> 0 ->
  exists (found : DataFrame) (w1 w2 : World),
    MCPTools.search_feeds {[ "max_latency" := SInt b ]} w =
      (Ret (PDict [ ("feeds", to_dict_records found);
                    ("applied_filters", PDict [ ("max_latency", PScalar (SInt b)) ]);
                    ("count", PScalar (SInt (len found))) ]), w1)
    /\ MCPTools.filter_by_latency (Some b) None w =
         (Ret (PDict [ ("feeds", to_dict_records found);
                       ("latency_filter",
                        PDict [ ("max_latency", PScalar (SInt b));
                                ("min_latency", PScalar SNone) ]);
                       ("count", PScalar (SInt (len found))) ]), w2)
    /\ (forall row, row ∈ found <-> row ∈ cat /\ LAT_MS (feed row) <= b).
Proof.
  intros Hcat Hb. pose proof Hcat as (r & Hr & Hheap)%catalog_loaded.
  set (p := fun row : Row => LAT_MS (feed row) <=? b).
  destruct (max_latency_only b cat) as [Hrows Hentries]. fold p in Hrows.
  destruct (search_feeds_run {[ "max_latency" := SInt b ]} w cat Hcat) as [w1 H1].
  { intros key v k [<- <-]%lookup_singleton_Some Hk. by injection Hk as <-. }
  rewrite Hrows, Hentries in H1.
  exists (select p cat), w1. eexists. split; [exact H1|]. split.
  - unfold MCPTools.filter_by_latency, DataLoader.get_feeds_by_latency.
    erewrite wrapper_run; [done| |].
    + erewrite bind_run; [|by apply get_camera_feeds_run].
      erewrite bind_run.
      2:{ unfold DataLoader.when_bound, DataLoader.if_bound.
          apply Z.eqb_neq in Hb. rewrite Hb. simpl.
          apply (df_select_run p r cat). by apply heap_grown. }
      simpl. done.
    + rewrite grown_grown. simpl. rewrite app_nil_r. by apply list_lookup_middle.
  - intros row. unfold p. by rewrite elem_of_select, Z.leb_le.
Qed.

Lemma search_agrees_with_latency_filter_example :
  exists (found : DataFrame) (w1 w2 : World),
    MCPTools.search_feeds {[ "max_latency" := SInt 150 ]} small_world =
      (Ret (PDict [ ("feeds", to_dict_records found);
                    ("applied_filters", PDict [ ("max_latency", PScalar (SInt 150)) ]);
                    ("count", PScalar (SInt (len found))) ]), w1)
    /\ MCPTools.filter_by_latency (Some 150) None small_world =
         (Ret (PDict [ ("feeds", to_dict_records found);
                       ("latency_filter",
                        PDict [ ("max_latency", PScalar (SInt 150));
                                ("min_latency", PScalar SNone) ]);
                       ("count", PScalar (SInt (len found))) ]), w2)
    /\ (forall row, row ∈ found
                    <-> row ∈ read_csv [FD_001; FD_002; FD_003] /\ LAT_MS (feed row) <= 150).
Proof.
  apply (search_agrees_with_latency_filter 150 small_world
           (read_csv [FD_001; FD_002; FD_003])); [reflexivity|discriminate].
Defined.

(** * Aggregates *)

(** ** Distributions by theater and by codec *)

Lemma sum_permutation (l l' : list Z) : l ≡ₚ l' -> foldr Z.add 0 l = foldr Z.add 0 l'.
Proof. induction 1; simpl; lia. Qed.

Lemma count_one (D : list string) (x : string) :
  NoDup D -> x ∈ D ->
  foldr Z.add 0 (map (fun v => if String.eqb v x then 1 else 0) D) = 1.
Proof.
  induction 1 as [|y D Hy Hnd IH]; intros Hx; [by apply elem_of_nil in Hx|].
  simpl. destruct (String.eqb_spec y x) as [->|Hne].
  - enough (foldr Z.add 0 (map (fun v => if String.eqb v x then 1 else 0) D) = 0) by lia.
    clear IH Hnd Hx. induction D as [|z D IH]; simpl; [done|].
    apply not_elem_of_cons in Hy as [Hz Hy].
    destruct (String.eqb_spec z x); [congruence|]. by rewrite IH.
  - apply elem_of_cons in Hx as [->|Hx]; [done|]. by rewrite IH.
Qed.

Lemma sum_pointwise (D : list string) (f g : string -> Z) :
  foldr Z.add 0 (map (fun v => f v + g v) D)
  = foldr Z.add 0 (map f D) + foldr Z.add 0 (map g D).
Proof. induction D as [|v D IH]; simpl; lia. Qed.

Lemma counts_add_up (D col : list string) :
  NoDup D -> (forall x, x ∈ col -> x ∈ D) ->
  foldr Z.add 0 (map (fun v => len (List.filter (String.eqb v) col)) D) = len col.
Proof.
  intros Hnd. induction col as [|x col IH]; intros Hsub.
  - clear. induction D as [|v D IHD]; [done|]. simpl in *. by rewrite IHD.
  - rewrite <- (map_ext (fun v => (if String.eqb v x then 1 else 0)
                                  + len (List.filter (String.eqb v) col))).
    + rewrite sum_pointwise, count_one, IH; try done.
      * unfold len. simpl. lia.
      * intros y Hy. apply Hsub. by apply list_elem_of_further.
      * apply Hsub, list_elem_of_here.
    + intros v. simpl. destruct (String.eqb v x); unfold len; simpl; lia.
Qed.

Lemma filter_map_length {A} (col : A -> string) (v : string) (l : list A) :
  len (List.filter (String.eqb v) (map col l))
  = len (List.filter (fun a => String.eqb v (col a)) l).
Proof.
  unfold len. f_equal. induction l as [|a l IH]; simpl; [done|].
  destruct (String.eqb v (col a)); simpl; by rewrite IH.
Qed.

Lemma value_counts_tally (quicksort : DataLoader.sort_kind) (col : list string) :
  DataLoader.sorts_descending quicksort ->
  NoDup (MCPTools.value_counts quicksort col).*1
  /\ (forall v n, (v, n) ∈ MCPTools.value_counts quicksort col
                  <-> v ∈ col /\ n = len (List.filter (String.eqb v) col))
  /\ foldr Z.add 0 (MCPTools.value_counts quicksort col).*2 = len col
  /\ Sorted (DataLoader.descending snd) (MCPTools.value_counts quicksort col).
Proof.
  intros Hsort. unfold MCPTools.value_counts.
  set (pairs := map (fun v => (v, len (List.filter (String.eqb v) col))) (remove_dups col)).
  destruct (Hsort _ snd pairs) as [Hperm Hsorted].
  assert (pairs.*1 = remove_dups col) as Hkeys.
  { unfold pairs. rewrite <- list_fmap_compose. apply list_fmap_id. }
  assert (pairs.*2 = map (fun v => len (List.filter (String.eqb v) col)) (remove_dups col))
    as Hvalues.
  { unfold pairs. by rewrite <- list_fmap_compose. }
  split; [|split; [|split]].
  - rewrite Hperm, Hkeys. apply NoDup_remove_dups.
  - intros v n. rewrite Hperm. unfold pairs. rewrite list_elem_of_fmap. split.
    + intros (v' & Heq & Hv). injection Heq as -> ->.
      split; [|done]. by apply (elem_of_remove_dups col v').
    + intros [Hv ->]. exists v. split; [done|]. by apply elem_of_remove_dups.
  - rewrite (sum_permutation _ (pairs.*2)) by by rewrite Hperm.
    rewrite Hvalues. apply counts_add_up; [apply NoDup_remove_dups|].
    intros x. by rewrite elem_of_remove_dups.
  - done.
Qed.

Lemma distribution_run (quicksort : DataLoader.sort_kind) (what whats : string)
    (col : Feed -> string) (w : World) (cat : DataFrame) :
  catalog w = Some cat ->
  MCPTools.distribution quicksort what whats col w =
    (let counts := MCPTools.value_counts quicksort (map (fun r => col (feed r)) cat) in
     Ret (PDict [ (what, PDict (map (fun kv => (kv.1, PScalar (SInt kv.2))) counts));
                  ("total_feeds", PScalar (SInt (len cat)));
                  (whats, PList (map (fun kv => PScalar (SStr kv.1)) counts)) ]),
     grown w [] [CatalogRead]).
Proof.
  intros (r & Hr & Hcat)%catalog_loaded. unfold MCPTools.distribution.
  erewrite bind_run; [|by apply get_camera_feeds_run].
  erewrite bind_run; [|by apply deref_run, heap_grown]. done.
Qed.

Lemma column_tally (quicksort : DataLoader.sort_kind) (col : Feed -> string)
    (cat : DataFrame) :
  DataLoader.sorts_descending quicksort ->
  let counts := MCPTools.value_counts quicksort (map (fun r => col (feed r)) cat) in
  NoDup counts.*1
  /\ (forall v n, (v, n) ∈ counts
                  <-> (exists row, row ∈ cat /\ col (feed row) = v)
                      /\ n = len (select (fun r => String.eqb v (col (feed r))) cat))
  /\ (forall v n, (v, n) ∈ counts -> 1 <= n)
  /\ foldr Z.add 0 counts.*2 = len cat
  /\ Sorted (DataLoader.descending snd) counts.
Proof.
  intros Hsort counts.
  destruct (value_counts_tally quicksort (map (fun r => col (feed r)) cat) Hsort)
    as (Hnd & Hin & Hsum & Hsorted).
  assert (forall v n, (v, n) ∈ counts
                      <-> (exists row, row ∈ cat /\ col (feed row) = v)
                          /\ n = len (select (fun r => String.eqb v (col (feed r))) cat))
    as Hin'.
  { intros v n. unfold counts. rewrite Hin, filter_map_length, list_elem_of_fmap.
    unfold select. split; intros [(row & H1 & H2) ->]; (split; [|done]); by exists row. }
  split; [done|]. split; [done|]. split; [|split; [|done]].
  - intros v n [(row & Hrow & Hv) ->]%Hin'.
    assert (row ∈ select (fun r => String.eqb v (col (feed r))) cat) as Hsel.
    { apply elem_of_select. split; [done|]. by apply String.eqb_eq. }
    unfold len. destruct (select _ cat); [by apply elem_of_nil in Hsel|]. simpl. lia.
  - unfold counts. rewrite Hsum. unfold len. by rewrite length_map.
Qed.

(** X15: the two distributions count right.  For a sort that returns its
    input reordered by descending key, [analyze_theater_distribution]
    lists each theater that occurs in the catalog once, with the number of
    rows holding it (at least 1), most frequent first; the counts add up
    to [total_feeds], the catalog size; [theaters] lists the same keys in
    the same order.  Likewise [analyze_codec_distribution] on CODEC. *)
Theorem distributions_count_every_row (quicksort : DataLoader.sort_kind)
    (w : World) (cat : DataFrame) :
  DataLoader.sorts_descending quicksort ->
  catalog w = Some cat ->
  (exists (counts : list (string * Z)) (w' : World),
      MCPTools.analyze_theater_distribution quicksort w =
        (Ret (PDict [ ("theater_distribution",
                       PDict (map (fun kv => (kv.1, PScalar (SInt kv.2))) counts));
                      ("total_feeds", PScalar (SInt (len cat)));
                      ("theaters", PList (map (fun kv => PScalar (SStr kv.1)) counts)) ]), w')
      /\ NoDup counts.*1
      /\ (forall v n, (v, n) ∈ counts
                      <-> (exists row, row ∈ cat /\ THEATER (feed row) = v)
                          /\ n = len (select (fun r => String.eqb v (THEATER (feed r))) cat))
      /\ (forall v n, (v, n) ∈ counts -> 1 <= n)
      /\ foldr Z.add 0 counts.*2 = len cat
      /\ Sorted (DataLoader.descending snd) counts)
  /\ (exists (counts : list (string * Z)) (w' : World),
         MCPTools.analyze_codec_distribution quicksort w =
           (Ret (PDict [ ("codec_distribution",
                          PDict (map (fun kv => (kv.1, PScalar (SInt kv.2))) counts));
                         ("total_feeds", PScalar (SInt (len cat)));
                         ("codecs", PList (map (fun kv => PScalar (SStr kv.1)) counts)) ]), w')
         /\ NoDup counts.*1
         /\ (forall v n, (v, n) ∈ counts
                         <-> (exists row, row ∈ cat /\ CODEC (feed row) = v)
                             /\ n = len (select (fun r => String.eqb v (CODEC (feed r))) cat))
         /\ (forall v n, (v, n) ∈ counts -> 1 <= n)
         /\ foldr Z.add 0 counts.*2 = len cat
         /\ Sorted (DataLoader.descending snd) counts).
Proof.
  intros Hsort Hcat. split.
  - eexists _, _. split.
    + unfold MCPTools.analyze_theater_distribution. by rewrite (distribution_run _ _ _ _ w cat).
    + by apply (column_tally quicksort THEATER cat).
  - eexists _, _. split.
    + unfold MCPTools.analyze_codec_distribution. by rewrite (distribution_run _ _ _ _ w cat).
    + by apply (column_tally quicksort CODEC cat).
Qed.

Lemma distributions_count_every_row_example :
  (exists (counts : list (string * Z)) (w' : World),
      MCPTools.analyze_theater_distribution insertion_sort small_world =
        (Ret (PDict [ ("theater_distribution",
                       PDict (map (fun kv => (kv.1, PScalar (SInt kv.2))) counts));
                      ("total_feeds", PScalar (SInt (len (read_csv [FD_001; FD_002; FD_003]))));
                      ("theaters", PList (map (fun kv => PScalar (SStr kv.1)) counts)) ]), w')
      /\ NoDup counts.*1
      /\ (forall v n, (v, n) ∈ counts
                      <-> (exists row, row ∈ read_csv [FD_001; FD_002; FD_003]
                                       /\ THEATER (feed row) = v)
                          /\ n = len (select (fun r => String.eqb v (THEATER (feed r)))
                                        (read_csv [FD_001; FD_002; FD_003])))
      /\ (forall v n, (v, n) ∈ counts -> 1 <= n)
      /\ foldr Z.add 0 counts.*2 = len (read_csv [FD_001; FD_002; FD_003])
      /\ Sorted (DataLoader.descending snd) counts)
  /\ (exists (counts : list (string * Z)) (w' : World),
         MCPTools.analyze_codec_distribution insertion_sort small_world =
           (Ret (PDict [ ("codec_distribution",
                          PDict (map (fun kv => (kv.1, PScalar (SInt kv.2))) counts));
                         ("total_feeds",
                          PScalar (SInt (len (read_csv [FD_001; FD_002; FD_003]))));
                         ("codecs", PList (map (fun kv => PScalar (SStr kv.1)) counts)) ]), w')
         /\ NoDup counts.*1
         /\ (forall v n, (v, n) ∈ counts
                         <-> (exists row, row ∈ read_csv [FD_001; FD_002; FD_003]
                                          /\ CODEC (feed row) = v)
                             /\ n = len (select (fun r => String.eqb v (CODEC (feed r)))
                                           (read_csv [FD_001; FD_002; FD_003])))
         /\ (forall v n, (v, n) ∈ counts -> 1 <= n)
         /\ foldr Z.add 0 counts.*2 = len (read_csv [FD_001; FD_002; FD_003])
         /\ Sorted (DataLoader.descending snd) counts).
Proof.
  apply (distributions_count_every_row insertion_sort small_world
           (read_csv [FD_001; FD_002; FD_003])).
  - apply insertion_sort_sorts.
  - reflexivity.
Defined.

(** ** Resolution buckets *)

Lemma remove_dups_length {A} `{EqDecision A} (l : list A) :
  (length (remove_dups l) <= length l)%nat.
Proof.
  induction l as [|x l IH]; simpl; [done|]. case_decide; simpl; lia.
Qed.

Lemma filter_length_cons {A} (p : A -> bool) (x : A) (l : list A) :
  len (List.filter p (x :: l)) = DataLoader.astype_int (p x) + len (List.filter p l).
Proof. unfold len. simpl. destruct (p x); simpl; lia. Qed.

Lemma bucket_weight (x y : Z) :
  let c := DataLoader.astype_int ((x =? 3840) && (y =? 2160))
           + DataLoader.astype_int ((x =? 2560) && (y =? 1440))
           + DataLoader.astype_int ((x =? 1920) && (y =? 1080))
           + DataLoader.astype_int ((x =? 1280) && (y =? 720))
           + DataLoader.astype_int ((x =? 640) && (y =? 480)) in
  0 <= c <= 1
  /\ (c = 1 <-> (x, y) ∈ [ (3840, 2160); (2560, 1440); (1920, 1080); (1280, 720);
                           (640, 480) ]).
Proof.
  simpl. rewrite !elem_of_cons, elem_of_nil, !pair_equal_spec.
  destruct (Z.eqb_spec x 3840), (Z.eqb_spec x 2560), (Z.eqb_spec x 1920),
    (Z.eqb_spec x 1280), (Z.eqb_spec x 640); try lia;
    destruct (Z.eqb_spec y 2160), (Z.eqb_spec y 1440), (Z.eqb_spec y 1080),
      (Z.eqb_spec y 720), (Z.eqb_spec y 480); try lia;
    simpl; (split; [lia|]); split; intros; try lia; intuition lia.
Qed.

Lemma count_resolution_run (cat : DataFrame) (width height : Z) :
  len (List.filter (fun r => (RES_W (feed r) =? width) && (RES_H (feed r) =? height)) cat)
  = count_resolution cat width height.
Proof.
  unfold count_resolution, select. f_equal. apply filter_ext. intros row.
  destruct (Z.eqb_spec (RES_W (feed row)) width), (Z.eqb_spec (RES_H (feed row)) height);
    simpl; symmetry; (by apply bool_decide_eq_true_2) || (apply bool_decide_eq_false_2; tauto).
Qed.

Lemma count_resolution_sum (cat : DataFrame) :
  count_resolution cat 3840 2160 + count_resolution cat 2560 1440
  + count_resolution cat 1920 1080 + count_resolution cat 1280 720
  + count_resolution cat 640 480 <= len cat
  /\ (count_resolution cat 3840 2160 + count_resolution cat 2560 1440
      + count_resolution cat 1920 1080 + count_resolution cat 1280 720
      + count_resolution cat 640 480 = len cat
      <-> forall row, row ∈ cat ->
            (RES_W (feed row), RES_H (feed row))
              ∈ [ (3840, 2160); (2560, 1440); (1920, 1080); (1280, 720); (640, 480) ]).
Proof.
  rewrite <- !count_resolution_run.
  induction cat as [|row cat [IHle IHiff]].
  - split; [done|]. split; [|done]. intros _ row Hrow. by apply elem_of_nil in Hrow.
  - rewrite !filter_length_cons.
    assert (len (row :: cat) = 1 + len cat) as -> by (unfold len; simpl; lia).
    destruct (bucket_weight (RES_W (feed row)) (RES_H (feed row))) as [Hc Hc1].
    cbv beta in *. split; [lia|]. split.
    + intros Hsum row' [->|Hrow']%elem_of_cons.
      * apply Hc1. lia.
      * apply IHiff; [lia|done].
    + intros Hall.
      pose proof (proj2 Hc1 (Hall row (list_elem_of_here _ _))) as Hone.
      assert (forall row', row' ∈ cat ->
                (RES_W (feed row'), RES_H (feed row'))
                  ∈ [ (3840, 2160); (2560, 1440); (1920, 1080); (1280, 720); (640, 480) ])
        as Hrest by (intros row' Hrow'; by apply Hall, list_elem_of_further).
      apply IHiff in Hrest. lia.
Qed.

(** X16: the five resolution buckets are exact matches on (RES_W, RES_H):
    all five are always reported, in the same order, each with the number
    of catalog rows that have exactly that width and height; a row of any
    other resolution is counted in no bucket, so the bucket counts add up
    to at most [total_feeds], and to [total_feeds] exactly when every row
    has one of the five resolutions.  [unique_resolutions] is the number
    of distinct (width, height) pairs in the catalog, at most
    [total_feeds]. *)
Theorem resolution_buckets_partial (w : World) (cat : DataFrame) :
  catalog w = Some cat ->
  exists (n4k n1440 n1080 n720 n480 unique : Z) (distinct : list (Z * Z)) (w' : World),
    MCPTools.analyze_resolution_distribution w =
      (Ret (PDict [ ("resolution_distribution",
                     PDict [ ("4K (3840x2160)", PScalar (SInt n4k));
                             ("1440p (2560x1440)", PScalar (SInt n1440));
                             ("1080p (1920x1080)", PScalar (SInt n1080));
                             ("720p (1280x720)", PScalar (SInt n720));
                             ("480p (640x480)", PScalar (SInt n480)) ]);
                    ("total_feeds", PScalar (SInt (len cat)));
                    ("unique_resolutions", PScalar (SInt unique)) ]), w')
    /\ n4k = count_resolution cat 3840 2160
    /\ n1440 = count_resolution cat 2560 1440
    /\ n1080 = count_resolution cat 1920 1080
    /\ n720 = count_resolution cat 1280 720
    /\ n480 = count_resolution cat 640 480
    /\ unique = len distinct
    /\ NoDup distinct
    /\ (forall width height,
          (width, height) ∈ distinct
          <-> exists row, row ∈ cat /\ RES_W (feed row) = width /\ RES_H (feed row) = height)
    /\ 0 <= n4k /\ 0 <= n1440 /\ 0 <= n1080 /\ 0 <= n720 /\ 0 <= n480
    /\ n4k + n1440 + n1080 + n720 + n480 <= len cat
    /\ (n4k + n1440 + n1080 + n720 + n480 = len cat
        <-> forall row, row ∈ cat ->
              (RES_W (feed row), RES_H (feed row))
                ∈ [ (3840, 2160); (2560, 1440); (1920, 1080); (1280, 720); (640, 480) ])
    /\ 0 <= unique <= len cat
    /\ (cat <> [] -> 1 <= unique).
Proof.
  intros Hcat. pose proof Hcat as (r & Hr & Hheap)%catalog_loaded.
  exists (count_resolution cat 3840 2160), (count_resolution cat 2560 1440),
    (count_resolution cat 1920 1080), (count_resolution cat 1280 720),
    (count_resolution cat 640 480),
    (len (remove_dups (map (fun r => (RES_W (feed r), RES_H (feed r))) cat))),
    (remove_dups (map (fun r => (RES_W (feed r), RES_H (feed r))) cat)).
  eexists. split.
  { unfold MCPTools.analyze_resolution_distribution.
    erewrite bind_run; [|by apply get_camera_feeds_run].
    erewrite bind_run; [|by apply deref_run, heap_grown]. simpl.
    by rewrite !count_resolution_run. }
  destruct (count_resolution_sum cat) as [Hle Hiff].
  do 6 (split; [done|]). split; [apply NoDup_remove_dups|]. split.
  { intros width height. rewrite elem_of_remove_dups, list_elem_of_fmap. split.
    - intros (row & [= -> ->] & Hrow). by exists row.
    - intros (row & Hrow & <- & <-). by exists row. }
  assert (forall x y, 0 <= count_resolution cat x y) as Hpos
    by (intros; unfold count_resolution, len; lia).
  do 5 (split; [apply Hpos|]). split; [done|]. split; [done|]. split.
  - unfold len. split; [lia|]. apply inj_le.
    etrans; [apply remove_dups_length|]. by rewrite length_map.
  - intros Hne. destruct cat as [|row cat]; [done|].
    assert ((RES_W (feed row), RES_H (feed row))
              ∈ remove_dups (map (fun r => (RES_W (feed r), RES_H (feed r))) (row :: cat)))
      as Hin by (apply elem_of_remove_dups, list_elem_of_here).
    unfold len. destruct (remove_dups _); [by apply elem_of_nil in Hin|]. simpl. lia.
Qed.

Lemma resolution_buckets_partial_example :
  exists (n4k n1440 n1080 n720 n480 unique : Z) (distinct : list (Z * Z)) (w' : World),
    MCPTools.analyze_resolution_distribution small_world =
      (Ret (PDict [ ("resolution_distribution",
                     PDict [ ("4K (3840x2160)", PScalar (SInt n4k));
                             ("1440p (2560x1440)", PScalar (SInt n1440));
                             ("1080p (1920x1080)", PScalar (SInt n1080));
                             ("720p (1280x720)", PScalar (SInt n720));
                             ("480p (640x480)", PScalar (SInt n480)) ]);
                    ("total_feeds", PScalar (SInt (len (read_csv [FD_001; FD_002; FD_003]))));
                    ("unique_resolutions", PScalar (SInt unique)) ]), w')
    /\ n4k = count_resolution (read_csv [FD_001; FD_002; FD_003]) 3840 2160
    /\ n1440 = count_resolution (read_csv [FD_001; FD_002; FD_003]) 2560 1440
    /\ n1080 = count_resolution (read_csv [FD_001; FD_002; FD_003]) 1920 1080
    /\ n720 = count_resolution (read_csv [FD_001; FD_002; FD_003]) 1280 720
    /\ n480 = count_resolution (read_csv [FD_001; FD_002; FD_003]) 640 480
    /\ unique = len distinct
    /\ NoDup distinct
    /\ (forall width height,
          (width, height) ∈ distinct
          <-> exists row, row ∈ read_csv [FD_001; FD_002; FD_003]
                          /\ RES_W (feed row) = width /\ RES_H (feed row) = height)
    /\ 0 <= n4k /\ 0 <= n1440 /\ 0 <= n1080 /\ 0 <= n720 /\ 0 <= n480
    /\ n4k + n1440 + n1080 + n720 + n480 <= len (read_csv [FD_001; FD_002; FD_003])
    /\ (n4k + n1440 + n1080 + n720 + n480 = len (read_csv [FD_001; FD_002; FD_003])
        <-> forall row, row ∈ read_csv [FD_001; FD_002; FD_003] ->
              (RES_W (feed row), RES_H (feed row))
                ∈ [ (3840, 2160); (2560, 1440); (1920, 1080); (1280, 720); (640, 480) ])
    /\ 0 <= unique <= len (read_csv [FD_001; FD_002; FD_003])
    /\ (read_csv [FD_001; FD_002; FD_003] <> [] -> 1 <= unique).
Proof.
  apply (resolution_buckets_partial small_world (read_csv [FD_001; FD_002; FD_003])).
  reflexivity.
Defined.

(** * The loader *)

(** X17: [get_camera_feeds] reads the feed table at most once.  On a loader
    that has loaded nothing, with the table readable, the first call loads
    it and returns the new frame; every later call returns that same frame
    object and makes no new one, whatever has become of the file since
    (changed or removed): the catalog is the table as it was at the first
    call. *)
Theorem catalog_loaded_once (w : World) (lines : list Feed) :
  camera_feeds (data_loader w) = None ->
  table_feeds_csv w = Some lines ->
  exists (r : nat) (w1 : World),
    DataLoader.get_camera_feeds w = (Ret r, w1)
    /\ heap w1 = (heap w ++ [read_csv lines])%list
    /\ catalog w1 = Some (read_csv lines)
    /\ forall (file : option (list Feed)) (events : list event),
         exists w2,
           DataLoader.get_camera_feeds
             (mkWorld (heap w1) (data_loader w1) file (trace w1 ++ events)) = (Ret r, w2)
           /\ heap w2 = heap w1
           /\ catalog w2 = Some (read_csv lines).
Proof.
  intros Hnone Hfile.
  exists (length (heap w)),
    (mkWorld (heap w ++ [read_csv lines])%list (mkLoader (Some (length (heap w))))
             (Some lines) (trace w ++ [CatalogRead])).
  assert (catalog (mkWorld (heap w ++ [read_csv lines])%list
                           (mkLoader (Some (length (heap w)))) (Some lines)
                           (trace w ++ [CatalogRead])) = Some (read_csv lines)) as Hcat.
  { unfold catalog. simpl. by apply list_lookup_middle. }
  split; [|split; [done|split; [done|]]].
  - unfold DataLoader.get_camera_feeds, DataLoader.self_camera_feeds,
      DataLoader.load_all_data.
    unfold_monad. simpl. rewrite Hnone. simpl. by rewrite Hfile.
  - intros file events. eexists. split; [by apply get_camera_feeds_run|].
    split; [simpl; by rewrite app_nil_r|].
    apply catalog_grown. unfold catalog. simpl. by apply list_lookup_middle.
Qed.

Lemma catalog_loaded_once_example :
  exists (r : nat) (w1 : World),
    DataLoader.get_camera_feeds (start_up [FD_001; FD_002]) = (Ret r, w1)
    /\ heap w1 = (heap (start_up [FD_001; FD_002]) ++ [read_csv [FD_001; FD_002]])%list
    /\ catalog w1 = Some (read_csv [FD_001; FD_002])
    /\ forall (file : option (list Feed)) (events : list event),
         exists w2,
           DataLoader.get_camera_feeds
             (mkWorld (heap w1) (data_loader w1) file (trace w1 ++ events)) = (Ret r, w2)
           /\ heap w2 = heap w1
           /\ catalog w2 = Some (read_csv [FD_001; FD_002]).
Proof.
  apply (catalog_loaded_once (start_up [FD_001; FD_002]) [FD_001; FD_002]); reflexivity.
Defined.

(** * The parser's fallback and the fence extractor *)

(** ** Substrings *)

Lemma prefix_trans (a b s : string) :
  String.prefix a b = true -> String.prefix b s = true -> String.prefix a s = true.
Proof.
  revert a b. induction s as [|c s IH]; intros [|x a] [|y b]; simpl; try done.
  destruct (ascii_dec x y) as [->|]; [|done].
  destruct (ascii_dec y c); [|done]. apply IH.
Qed.

Lemma contains_prefix (a b s : string) :
  String.prefix a b = true -> PyStr.contains b s = true -> PyStr.contains a s = true.
Proof.
  intros Hab. induction s as [|c s IH]; cbn [PyStr.contains].
  - rewrite !orb_false_r. by apply prefix_trans.
  - intros [Hb|Hb]%orb_true_iff; apply orb_true_iff.
    + left. by eapply prefix_trans.
    + right. by apply IH.
Qed.

Lemma contains_longer (a b s : string) :
  String.prefix a b = true -> PyStr.contains a s = false -> PyStr.contains b s = false.
Proof.
  intros Hab Ha. destruct (PyStr.contains b s) eqn:Hb; [|done].
  by rewrite (contains_prefix a b s Hab Hb) in Ha.
Qed.

Lemma append_nil (s : string) : "" +:+ s = s.
Proof. reflexivity. Qed.

Lemma append_cons (c : ascii) (a b : string) : String c a +:+ b = String c (a +:+ b).
Proof. reflexivity. Qed.

Lemma prefix_append (needle rest : string) : String.prefix needle (needle +:+ rest) = true.
Proof.
  induction needle as [|c needle IH]; [by destruct rest|].
  rewrite append_cons. simpl. by destruct (ascii_dec c c).
Qed.

Lemma append_assoc (a b c : string) : (a +:+ b) +:+ c = a +:+ (b +:+ c).
Proof. induction a as [|x a IH]; [done|]. by rewrite !append_cons, IH. Qed.

Lemma length_append (a b : string) :
  String.length (a +:+ b) = (String.length a + String.length b)%nat.
Proof. induction a as [|x a IH]; [done|]. rewrite append_cons. simpl. by rewrite IH. Qed.

Lemma drop_append (pre rest : string) : PyStr.drop (String.length pre) (pre +:+ rest) = rest.
Proof. induction pre as [|c pre IH]; [done|]. rewrite append_cons. apply IH. Qed.

Lemma take_append (body rest : string) :
  PyStr.take (String.length body) (body +:+ rest) = body.
Proof.
  induction body as [|c body IH]; [done|]. rewrite append_cons. simpl. by rewrite IH.
Qed.

Lemma contains_append (needle pre rest : string) :
  String.prefix needle rest = true -> PyStr.contains needle (pre +:+ rest) = true.
Proof.
  intros Hrest. induction pre as [|c pre IH].
  - rewrite append_nil. destruct rest; cbn [PyStr.contains]; by rewrite Hrest.
  - rewrite append_cons. cbn [PyStr.contains]. rewrite IH. apply orb_true_r.
Qed.

(** A needle that starts with a backtick is not found in a text without
    backticks, and is found behind such a text where it first occurs. *)
Lemma backtick_free_cons (c : ascii) (s : string) :
  PyStr.contains "`" (String c s) = false -> c <> "`"%char /\ PyStr.contains "`" s = false.
Proof.
  cbn [PyStr.contains]. intros [Hc Hs]%orb_false_iff. split; [|done].
  intros ->. simpl in Hc. by destruct s.
Qed.

Lemma prefix_backtick (needle : string) (c : ascii) (s : string) :
  c <> "`"%char -> String.prefix (String "`" needle) (String c s) = false.
Proof.
  intros Hc.
  change (match ascii_dec "`" c with
          | left _ => String.prefix needle s
          | right _ => false
          end = false).
  destruct (ascii_dec "`" c) as [Heq|]; [by subst|done].
Qed.

Lemma find_at_skip (needle pre rest : string) (pos : Z) :
  PyStr.contains "`" pre = false ->
  PyStr.find_at (String "`" needle) (pre +:+ rest) pos
  = PyStr.find_at (String "`" needle) rest (pos + PyStr.len pre).
Proof.
  revert pos. induction pre as [|c pre IH]; intros pos Hpre.
  - rewrite append_nil. f_equal. unfold PyStr.len. simpl. lia.
  - apply backtick_free_cons in Hpre as [Hc Hpre].
    rewrite append_cons.
    cbn [PyStr.find_at]. rewrite (prefix_backtick needle c _ Hc), IH by done.
    f_equal. unfold PyStr.len. simpl String.length. lia.
Qed.

Lemma find_at_hit (needle s : string) (pos : Z) :
  String.prefix needle s = true -> PyStr.find_at needle s pos = pos.
Proof. intros H. destruct s; simpl in *; by rewrite H. Qed.

Lemma find_at_none (needle s : string) (pos : Z) :
  PyStr.contains "`" s = false -> PyStr.find_at (String "`" needle) s pos = -1.
Proof.
  revert pos. induction s as [|c s IH]; intros pos Hs; [done|].
  apply backtick_free_cons in Hs as [Hc Hs].
  cbn [PyStr.find_at]. rewrite (prefix_backtick needle c _ Hc). by apply IH.
Qed.

Lemma contains_none (needle s : string) :
  PyStr.contains "`" s = false -> PyStr.contains (String "`" needle) s = false.
Proof.
  intros Hs. apply (contains_longer "`" _ s); [|done]. simpl. by destruct needle.
Qed.

Lemma bound_within (s : string) (n : nat) :
  (n <= String.length s)%nat -> PyStr.bound s (Z.of_nat n) = n.
Proof.
  intros Hn. unfold PyStr.bound, PyStr.len.
  destruct (Z.ltb_spec (Z.of_nat n) 0); lia.
Qed.

Lemma find_from_within (needle s : string) (n : nat) :
  (n <= String.length s)%nat ->
  PyStr.find_from needle s (Z.of_nat n) = PyStr.find_at needle (PyStr.drop n s) (Z.of_nat n).
Proof.
  intros Hn. unfold PyStr.find_from. rewrite bound_within by done.
  unfold PyStr.len. destruct (Z.ltb_spec (Z.of_nat (String.length s)) (Z.of_nat n)); [lia|done].
Qed.

(** The cut [content[start:end].strip()] of [_parse_query] for a fence
    that opens behind [pre] with [opening]. *)
Lemma cut_closed (opening pre body post : string) :
  PyStr.contains "`" body = false ->
  let content := pre +:+ opening +:+ body +:+ "```" +:+ post in
  let json_start := Z.of_nat (String.length pre + String.length opening) in
  PyStr.slice content json_start (PyStr.find_from "```" content json_start) = body.
Proof.
  intros Hbody content json_start. unfold json_start, content.
  assert (String.length pre + String.length opening
          <= String.length (pre +:+ opening +:+ body +:+ "```" +:+ post))%nat as Hstart
    by (rewrite !length_append; lia).
  rewrite find_from_within by done.
  assert (PyStr.drop (String.length pre + String.length opening)
            (pre +:+ opening +:+ body +:+ "```" +:+ post) = body +:+ "```" +:+ post) as Hdrop.
  { rewrite <- (append_assoc pre opening), <- length_append. apply drop_append. }
  rewrite Hdrop, find_at_skip, find_at_hit by (done || apply prefix_append).
  unfold PyStr.slice. rewrite bound_within by done.
  unfold PyStr.len. rewrite <- Nat2Z.inj_add, bound_within by (rewrite !length_append; lia).
  rewrite Hdrop.
  replace (String.length pre + String.length opening + String.length body
           - (String.length pre + String.length opening))%nat
    with (String.length body) by lia.
  apply take_append.
Qed.

Lemma take_all (n : nat) (s : string) : (String.length s <= n)%nat -> PyStr.take n s = s.
Proof.
  revert n. induction s as [|c s IH]; intros [|n] Hn; simpl in *; try done; try lia.
  rewrite IH; [done|lia].
Qed.

Lemma cut_unclosed (opening pre body : string) :
  PyStr.contains "`" body = false ->
  (1 <= String.length opening)%nat ->
  let content := pre +:+ opening +:+ body in
  let json_start := Z.of_nat (String.length pre + String.length opening) in
  PyStr.slice content json_start (PyStr.find_from "```" content json_start)
  = PyStr.take (String.length body - 1) body.
Proof.
  intros Hbody Hopen content json_start. unfold json_start, content.
  assert (String.length pre + String.length opening
          <= String.length (pre +:+ opening +:+ body))%nat as Hstart
    by (rewrite !length_append; lia).
  rewrite find_from_within by done.
  assert (PyStr.drop (String.length pre + String.length opening)
            (pre +:+ opening +:+ body) = body) as Hdrop.
  { rewrite <- (append_assoc pre opening), <- length_append. apply drop_append. }
  rewrite Hdrop, find_at_none by done.
  unfold PyStr.slice. rewrite bound_within by done. rewrite Hdrop.
  f_equal. unfold PyStr.bound, PyStr.len. rewrite !length_append.
  change (-1 <? 0) with true. cbv iota. lia.
Qed.

(** ** The fence extractor *)

(** X18: a fenced block is recovered.  When the reply holds a block opened
    by [```json] and closed by [```], with no backtick before the block or
    inside it, the extractor returns the text between the fences, stripped
    of surrounding white space, whatever follows the closing fence; the
    same holds for a block opened by a plain [```] when the reply holds
    no [```json] at all. *)
Theorem fenced_block_recovered (pre body post : string) :
  PyStr.contains "`" pre = false ->
  PyStr.contains "`" body = false ->
  QueryAgent.fenced (pre +:+ "```json" +:+ body +:+ "```" +:+ post) = PyStr.strip body
  /\ (PyStr.contains "```json" (pre +:+ "```" +:+ body +:+ "```" +:+ post) = false ->
      QueryAgent.fenced (pre +:+ "```" +:+ body +:+ "```" +:+ post) = PyStr.strip body).
Proof.
  intros Hpre Hbody. split.
  - unfold QueryAgent.fenced.
    rewrite (contains_append "```json" pre) by apply prefix_append.
    unfold PyStr.find. rewrite find_at_skip, find_at_hit by (done || apply prefix_append).
    replace (0 + PyStr.len pre + 7) with (Z.of_nat (String.length pre + String.length "```json"))
      by (unfold PyStr.len; simpl String.length; lia).
    by rewrite (cut_closed "```json" pre body post).
  - intros Hplain. unfold QueryAgent.fenced. rewrite Hplain.
    rewrite (contains_append "```" pre) by apply prefix_append.
    unfold PyStr.find. rewrite find_at_skip, find_at_hit by (done || apply prefix_append).
    replace (0 + PyStr.len pre + 3) with (Z.of_nat (String.length pre + String.length "```"))
      by (unfold PyStr.len; simpl String.length; lia).
    by rewrite (cut_closed "```" pre body post).
Qed.

Lemma fenced_block_recovered_example :
  QueryAgent.fenced ("Here you go: " +:+ "```json" +:+ " {} " +:+ "```" +:+ " Anything else?")
    = PyStr.strip " {} "
  /\ (PyStr.contains "```json"
        ("Here you go: " +:+ "```" +:+ " {} " +:+ "```" +:+ " Anything else?") = false ->
      QueryAgent.fenced ("Here you go: " +:+ "```" +:+ " {} " +:+ "```" +:+ " Anything else?")
        = PyStr.strip " {} ").
Proof.
  apply (fenced_block_recovered "Here you go: " " {} " " Anything else?"); reflexivity.
Defined.

(** X19: an unclosed fence costs the last character.  When the reply, as
    [_parse_query] strips it, holds [```json] with no closing fence and no
    backtick elsewhere, [find] returns -1 and the slice
    [content[json_start:-1]] drops the last character: [json.loads] is
    called on the text behind the fence without its last character (for a
    JSON object, without its closing brace), and the intent is what
    [json.loads] makes of that, or the keyword fallback when it raises. *)
Theorem unclosed_fence_loses_last_character (ext : QueryAgent.External)
    (state : QueryAgent.QueryState) (w : World) (reply pre body : string) :
  QueryAgent.llm_parse ext (QueryAgent.query state) = Ret reply ->
  PyStr.strip reply = pre +:+ "```json" +:+ body ->
  PyStr.contains "`" pre = false ->
  PyStr.contains "`" body = false ->
  QueryAgent.fenced (PyStr.strip reply)
    = PyStr.strip (PyStr.take (String.length body - 1) body)
  /\ QueryAgent._parse_query ext state w =
       (Ret (QueryAgent.with_intent state
               match QueryAgent.json_loads ext
                       (PyStr.strip (PyStr.take (String.length body - 1) body)) with
               | Ret parsed => parsed
               | Raise _ => PDict (QueryAgent.keyword_intent (QueryAgent.query state))
               end), w).
Proof.
  intros Hreply Hstrip Hpre Hbody.
  assert (QueryAgent.fenced (PyStr.strip reply)
          = PyStr.strip (PyStr.take (String.length body - 1) body)) as Hfenced.
  { rewrite Hstrip. unfold QueryAgent.fenced.
    rewrite (contains_append "```json" pre) by apply prefix_append.
    unfold PyStr.find. rewrite find_at_skip, find_at_hit by (done || apply prefix_append).
    replace (0 + PyStr.len pre + 7)
      with (Z.of_nat (String.length pre + String.length "```json"))
      by (unfold PyStr.len; simpl String.length; lia).
    rewrite (cut_unclosed "```json" pre body); [done|done|simpl; lia]. }
  split; [done|].
  unfold QueryAgent._parse_query, try_except, mbind, M_bind, bind, lift.
  rewrite Hreply, Hfenced.
  by destruct (QueryAgent.json_loads ext _).
Qed.

Lemma unclosed_fence_loses_last_character_example :
  QueryAgent.fenced (PyStr.strip "```json{} ") = "{"
  /\ QueryAgent._parse_query
       (QueryAgent.mkExternal
          (fun _ => Ret "```json{} ")
          (fun text => if String.eqb text "{}" then Ret (PDict [])
                       else Raise (TypeError "not JSON"))
          (fun _ _ _ => Ret "No feeds."))
       (parsed []) small_world =
       (Ret (QueryAgent.with_intent (parsed [])
               (PDict (QueryAgent.keyword_intent "which feeds?"))), small_world).
Proof.
  apply (unclosed_fence_loses_last_character
           (QueryAgent.mkExternal
              (fun _ => Ret "```json{} ")
              (fun text => if String.eqb text "{}" then Ret (PDict [])
                           else Raise (TypeError "not JSON"))
              (fun _ _ _ => Ret "No feeds."))
           (parsed []) small_world "```json{} " "" "{}"); reflexivity.
Defined.

(** ** The keyword fallback *)

Lemma keyword_intent_normal (q : string) :
  QueryAgent.keyword_intent q =
    [ ("intent", PScalar (SStr "search"));
      ("theater",
       if PyStr.contains "eur" (PyStr.lower q) then PScalar (SStr "EUR")
       else if PyStr.contains "pac" (PyStr.lower q) then PScalar (SStr "PAC")
       else PScalar SNone);
      ("codec",
       if PyStr.contains "h265" (PyStr.lower q) then PScalar (SStr "H265") else PScalar SNone);
      ("resolution",
       if PyStr.contains "4k" (PyStr.lower q) then PScalar (SStr "4K") else PScalar SNone);
      ("quality",
       if PyStr.contains "best" (PyStr.lower q) || PyStr.contains "quality" (PyStr.lower q)
       then PScalar (SStr "high") else PScalar SNone);
      ("latency", PScalar SNone);
      ("other_filters", PDict []) ].
Proof.
  unfold QueryAgent.keyword_intent.
  assert (PyStr.contains "pacific" (PyStr.lower q) || PyStr.contains "pac" (PyStr.lower q)
          = PyStr.contains "pac" (PyStr.lower q)) as ->.
  { destruct (PyStr.contains "pac" (PyStr.lower q)) eqn:Hpac; [apply orb_true_r|].
    by rewrite (contains_longer "pac" "pacific" _ eq_refl Hpac). }
  assert (PyStr.contains "europe" (PyStr.lower q) || PyStr.contains "eur" (PyStr.lower q)
          = PyStr.contains "eur" (PyStr.lower q)) as ->.
  { destruct (PyStr.contains "eur" (PyStr.lower q)) eqn:Heur; [apply orb_true_r|].
    by rewrite (contains_longer "eur" "europe" _ eq_refl Heur). }
  by destruct (PyStr.contains "pac" (PyStr.lower q)), (PyStr.contains "eur" (PyStr.lower q)),
    (PyStr.contains "h265" (PyStr.lower q)), (PyStr.contains "4k" (PyStr.lower q)),
    (PyStr.contains "best" (PyStr.lower q) || PyStr.contains "quality" (PyStr.lower q)).
Qed.

(** X20: what the keyword fallback reads from a query.  It always has the
    same seven keys, kind "search", and no latency or other filter; the
    theater is EUR as soon as the lower-cased query contains "eur" (also
    when it mentions the Pacific), else PAC when it contains "pac" (inside
    any word, such as "capacity"), else None; testing for "pacific" and
    "europe" adds nothing.  Codec, resolution and quality are set by
    "h265", "4k" and "best" or "quality". *)
Theorem keyword_fallback_reading (q : string) :
  (QueryAgent.keyword_intent q).*1
    = [ "intent"; "theater"; "codec"; "resolution"; "quality"; "latency"; "other_filters" ]
  /\ dict_get "intent" (QueryAgent.keyword_intent q) = PScalar (SStr "search")
  /\ dict_get "theater" (QueryAgent.keyword_intent q)
     = (if PyStr.contains "eur" (PyStr.lower q) then PScalar (SStr "EUR")
        else if PyStr.contains "pac" (PyStr.lower q) then PScalar (SStr "PAC")
        else PScalar SNone)
  /\ dict_get "codec" (QueryAgent.keyword_intent q)
     = (if PyStr.contains "h265" (PyStr.lower q) then PScalar (SStr "H265")
        else PScalar SNone)
  /\ dict_get "resolution" (QueryAgent.keyword_intent q)
     = (if PyStr.contains "4k" (PyStr.lower q) then PScalar (SStr "4K") else PScalar SNone)
  /\ dict_get "quality" (QueryAgent.keyword_intent q)
     = (if PyStr.contains "best" (PyStr.lower q) || PyStr.contains "quality" (PyStr.lower q)
        then PScalar (SStr "high") else PScalar SNone)
  /\ dict_get "latency" (QueryAgent.keyword_intent q) = PScalar SNone
  /\ dict_get "other_filters" (QueryAgent.keyword_intent q) = PDict [].
Proof. rewrite keyword_intent_normal. by repeat split. Qed.

(** * The query pipeline *)

Lemma parse_query_fallback (ext : QueryAgent.External) (state : QueryAgent.QueryState)
    (w : World) :
  ((exists e, QueryAgent.llm_parse ext (QueryAgent.query state) = Raise e)
   \/ (exists reply e,
         QueryAgent.llm_parse ext (QueryAgent.query state) = Ret reply
         /\ QueryAgent.json_loads ext (QueryAgent.fenced (PyStr.strip reply)) = Raise e)) ->
  QueryAgent._parse_query ext state w =
    (Ret (QueryAgent.with_intent state
            (PDict (QueryAgent.keyword_intent (QueryAgent.query state)))), w).
Proof.
  intros [[e He]|(reply & e & Hreply & He)];
    unfold QueryAgent._parse_query, try_except, mbind, M_bind, bind, lift.
  - by rewrite He.
  - by rewrite Hreply, He.
Qed.

Lemma parse_query_parsed (ext : QueryAgent.External) (state : QueryAgent.QueryState)
    (w : World) (reply : string) (v : pyval) :
  QueryAgent.llm_parse ext (QueryAgent.query state) = Ret reply ->
  QueryAgent.json_loads ext (QueryAgent.fenced (PyStr.strip reply)) = Ret v ->
  QueryAgent._parse_query ext state w = (Ret (QueryAgent.with_intent state v), w).
Proof.
  intros Hreply Hv.
  unfold QueryAgent._parse_query, try_except, mbind, M_bind, bind, lift.
  by rewrite Hreply, Hv.
Qed.

(** The resolver on a dictionary intent: it returns, with at most one tool
    invoked, and sets [error] only together with an error result. *)
Lemma execute_tools_returns (quicksort : DataLoader.sort_kind)
    (state : QueryAgent.QueryState) (intent : pydict) (w : World) :
  QueryAgent.intent state = Some (PDict intent) ->
  exists (results : pyval) (state' : QueryAgent.QueryState) (w' : World),
    QueryAgent._execute_tools quicksort state w = (Ret state', w')
    /\ (state' = QueryAgent.with_results state results
        \/ exists msg,
             results = PDict [ ("error", PScalar (SStr msg)) ]
             /\ state' = QueryAgent.with_results
                           (QueryAgent.with_error state ("Error executing tools: " +:+ msg))
                           results)
    /\ (tools_invoked (trace w') = tools_invoked (trace w)
        \/ exists t, tools_invoked (trace w') = (tools_invoked (trace w) ++ [t])%list).
Proof.
  intros Hintent. unfold QueryAgent._execute_tools. rewrite Hintent.
  destruct (eq_str (dict_get "intent" intent) "error").
  { eexists _, _, _. split; [done|]. split; by left. }
  unfold try_except, mbind, M_bind, bind, lift.
  destruct (QueryAgent.tool_calls intent) as [calls|e] eqn:Hcalls.
  2:{ eexists _, _, _. split; [done|]. split; [right; by eexists|by left]. }
  assert (calls = [] \/ exists t params, calls = [(t, params)]) as [->|(t & params & ->)].
  { revert Hcalls. unfold QueryAgent.tool_calls.
    repeat case_match; intros [= <-]; eauto. }
  - eexists _, _, _. split; [done|]. split; by left.
  - simpl. unfold mbind, M_bind, bind.
    pose proof (invoke_trace quicksort t params w) as Htrace.
    destruct (QueryAgent.invoke quicksort t params w) as [[result|e] w1]; simpl in *.
    + eexists _, _, _. split; [done|]. split; [by left|right; by eexists].
    + eexists _, _, _. split; [done|]. split; [right; by eexists|right; by eexists].
Qed.

Lemma grows_try_except {A} (m : M A) (handler : exn -> M A) :
  grows m -> (forall e, grows (handler e)) -> grows (try_except m handler).
Proof.
  intros Hm Hh w cat Hcat. specialize (Hm w cat Hcat). unfold wp, try_except in *.
  destruct (m w) as [[a|e] w1]; simpl in *; [done|].
  destruct Hm as (fs & es & ->).
  destruct (Hh e (grown w fs es) cat (catalog_grown _ _ _ _ Hcat)) as (fs' & es' & Hw').
  rewrite Hw', grown_grown. eauto.
Qed.

Lemma grows_invoke (quicksort : DataLoader.sort_kind) (t : tool) (params : pydict) :
  grows (QueryAgent.invoke quicksort t params).
Proof.
  unfold QueryAgent.invoke. apply grows_bind; [apply grows_log|]. intros _.
  destruct t; repeat grows_step.
Qed.

Lemma grows_run_tool_calls (quicksort : DataLoader.sort_kind)
    (calls : list (tool * pydict)) (results : pydict) :
  grows (QueryAgent.run_tool_calls quicksort calls results).
Proof.
  revert results. induction calls as [|[t params] calls IH]; intros results; simpl.
  - apply grows_ret.
  - apply grows_bind; [apply grows_invoke|]. intros result. apply IH.
Qed.

(** The resolver only adds frames and events to a world with a loaded
    catalog. *)
Lemma grows_execute_tools (quicksort : DataLoader.sort_kind)
    (state : QueryAgent.QueryState) :
  grows (QueryAgent._execute_tools quicksort state).
Proof.
  unfold QueryAgent._execute_tools.
  destruct (QueryAgent.intent state) as [[v|l|intent]|]; try apply grows_raise.
  destruct (eq_str (dict_get "intent" intent) "error"); [apply grows_ret|].
  apply grows_try_except; [|intros e; apply grows_ret].
  apply grows_bind; [apply grows_lift|]. intros calls.
  apply grows_bind; [apply grows_run_tool_calls|]. intros results. apply grows_ret.
Qed.

(** X21: on any intent that is a dictionary, in any world, the resolver
    returns without raising, having invoked at most one tool; it either
    stores the results and leaves [error] alone, or stores the message of
    the exception under [error] in the results and, prefixed with
    "Error executing tools: ", in the state's [error].  Nothing else of
    the state changes, and a loaded catalog holds the same rows
    afterwards. *)
Theorem resolver_runs_at_most_one_tool (quicksort : DataLoader.sort_kind)
    (state : QueryAgent.QueryState) (intent : pydict) (w : World) :
  QueryAgent.intent state = Some (PDict intent) ->
  exists (results : pyval) (state' : QueryAgent.QueryState) (w' : World),
    QueryAgent._execute_tools quicksort state w = (Ret state', w')
    /\ (state' = QueryAgent.with_results state results
        \/ exists msg,
             results = PDict [ ("error", PScalar (SStr msg)) ]
             /\ state' = QueryAgent.with_results
                           (QueryAgent.with_error state ("Error executing tools: " +:+ msg))
                           results)
    /\ (tools_invoked (trace w') = tools_invoked (trace w)
        \/ exists t, tools_invoked (trace w') = (tools_invoked (trace w) ++ [t])%list)
    /\ (forall cat, catalog w = Some cat -> catalog w' = Some cat).
Proof.
  intros Hintent.
  destruct (execute_tools_returns quicksort state intent w Hintent)
    as (results & state' & w' & Hexec & Hstate & Htrace).
  exists results, state', w'. split; [done|]. split; [done|]. split; [done|].
  intros cat Hcat.
  destruct (grows_execute_tools quicksort state w cat Hcat) as (fs & es & Hw').
  rewrite Hexec in Hw'. simpl in Hw'. rewrite Hw'. by apply catalog_grown.
Qed.

Lemma resolver_runs_at_most_one_tool_example :
  exists (results : pyval) (state' : QueryAgent.QueryState) (w' : World),
    QueryAgent._execute_tools insertion_sort (parsed eur_h265_intent) small_world
      = (Ret state', w')
    /\ (state' = QueryAgent.with_results (parsed eur_h265_intent) results
        \/ exists msg,
             results = PDict [ ("error", PScalar (SStr msg)) ]
             /\ state' = QueryAgent.with_results
                           (QueryAgent.with_error (parsed eur_h265_intent)
                              ("Error executing tools: " +:+ msg))
                           results)
    /\ (tools_invoked (trace w') = tools_invoked (trace small_world)
        \/ exists t, tools_invoked (trace w')
                     = (tools_invoked (trace small_world) ++ [t])%list)
    /\ (forall cat, catalog small_world = Some cat -> catalog w' = Some cat).
Proof.
  apply (resolver_runs_at_most_one_tool insertion_sort (parsed eur_h265_intent)
           eur_h265_intent small_world).
  reflexivity.
Defined.

(** X22: a reply that parses to JSON other than an object (a list, a
    string, a number, null) is stored as the intent unchecked; the resolver
    then calls [.get] on it outside its [try] block, so the whole query
    raises AttributeError, with no tool invoked. *)
Theorem non_object_intent_raises (quicksort : DataLoader.sort_kind)
    (ext : QueryAgent.External) (q reply : string) (v : pyval) (w : World) :
  QueryAgent.llm_parse ext q = Ret reply ->
  QueryAgent.json_loads ext (QueryAgent.fenced (PyStr.strip reply)) = Ret v ->
  (forall d, v <> PDict d) ->
  QueryAgent.query_ quicksort ext q w = (Raise (no_attribute v "get"), w).
Proof.
  intros Hreply Hv Hnot. unfold QueryAgent.query_.
  erewrite bind_run; [|by eapply parse_query_parsed].
  apply bind_raise. unfold QueryAgent._execute_tools. simpl.
  destruct v as [s|l|d]; try done. by destruct (Hnot d).
Qed.

Lemma non_object_intent_raises_example :
  QueryAgent.query_ insertion_sort
    (QueryAgent.mkExternal (fun _ => Ret "```json [] ```")
       (fun text => if String.eqb text "[]" then Ret (PList [])
                    else Raise (TypeError "not JSON"))
       (fun _ _ _ => Ret "Here are the feeds."))
    "which feeds?" small_world
  = (Raise (no_attribute (PList []) "get"), small_world).
Proof.
  apply (non_object_intent_raises insertion_sort _ "which feeds?" "```json [] ```" (PList [])
           small_world); [reflexivity|reflexivity|discriminate].
Defined.

Lemma generate_response_error (ext : QueryAgent.External) (state : QueryAgent.QueryState)
    (msg : string) (w : World) :
  QueryAgent.error state = Some msg -> msg <> "" ->
  QueryAgent._generate_response ext state w =
    (Ret (QueryAgent.with_response state ("I encountered an error: " +:+ msg)), w).
Proof.
  intros Herr Hmsg. unfold QueryAgent._generate_response, QueryAgent.error_set.
  rewrite Herr. apply String.eqb_neq in Hmsg. by rewrite Hmsg.
Qed.

Lemma generate_response_normal (ext : QueryAgent.External) (state : QueryAgent.QueryState)
    (w : World) :
  QueryAgent.error state = None ->
  QueryAgent._generate_response ext state w =
    (Ret (QueryAgent.with_response state
            match QueryAgent.llm_respond ext (QueryAgent.query state)
                    (QueryAgent.intent state) (QueryAgent.data_results state) with
            | Ret text => text
            | Raise e => "I encountered an error generating the response: " +:+ exn_str e
            end), w).
Proof.
  intros Herr. unfold QueryAgent._generate_response, QueryAgent.error_set.
  rewrite Herr. unfold try_except, mbind, M_bind, bind, lift.
  by destruct (QueryAgent.llm_respond _ _ _ _).
Qed.

(** X23: with the model unreachable (or its reply not parsable), a query
    that contains none of "pac", "eur", "h265", "best", "quality" is not
    answered by the catalog listing: the fallback intent carries
    [quality = None], the resolver fails on [None.lower()], and the answer is
    the fixed error text; no tool runs and the world is untouched, in any
    world. *)
Theorem offline_query_without_keyword (quicksort : DataLoader.sort_kind)
    (ext : QueryAgent.External) (q : string) (w : World) :
  ((exists e, QueryAgent.llm_parse ext q = Raise e)
   \/ (exists reply e,
         QueryAgent.llm_parse ext q = Ret reply
         /\ QueryAgent.json_loads ext (QueryAgent.fenced (PyStr.strip reply)) = Raise e)) ->
  PyStr.contains "pac" (PyStr.lower q) = false ->
  PyStr.contains "eur" (PyStr.lower q) = false ->
  PyStr.contains "h265" (PyStr.lower q) = false ->
  PyStr.contains "best" (PyStr.lower q) = false ->
  PyStr.contains "quality" (PyStr.lower q) = false ->
  QueryAgent.query_ quicksort ext q w =
    (Ret (QueryAgent.mkQueryState q
            (Some (PDict (QueryAgent.keyword_intent q)))
            (Some (PDict [ ("error",
                            PScalar (SStr "'NoneType' object has no attribute 'lower'")) ]))
            (Some ("I encountered an error: Error executing tools: "
                   +:+ "'NoneType' object has no attribute 'lower'"))
            (Some "Error executing tools: 'NoneType' object has no attribute 'lower'")),
     w).
Proof.
  intros Hdown Hpac Heur Hcodec Hbest Hquality. unfold QueryAgent.query_.
  erewrite bind_run; [|by apply parse_query_fallback].
  unfold QueryAgent.with_intent. cbn [QueryAgent.query QueryAgent.data_results
    QueryAgent.response QueryAgent.error].
  assert (eq_str (dict_get "intent" (QueryAgent.keyword_intent q)) "error" = false) as Hkind
    by by rewrite keyword_intent_normal.
  assert (QueryAgent.tool_calls (QueryAgent.keyword_intent q)
          = Raise (no_attribute (PScalar SNone) "lower")) as Hcalls.
  { rewrite keyword_intent_normal, Hpac, Heur, Hcodec, Hbest, Hquality.
    by destruct (PyStr.contains "4k" (PyStr.lower q)). }
  erewrite bind_run.
  2:{ unfold QueryAgent._execute_tools. cbn [QueryAgent.intent]. rewrite Hkind.
      unfold try_except, mbind, M_bind, bind, lift. rewrite Hcalls. done. }
  by erewrite generate_response_error.
Qed.

Lemma offline_query_without_keyword_example :
  QueryAgent.query_ insertion_sort offline "list every camera feed in 4K" small_world =
    (Ret (QueryAgent.mkQueryState "list every camera feed in 4K"
            (Some (PDict (QueryAgent.keyword_intent "list every camera feed in 4K")))
            (Some (PDict [ ("error",
                            PScalar (SStr "'NoneType' object has no attribute 'lower'")) ]))
            (Some ("I encountered an error: Error executing tools: "
                   +:+ "'NoneType' object has no attribute 'lower'"))
            (Some "Error executing tools: 'NoneType' object has no attribute 'lower'")),
     small_world).
Proof.
  apply (offline_query_without_keyword insertion_sort offline
           "list every camera feed in 4K" small_world); try reflexivity.
  left. by eexists.
Defined.

(** X24: with the model unreachable (or its reply not parsable), a query
    that contains "eur" or "pac" is answered from the by-theater filter
    alone: the data results are those of [filter_by_theater] for EUR (if
    "eur" occurs) or else PAC, whatever other keyword occurs; [error]
    stays None, and the response is the model's text or, if that call
    fails too, the fixed text with the exception's message. *)
Theorem offline_query_by_theater (quicksort : DataLoader.sort_kind)
    (ext : QueryAgent.External) (q theater : string) (w : World) (cat : DataFrame) :
  ((exists e, QueryAgent.llm_parse ext q = Raise e)
   \/ (exists reply e,
         QueryAgent.llm_parse ext q = Ret reply
         /\ QueryAgent.json_loads ext (QueryAgent.fenced (PyStr.strip reply)) = Raise e)) ->
  catalog w = Some cat ->
  PyStr.contains "eur" (PyStr.lower q) = true \/ PyStr.contains "pac" (PyStr.lower q) = true ->
  theater = (if PyStr.contains "eur" (PyStr.lower q) then "EUR" else "PAC") ->
  exists (found : DataFrame) (results : pyval) (w' : World),
    found = select (fun row => String.eqb (THEATER (feed row)) theater) cat
    /\ results = PDict [ ("filter_by_theater",
                          PDict [ ("feeds", to_dict_records found);
                                  ("theater", PScalar (SStr theater));
                                  ("count", PScalar (SInt (len found))) ]) ]
    /\ QueryAgent.query_ quicksort ext q w =
         (Ret (QueryAgent.mkQueryState q
                 (Some (PDict (QueryAgent.keyword_intent q)))
                 (Some results)
                 (Some match QueryAgent.llm_respond ext q
                               (Some (PDict (QueryAgent.keyword_intent q)))
                               (Some results) with
                       | Ret text => text
                       | Raise e =>
                           "I encountered an error generating the response: "
                           +:+ exn_str e
                       end)
                 None), w')
    /\ tools_invoked (trace w') = (tools_invoked (trace w) ++ [filter_by_theater_tool])%list
    /\ catalog w' = Some cat.
Proof.
  intros Hdown Hcat Hkey Htheater.
  set (found := select (fun row => String.eqb (THEATER (feed row)) theater) cat).
  set (results := PDict [ ("filter_by_theater",
                           PDict [ ("feeds", to_dict_records found);
                                   ("theater", PScalar (SStr theater));
                                   ("count", PScalar (SInt (len found))) ]) ]).
  exists found, results. unfold QueryAgent.query_.
  erewrite bind_run; [|by apply parse_query_fallback].
  unfold QueryAgent.with_intent. cbn [QueryAgent.query QueryAgent.data_results
    QueryAgent.response QueryAgent.error].
  set (state := QueryAgent.mkQueryState _ _ _ _ _).
  assert (QueryAgent.tool_calls (QueryAgent.keyword_intent q)
          = Ret [ (filter_by_theater_tool, [ ("theater", PScalar (SStr theater)) ]) ])
    as Hcalls.
  { rewrite keyword_intent_normal, Htheater.
    destruct (PyStr.contains "eur" (PyStr.lower q)); [done|].
    destruct Hkey as [Hk|Hk]; [done|by rewrite Hk]. }
  assert (eq_str (dict_get "intent" (QueryAgent.keyword_intent q)) "error" = false) as Hkind
    by by rewrite keyword_intent_normal.
  pose proof (execute_single_call quicksort state (QueryAgent.keyword_intent q) _ _ w
                eq_refl Hkind Hcalls) as Htrace.
  destruct (filter_by_theater_run theater (grown w [] [ToolInvoked filter_by_theater_tool])
              cat) as [w1 Hrun]; [by apply catalog_grown|].
  assert (PyStr.upper theater = theater) as Hupper
    by (rewrite Htheater; by destruct (PyStr.contains "eur" (PyStr.lower q))).
  rewrite Hupper in Hrun.
  assert (QueryAgent._execute_tools quicksort state w =
            (Ret (QueryAgent.with_results state results), w1)) as Hexec.
  { unfold QueryAgent._execute_tools. cbn [QueryAgent.intent state]. rewrite Hkind.
    unfold try_except. erewrite bind_run; [|unfold lift; by rewrite Hcalls].
    erewrite bind_run; [done|].
    simpl. erewrite bind_run; [done|].
    unfold QueryAgent.invoke. rewrite (bind_run _ _ _ _ _ (log_run _ w)). simpl.
    exact Hrun. }
  rewrite Hexec in Htrace. simpl in Htrace.
  erewrite bind_run; [|exact Hexec].
  rewrite generate_response_normal by done.
  exists w1. split; [done|]. split; [done|]. split; [done|]. split; [done|].
  pose proof (grows_perform quicksort (filter_by_theater_op theater)
                (grown w [] [ToolInvoked filter_by_theater_tool]) cat
                (catalog_grown _ _ _ _ Hcat)) as Hgrows.
  unfold wp in Hgrows. simpl in Hgrows. rewrite Hrun in Hgrows. simpl in Hgrows.
  destruct Hgrows as (fs & es & ->). by apply catalog_grown, catalog_grown.
Qed.

Lemma offline_query_by_theater_example :
  exists (found : DataFrame) (results : pyval) (w' : World),
    found = select (fun row => String.eqb (THEATER (feed row)) "PAC")
              (read_csv [FD_001; FD_002; FD_003])
    /\ results = PDict [ ("filter_by_theater",
                          PDict [ ("feeds", to_dict_records found);
                                  ("theater", PScalar (SStr "PAC"));
                                  ("count", PScalar (SInt (len found))) ]) ]
    /\ QueryAgent.query_ insertion_sort offline "What is the capacity of the H265 feeds?"
         small_world =
         (Ret (QueryAgent.mkQueryState "What is the capacity of the H265 feeds?"
                 (Some (PDict (QueryAgent.keyword_intent
                                 "What is the capacity of the H265 feeds?")))
                 (Some results)
                 (Some match QueryAgent.llm_respond offline
                               "What is the capacity of the H265 feeds?"
                               (Some (PDict (QueryAgent.keyword_intent
                                               "What is the capacity of the H265 feeds?")))
                               (Some results) with
                       | Ret text => text
                       | Raise e =>
                           "I encountered an error generating the response: "
                           +:+ exn_str e
                       end)
                 None), w')
    /\ tools_invoked (trace w')
       = (tools_invoked (trace small_world) ++ [filter_by_theater_tool])%list
    /\ catalog w' = Some (read_csv [FD_001; FD_002; FD_003]).
Proof.
  apply (offline_query_by_theater insertion_sort offline
           "What is the capacity of the H265 feeds?" "PAC" small_world
           (read_csv [FD_001; FD_002; FD_003])); try reflexivity.
  - left. by eexists.
  - by right.
Defined.

(** ** Hints the resolver never reads *)

(** X25: the resolver reads only the keys [intent], [error], [theater],
    [codec] and [quality] of the intent: two intents that agree on these
    five (and differ, say, in [resolution], [latency] or [other_filters])
    give the same tool run, the same results and the same error. *)
Theorem unused_hints_ignored (quicksort : DataLoader.sort_kind)
    (state : QueryAgent.QueryState) (d1 d2 : pydict) (w : World) :
  (forall k, k ∈ [ "intent"; "error"; "theater"; "codec"; "quality" ] ->
             dict_lookup k d1 = dict_lookup k d2) ->
  exists (state' : QueryAgent.QueryState) (w' : World),
    QueryAgent._execute_tools quicksort (QueryAgent.with_intent state (PDict d1)) w
      = (Ret state', w')
    /\ QueryAgent._execute_tools quicksort (QueryAgent.with_intent state (PDict d2)) w
       = (Ret (QueryAgent.with_intent state' (PDict d2)), w').
Proof.
  intros Hsame.
  assert (forall k, k ∈ [ "intent"; "error"; "theater"; "codec"; "quality" ] ->
                    dict_get k d1 = dict_get k d2) as Hget.
  { intros k Hk. unfold dict_get. by rewrite (Hsame k Hk). }
  assert (dict_get_default "error" (PScalar (SStr "Unknown error")) d1
          = dict_get_default "error" (PScalar (SStr "Unknown error")) d2) as Herror.
  { unfold dict_get_default. rewrite (Hsame "error"); [done|]. rewrite !elem_of_cons. auto. }
  assert (QueryAgent.tool_calls d1 = QueryAgent.tool_calls d2) as Hcalls.
  { unfold QueryAgent.tool_calls, dict_get_default.
    rewrite !(Hget "intent"), !(Hget "theater"), !(Hget "codec"), !(Hget "quality"),
      (Hsame "quality") by (rewrite !elem_of_cons; auto 10).
    done. }
  unfold QueryAgent._execute_tools. cbn [QueryAgent.intent QueryAgent.with_intent].
  rewrite (Hget "intent") by (rewrite !elem_of_cons; auto). rewrite Herror, Hcalls.
  destruct (eq_str (dict_get "intent" d2) "error"); [by eexists _, _|].
  unfold try_except, mbind, M_bind, bind, lift.
  destruct (QueryAgent.tool_calls d2) as [calls|e]; [|by eexists _, _].
  destruct (QueryAgent.run_tool_calls quicksort calls [] w) as [[results|e] w'];
    by eexists _, _.
Qed.

Lemma unused_hints_ignored_example :
  exists (state' : QueryAgent.QueryState) (w' : World),
    QueryAgent._execute_tools insertion_sort
      (QueryAgent.with_intent (parsed []) (PDict eur_h265_intent)) small_world
      = (Ret state', w')
    /\ QueryAgent._execute_tools insertion_sort
         (QueryAgent.with_intent (parsed [])
            (PDict (eur_h265_intent ++ [ ("resolution", PScalar (SStr "4K"));
                                         ("latency", PScalar (SStr "low")) ])%list))
         small_world
       = (Ret (QueryAgent.with_intent state'
                 (PDict (eur_h265_intent ++ [ ("resolution", PScalar (SStr "4K"));
                                              ("latency", PScalar (SStr "low")) ])%list)),
          w').
Proof.
  apply (unused_hints_ignored insertion_sort (parsed []) eur_h265_intent
           (eur_h265_intent ++ [ ("resolution", PScalar (SStr "4K"));
                                 ("latency", PScalar (SStr "low")) ])%list small_world).
  intros k Hk. rewrite !elem_of_cons, elem_of_nil in Hk.
  destruct Hk as [->|[->|[->|[->|[->|[]]]]]]; reflexivity.
Defined.

(** ** The quality hint *)

Lemma mcp_get_high_quality_feeds_run (quicksort : DataLoader.sort_kind)
    (w : World) (cat : DataFrame) :
  catalog w = Some cat ->
  exists w',
    MCPTools.get_high_quality_feeds quicksort w =
      (Ret (PDict [ ("feeds",
                     to_dict_records (quicksort Row DataLoader.score_of (map annotate cat)));
                    ("count",
                     PScalar (SInt (len (quicksort Row DataLoader.score_of
                                           (map annotate cat)))));
                    ("quality_metrics",
                     PDict [ ("resolution_weight", PScalar (SInt 3));
                             ("codec_weight", PScalar (SInt 2));
                             ("latency_weight", PScalar (SInt 1)) ]) ]), w').
Proof.
  intros (r & Hr & Hcat)%catalog_loaded. unfold MCPTools.get_high_quality_feeds.
  erewrite bind_run; [|by apply (get_high_quality_feeds_run quicksort w r cat)].
  erewrite bind_run; [by eexists|]. apply deref_run. simpl.
  rewrite (lookup_app_r (heap w)) by lia.
  replace (S (length (heap w)) - length (heap w))%nat with 1%nat by lia. done.
Qed.

(** X26: the quality hint.  For an intent of kind "filter", "search" or
    "analyze" without a theater or codec hint, a quality hint that is
    "high" or contains "best" in any letter case makes the quality ranking
    the one tool that runs; the data results hold its ranked feeds under
    [get_high_quality_feeds] and [error] stays as it was. *)
Theorem quality_hint_ranks (quicksort : DataLoader.sort_kind)
    (state : QueryAgent.QueryState) (intent : pydict) (kind quality : string)
    (w : World) (cat : DataFrame) :
  QueryAgent.intent state = Some (PDict intent) ->
  catalog w = Some cat ->
  dict_lookup "intent" intent = Some (PScalar (SStr kind)) ->
  kind ∈ ["filter"; "search"; "analyze"] ->
  truthy (dict_get "theater" intent) = false ->
  truthy (dict_get "codec" intent) = false ->
  dict_lookup "quality" intent = Some (PScalar (SStr quality)) ->
  quality = "high" \/ PyStr.contains "best" (PyStr.lower quality) = true ->
  exists (ranked : DataFrame) (state' : QueryAgent.QueryState) (w' : World),
    ranked = quicksort Row DataLoader.score_of (map annotate cat)
    /\ QueryAgent._execute_tools quicksort state w = (Ret state', w')
    /\ QueryAgent.data_results state' =
         Some (PDict [ ("get_high_quality_feeds",
                        PDict [ ("feeds", to_dict_records ranked);
                                ("count", PScalar (SInt (len ranked)));
                                ("quality_metrics",
                                 PDict [ ("resolution_weight", PScalar (SInt 3));
                                         ("codec_weight", PScalar (SInt 2));
                                         ("latency_weight", PScalar (SInt 1)) ]) ]) ])
    /\ QueryAgent.error state' = QueryAgent.error state
    /\ tools_invoked (trace w')
       = (tools_invoked (trace w) ++ [get_high_quality_feeds_tool])%list.
Proof.
  intros Hintent Hcat Hkind Hin Htheater Hcodec Hquality Hhigh.
  destruct (query_kind_facts intent kind Hkind Hin) as [Herr Hquery].
  assert (QueryAgent.tool_calls intent = Ret [ (get_high_quality_feeds_tool, []) ])
    as Hcalls.
  { unfold QueryAgent.tool_calls. rewrite Hquery, Htheater, Hcodec.
    unfold dict_get, dict_get_default. rewrite Hquality. simpl.
    destruct (String.eqb_spec quality "high") as [|Hne]; [done|].
    destruct Hhigh as [?|Hbest]; [done|]. by rewrite Hbest. }
  pose proof (execute_single_call quicksort state intent _ _ w Hintent Herr Hcalls)
    as Htrace.
  destruct (mcp_get_high_quality_feeds_run quicksort
              (grown w [] [ToolInvoked get_high_quality_feeds_tool]) cat) as [w1 Hrun];
    [by apply catalog_grown|].
  revert Htrace. unfold QueryAgent._execute_tools. rewrite Hintent, Herr.
  unfold try_except. erewrite bind_run; [|unfold lift; by rewrite Hcalls].
  simpl. erewrite bind_run.
  2:{ erewrite bind_run; [done|].
      unfold QueryAgent.invoke. rewrite (bind_run _ _ _ _ _ (log_run _ w)).
      exact Hrun. }
  unfold mret, M_ret, ret. simpl. intros Htrace.
  eexists _, _, _. split; [done|]. split; [done|]. by repeat split.
Qed.

Lemma quality_hint_ranks_example :
  exists (ranked : DataFrame) (state' : QueryAgent.QueryState) (w' : World),
    ranked = insertion_sort Row DataLoader.score_of
               (map annotate (read_csv [FD_001; FD_002; FD_003]))
    /\ QueryAgent._execute_tools insertion_sort
         (parsed [ ("intent", PScalar (SStr "search"));
                   ("quality", PScalar (SStr "Best clarity")) ]) small_world
       = (Ret state', w')
    /\ QueryAgent.data_results state' =
         Some (PDict [ ("get_high_quality_feeds",
                        PDict [ ("feeds", to_dict_records ranked);
                                ("count", PScalar (SInt (len ranked)));
                                ("quality_metrics",
                                 PDict [ ("resolution_weight", PScalar (SInt 3));
                                         ("codec_weight", PScalar (SInt 2));
                                         ("latency_weight", PScalar (SInt 1)) ]) ]) ])
    /\ QueryAgent.error state' = None
    /\ tools_invoked (trace w') = [get_high_quality_feeds_tool].
Proof.
  apply (quality_hint_ranks insertion_sort
           (parsed [ ("intent", PScalar (SStr "search"));
                     ("quality", PScalar (SStr "Best clarity")) ])
           [ ("intent", PScalar (SStr "search")); ("quality", PScalar (SStr "Best clarity")) ]
           "search" "Best clarity" small_world (read_csv [FD_001; FD_002; FD_003]));
    try reflexivity.
  - rewrite !elem_of_cons. auto.
  - by right.
Defined.

(** ** The whole query *)

(** X27: unless the model's reply parses to JSON that is not an object,
    [query] returns: the result echoes the query, holds an intent that is
    a dictionary, data results and a response; when [error] is set the
    response is "I encountered an error: " followed by it; at most one tool
    was invoked and a loaded catalog holds the same rows afterwards. *)
Theorem query_always_answers (quicksort : DataLoader.sort_kind)
    (ext : QueryAgent.External) (q : string) (w : World) :
  (forall reply v,
      QueryAgent.llm_parse ext q = Ret reply ->
      QueryAgent.json_loads ext (QueryAgent.fenced (PyStr.strip reply)) = Ret v ->
      exists d, v = PDict d) ->
  exists (state : QueryAgent.QueryState) (w' : World),
    QueryAgent.query_ quicksort ext q w = (Ret state, w')
    /\ QueryAgent.query state = q
    /\ (exists d, QueryAgent.intent state = Some (PDict d))
    /\ is_Some (QueryAgent.data_results state)
    /\ is_Some (QueryAgent.response state)
    /\ (forall msg, QueryAgent.error state = Some msg ->
                    QueryAgent.response state = Some ("I encountered an error: " +:+ msg))
    /\ (tools_invoked (trace w') = tools_invoked (trace w)
        \/ exists t, tools_invoked (trace w') = (tools_invoked (trace w) ++ [t])%list)
    /\ (forall cat, catalog w = Some cat -> catalog w' = Some cat).
Proof.
  intros Hobject. unfold QueryAgent.query_.
  set (initial := QueryAgent.mkQueryState q None None None None).
  assert (exists d, QueryAgent._parse_query ext initial w
                    = (Ret (QueryAgent.with_intent initial (PDict d)), w)) as [d Hparse].
  { destruct (QueryAgent.llm_parse ext q) as [reply|e] eqn:Hreply.
    - destruct (QueryAgent.json_loads ext (QueryAgent.fenced (PyStr.strip reply)))
        as [v|e] eqn:Hv.
      + destruct (Hobject reply v eq_refl Hv) as [d ->]. exists d.
        by eapply parse_query_parsed.
      + eexists. apply parse_query_fallback. right. by eauto.
    - eexists. apply parse_query_fallback. left. by eauto. }
  erewrite bind_run; [|exact Hparse].
  destruct (execute_tools_returns quicksort (QueryAgent.with_intent initial (PDict d)) d w
              eq_refl) as (results & state' & w' & Hexec & Hstate & Htrace).
  erewrite bind_run; [|exact Hexec].
  assert (forall cat, catalog w = Some cat -> catalog w' = Some cat) as Hcatalog.
  { intros cat Hcat.
    destruct (grows_execute_tools quicksort (QueryAgent.with_intent initial (PDict d))
                w cat Hcat) as (fs & es & Hw').
    rewrite Hexec in Hw'. simpl in Hw'. rewrite Hw'. by apply catalog_grown. }
  destruct Hstate as [->|(msg & -> & ->)].
  - rewrite generate_response_normal by done.
    eexists _, w'. split; [done|]. repeat split; eauto. intros msg. discriminate.
  - erewrite generate_response_error; [|done|done].
    eexists _, w'. split; [done|]. repeat split; eauto. by intros ? [= <-].
Qed.

Lemma query_always_answers_example :
  exists (state : QueryAgent.QueryState) (w' : World),
    QueryAgent.query_ insertion_sort offline "best feeds in Europe" small_world
      = (Ret state, w')
    /\ QueryAgent.query state = "best feeds in Europe"
    /\ (exists d, QueryAgent.intent state = Some (PDict d))
    /\ is_Some (QueryAgent.data_results state)
    /\ is_Some (QueryAgent.response state)
    /\ (forall msg, QueryAgent.error state = Some msg ->
                    QueryAgent.response state = Some ("I encountered an error: " +:+ msg))
    /\ (tools_invoked (trace w') = tools_invoked (trace small_world)
        \/ exists t, tools_invoked (trace w')
                     = (tools_invoked (trace small_world) ++ [t])%list)
    /\ (forall cat, catalog small_world = Some cat -> catalog w' = Some cat).
Proof.
  apply (query_always_answers insertion_sort offline "best feeds in Europe" small_world).
  intros reply v Hreply. discriminate.
Defined.
